(** * Biometric access-control service: model and verified properties

    A shallow embedding of the two Python programs of the repository,

      - [src/biometric-service.py]               (the stand-alone service)
      - [src/server/biometric-python-bridge.py]  (the bridge called from Node.js)

    Pure Python code becomes Rocq functions.  Effectful code lives in a small
    monad [M] that threads the local variables of the enclosing loop, records
    every call to the outside world (terminal, database, HTTP endpoint, clock,
    console) in a trace and can raise Python exceptions.  The answers of the
    outside world come from an oracle [Env] that sees the history of the run,
    so that theorems quantified over [Env] hold for every behaviour of the
    terminal, of the record store and of the attendance endpoint.

    Conventions of the model:
      - a column of the store holds NULL, an INTEGER or a TEXT;
      - a string is a sequence of code points below 256;
      - an instant is a naive wall-clock time in microseconds; parsing and
        printing of instants belong to [Env];
      - a printed line is recorded by what it says, without its layout;
      - any call to the outside world may be cut by [KeyboardInterrupt];
      - the two loops that never end take fuel, and running out of it is an
        end of its own ([OutOfFuel]), apart from returning and raising. *)

From stdpp Require Import base option list strings pretty gmap.
From Stdlib Require Import ZArith Lia Ascii.

Open Scope string_scope.
Open Scope list_scope.
Open Scope Z_scope.

(** ** Python and SQLite values *)

(** A value stored in a column of the [members] table.  SQLite columns are
    dynamically typed; the model covers NULL, INTEGER and TEXT. *)
Inductive sqlval :=
| SNull
| SInt (n : Z)
| SText (s : string).

#[global] Instance sqlval_eq_dec : EqDecision sqlval.
Proof. solve_decision. Defined.

(** Python's [str(v)] on a value read from a row. *)
Definition str (v : sqlval) : string :=
  match v with
  | SNull => "None"
  | SInt n => pretty n
  | SText s => s
  end.

(** Python's truth value of [v], as used by [if row['start_date']:]. *)
Definition truthy (v : sqlval) : bool :=
  match v with
  | SNull => false
  | SInt n => negb (n =? 0)
  | SText s => negb (String.eqb s "")
  end.

(** Characters are code points below 256; these are the ones [str.strip()]
    removes: TAB..CR, FS..US, space, NEL and NBSP. *)
Definition isspace (c : ascii) : bool :=
  let n := N_of_ascii c in
  ((9 <=? n) && (n <=? 13) || (28 <=? n) && (n <=? 32) || (n =? 133) || (n =? 160))%N.

Fixpoint lstrip (s : string) : string :=
  match s with
  | "" => ""
  | String c s' => if isspace c then lstrip s' else s
  end.

Fixpoint rstrip (s : string) : string :=
  match s with
  | "" => ""
  | String c s' =>
      match rstrip s' with
      | "" => if isspace c then "" else String c ""
      | r => String c r
      end
  end.

(** [s.strip()] *)
Definition strip (s : string) : string := rstrip (lstrip s).

(** [s.replace('Z', '+00:00')] *)
Fixpoint replace_Z (s : string) : string :=
  match s with
  | "" => ""
  | String c s' =>
      if Ascii.eqb c "Z"%char then "+00:00" +:+ replace_Z s'
      else String c (replace_Z s')
  end.

(** ** The record store *)

(** A row of the [members] table, with the columns the query mentions. *)
Record Row := {
  row_id : sqlval;
  row_name : sqlval;
  row_biometric_id : sqlval;
  row_status : sqlval;
  row_start_date : sqlval;
  row_expiry_date : sqlval;
  row_payment_status : sqlval;
  row_deleted_at : sqlval
}.

(** The [WHERE] clause of the query of [get_members_from_db]:
    [biometric_id IS NOT NULL AND biometric_id != ''
     AND (deleted_at IS NULL OR deleted_at = '')].
    In SQLite an INTEGER never equals a TEXT. *)
Definition sql_is_empty_text (v : sqlval) : bool :=
  match v with
  | SText s => String.eqb s ""
  | _ => false
  end.

Definition sql_is_null (v : sqlval) : bool :=
  match v with
  | SNull => true
  | _ => false
  end.

Definition sql_where (r : Row) : bool :=
  negb (sql_is_null (row_biometric_id r))
  && negb (sql_is_empty_text (row_biometric_id r))
  && (sql_is_null (row_deleted_at r) || sql_is_empty_text (row_deleted_at r)).

(** The dictionary stored in [member_map] for one identifier. *)
Record MemberInfo := {
  info_id : sqlval;
  info_name : sqlval;
  info_status : sqlval;
  info_start_date : sqlval;
  info_expiry_date : sqlval;
  info_payment_status : sqlval
}.

#[global] Instance MemberInfo_eq_dec : EqDecision MemberInfo.
Proof. solve_decision. Defined.

Definition member_info_of (r : Row) : MemberInfo :=
  {| info_id := row_id r;
     info_name := row_name r;
     info_status := row_status r;
     info_start_date := row_start_date r;
     info_expiry_date := row_expiry_date r;
     info_payment_status := row_payment_status r |}.

(** The three values [get_members_from_db] returns. *)
Record Classification := {
  allowed_users : list string;
  denied_users : list string;
  member_map : gmap string MemberInfo
}.

Definition empty_classification : Classification :=
  {| allowed_users := []; denied_users := []; member_map := ∅ |}.

(** Times are naive wall-clock instants, counted in microseconds. *)
Definition datetime := Z.

Section Classify.
(** [datetime.datetime.fromisoformat], with the time zone dropped as the code
    does with [.replace(tzinfo=None)]; [None] stands for [ValueError]. *)
Variable fromisoformat : string → option datetime.

(** Lines 96-102 and 104-110: the date test.  [cmp now d] is [now >= d] for
    the start date and [now <= d] for the expiry date.  A value that is not a
    string has no [.replace] method; the bare [except] swallows that too. *)
Definition date_ok (cmp : datetime → datetime → bool) (now : datetime) (v : sqlval) : bool :=
  if truthy v then
    match v with
    | SText s =>
        match fromisoformat (replace_Z s) with
        | Some d => cmp now d
        | None => true
        end
    | _ => true
    end
  else true.

Definition status_ok (r : Row) : bool :=
  bool_decide (row_status r = SText "active").

Definition start_ok (now : datetime) (r : Row) : bool :=
  date_ok (λ now d, d <=? now) now (row_start_date r).

Definition end_ok (now : datetime) (r : Row) : bool :=
  date_ok (λ now d, now <=? d) now (row_expiry_date r).

Definition payment_ok (r : Row) : bool :=
  negb (bool_decide (row_payment_status r ∈ [SText "pending"; SText "overdue"])).

(** Line 114. *)
Definition allowed (now : datetime) (r : Row) : bool :=
  status_ok r && start_ok now r && end_ok now r && payment_ok r.

(** The identifier under which a row is filed (line 80). *)
Definition biometric_id_of (r : Row) : string := strip (str (row_biometric_id r)).

(** One turn of the loop of lines 79-119. *)
Definition classify_row (now : datetime) (acc : Classification) (row : Row) : Classification :=
  let biometric_id := biometric_id_of row in
  if String.eqb biometric_id "" then acc
  else
    let member_map' := <[biometric_id := member_info_of row]> (member_map acc) in
    if allowed now row then
      {| allowed_users := allowed_users acc ++ [biometric_id];
         denied_users := denied_users acc;
         member_map := member_map' |}
    else
      {| allowed_users := allowed_users acc;
         denied_users := denied_users acc ++ [biometric_id];
         member_map := member_map' |}.

Definition classify_rows (now : datetime) (rows : list Row) : Classification :=
  foldl (classify_row now) empty_classification rows.
End Classify.

(** ** The outside world *)

(** Python exceptions.  [KeyboardInterrupt] is a [BaseException] that
    [except Exception] does not catch; every other exception the programs can
    meet is an [Exception], of which the code tells one subclass apart. *)
Inductive exn_class := ZKNetworkError | ZKErrorResponse | RequestException | OtherError.

Inductive exn :=
| KeyboardInterrupt
| Exception (c : exn_class) (msg : string).

(** A user enrolled on the terminal, with the attributes the code reads. *)
Record User := {
  user_uid : Z;
  user_name : option string;
  user_password : option string;
  user_user_id : string
}.

(** The keyword arguments of [conn.set_user]. *)
Record SetUser := {
  su_uid : Z;
  su_name : string;
  su_privilege : Z;
  su_password : string;
  su_group_id : string;
  su_user_id : string;
  su_card : Z
}.

(** [zk.const.USER_DEFAULT] *)
Definition USER_DEFAULT : Z := 0.

(** An object yielded by [conn.live_capture()]; [None] in [att_user_id] is a
    missing attribute. *)
Record Attendance := {
  att_user_id : option string;
  att_timestamp : option datetime
}.

(** One step of the generator [conn.live_capture()]. *)
Inductive live_item :=
| Yield (attendance : option Attendance)
| Exhausted.

(** The JSON body posted to the attendance endpoint. *)
Record Payload := {
  pl_biometricId : string;
  pl_memberId : sqlval;
  pl_memberName : sqlval;
  pl_allowed : bool;
  pl_reason : string;
  pl_timestamp : string
}.

(** Lines printed by the service, without their layout. *)
Inductive logline :=
| LogDbNotFound
| LogDbError (e : string)
| LogDbSummary (n_allowed n_denied n_total : nat)
| LogConfiguring
| LogFoundUsers (n : nat)
| LogSetAllowed (uid : string)
| LogSetDenied (uid : string)
| LogWarning (e : string)
| LogConfigured
| LogConfigureFailed (e : string)
| LogAttendanceLogged
| LogApiReturned (status_code : Z)
| LogApiFailed (e : string)
| LogApiError (e : string)
| LogAllowed (uid : string) (member_name : sqlval)
| LogDoorUnlocked
| LogRelayFailed (e : string)
| LogDenied (uid : string) (member_name : sqlval)
| LogUnknown (uid : string)
| LogConnecting
| LogConnected
| LogBanner (n_allowed n_denied : nat)
| LogRefreshing
| LogDeviceLocked
| LogDeviceReady
| LogMonitoring
| LogError (e : string)
| LogRetrying (delay : Z)
| LogExiting.

(** Lines of JSON the bridge writes to standard output. *)
Inductive jsonline :=
| JStatus (message : string)
| JConnected (ip : string) (port : Z)
| JScan (userId : string) (timestamp : string)
| JError (error : string).

(** Everything a run does to the outside world, with the answer it got. *)
Inductive event :=
| EvConnect (ip : string) (port comm_key : Z) (o : option exn)
| EvDisableDevice (o : option exn)
| EvEnableDevice (o : option exn)
| EvGetUsers (r : exn + list User)
| EvSetUser (args : SetUser) (o : option exn)
| EvUnlock (secs : Z) (o : option exn)
| EvDisconnect (o : option exn)
| EvLiveCapture (r : exn + live_item)
| EvPost (p : Payload) (r : exn + Z)
| EvSleep (ms : Z) (o : option exn)
| EvNow (t : datetime)
| EvDbExists (b : bool)
| EvDbQuery (r : exn + list Row)
| EvPrint (l : logline)
| EvOut (j : jsonline).

Definition History := list event.

(** The environment of a run: configuration, the pure functions of the Python
    runtime, and one oracle per call to the outside world.  An oracle sees the
    history of the run so far.  [set_first s] is [list(s)[0]], the first
    element of a set in the iteration order of the interpreter. *)
Record Env := {
  DEVICE_IP : string;
  PORT : Z;
  COMM_KEY : Z;
  UNLOCK_SECS : Z;
  fromisoformat : string → option datetime;
  datetime_str : datetime → string;
  isoformat : datetime → string;
  set_first : gset string → string;
  zk_connect : History → option exn;
  zk_disable_device : History → option exn;
  zk_enable_device : History → option exn;
  zk_get_users : History → exn + list User;
  zk_set_user : History → SetUser → option exn;
  zk_unlock : History → Z → option exn;
  zk_disconnect : History → option exn;
  zk_live_capture : History → exn + live_item;
  requests_post : History → Payload → exn + Z;
  time_sleep : History → Z → option exn;
  datetime_now : History → datetime;
  os_path_exists : History → bool;
  sqlite_query : History → exn + list Row
}.

(** ** The monad *)

(** How a piece of code ends: it returns, it raises, or the model ran out of
    fuel in one of the two unbounded loops. *)
Inductive res (A : Type) :=
| Ret (a : A)
| Raise (e : exn)
| OutOfFuel.
Arguments Ret {A} a.
Arguments Raise {A} e.
Arguments OutOfFuel {A}.

(** A computation over local variables [S]: from the environment, the history
    and the variables, to the events it adds, the variables and its end. *)
Definition M (S A : Type) : Type := Env → History → S → list event * S * res A.

Definition ret {S A} (a : A) : M S A := λ _ _ s, ([], s, Ret a).

Definition bind {S A B} (m : M S A) (f : A → M S B) : M S B :=
  λ env h s,
    let '(o1, s1, r1) := m env h s in
    match r1 with
    | Ret a => let '(o2, s2, r2) := f a env (h ++ o1) s1 in (o1 ++ o2, s2, r2)
    | Raise e => (o1, s1, Raise e)
    | OutOfFuel => (o1, s1, OutOfFuel)
    end.

#[global] Instance M_ret S : MRet (M S) := @ret S.
#[global] Instance M_bind S : MBind (M S) := λ A B f m, bind m f.

Definition raise {S A} (e : exn) : M S A := λ _ _ s, ([], s, Raise e).
Definition out_of_fuel {S A} : M S A := λ _ _ s, ([], s, OutOfFuel).
Definition ask {S} : M S Env := λ env _ s, ([], s, Ret env).
Definition get {S} : M S S := λ _ _ s, ([], s, Ret s).
Definition modify {S} (f : S → S) : M S () := λ _ _ s, ([], f s, Ret ()).

(** [try: m  except BaseException as e: handler e] *)
Definition try_catch {S A} (m : M S A) (handler : exn → M S A) : M S A :=
  λ env h s,
    let '(o1, s1, r1) := m env h s in
    match r1 with
    | Raise e => let '(o2, s2, r2) := handler e env (h ++ o1) s1 in (o1 ++ o2, s2, r2)
    | _ => (o1, s1, r1)
    end.

(** [try: m  except Exception as e: handler e] *)
Definition try_except {S A} (m : M S A) (handler : exn_class → string → M S A) : M S A :=
  try_catch m (λ e, match e with
                    | KeyboardInterrupt => raise KeyboardInterrupt
                    | Exception c msg => handler c msg
                    end).

(** [try: m  except: pass] *)
Definition try_pass {S} (m : M S ()) : M S () := try_catch m (λ _, ret ()).

(** [try: m  finally: fin] *)
Definition try_finally {S A} (m : M S A) (fin : M S ()) : M S A :=
  λ env h s,
    let '(o1, s1, r1) := m env h s in
    match r1 with
    | OutOfFuel => (o1, s1, OutOfFuel)
    | _ =>
        let '(o2, s2, r2) := fin env (h ++ o1) s1 in
        (o1 ++ o2, s2, match r2 with
                       | Ret _ => r1
                       | Raise e => Raise e
                       | OutOfFuel => OutOfFuel
                       end)
    end.

(** [for x in l: body x] *)
Fixpoint for_each {S A} (l : list A) (body : A → M S ()) : M S () :=
  match l with
  | [] => ret ()
  | x :: l' => bind (body x) (λ _, for_each l' body)
  end.

(** One call to the outside world: the oracle answers, the event is recorded. *)
Definition perform {S A} (f : Env → History → event * res A) : M S A :=
  λ env h s, let '(e, r) := f env h in ([e], s, r).

Definition of_outcome (o : option exn) : res () :=
  match o with
  | None => Ret ()
  | Some e => Raise e
  end.

Definition of_sum {A} (r : exn + A) : res A :=
  match r with
  | inl e => Raise e
  | inr a => Ret a
  end.

Definition print {S} (l : logline) : M S () := perform (λ _ _, (EvPrint l, Ret ())).
Definition print_json {S} (j : jsonline) : M S () := perform (λ _ _, (EvOut j, Ret ())).
Definition now {S} : M S datetime :=
  perform (λ env h, let t := datetime_now env h in (EvNow t, Ret t)).
Definition sleep {S} (ms : Z) : M S () :=
  perform (λ env h, let o := time_sleep env h ms in (EvSleep ms o, of_outcome o)).
Definition path_exists {S} : M S bool :=
  perform (λ env h, let b := os_path_exists env h in (EvDbExists b, Ret b)).
Definition query_members {S} : M S (list Row) :=
  perform (λ env h, let r := sqlite_query env h in (EvDbQuery r, of_sum r)).
Definition zk_connect_to {S} (ip : string) (port comm_key : Z) : M S () :=
  perform (λ env h, let o := zk_connect env h in (EvConnect ip port comm_key o, of_outcome o)).
Definition conn_disable_device {S} : M S () :=
  perform (λ env h, let o := zk_disable_device env h in (EvDisableDevice o, of_outcome o)).
Definition conn_enable_device {S} : M S () :=
  perform (λ env h, let o := zk_enable_device env h in (EvEnableDevice o, of_outcome o)).
Definition conn_get_users {S} : M S (list User) :=
  perform (λ env h, let r := zk_get_users env h in (EvGetUsers r, of_sum r)).
Definition conn_set_user {S} (args : SetUser) : M S () :=
  perform (λ env h, let o := zk_set_user env h args in (EvSetUser args o, of_outcome o)).
Definition conn_unlock {S} (secs : Z) : M S () :=
  perform (λ env h, let o := zk_unlock env h secs in (EvUnlock secs o, of_outcome o)).
Definition conn_disconnect {S} : M S () :=
  perform (λ env h, let o := zk_disconnect env h in (EvDisconnect o, of_outcome o)).
Definition conn_live_capture {S} : M S live_item :=
  perform (λ env h, let r := zk_live_capture env h in (EvLiveCapture r, of_sum r)).
Definition post {S} (p : Payload) : M S Z :=
  perform (λ env h, let r := requests_post env h p in (EvPost p r, of_sum r)).

(** ** The service: [src/biometric-service.py] *)

(** [get_members_from_db], lines 45-126.  The [try] block covers the connection
    to the database, the query and the loop over the rows. *)
Definition get_members_from_db {S} : M S Classification :=
  found ← path_exists;
  if negb found then
    print LogDbNotFound;;
    mret empty_classification
  else
    try_except
      (table ← query_members;
       let rows := List.filter sql_where table in
       t ← now;
       env ← ask;
       let c := classify_rows (fromisoformat env) t rows in
       print (LogDbSummary (length (allowed_users c)) (length (denied_users c))
                           (size (member_map c)));;
       mret c)
      (λ _ msg, print (LogDbError msg);; mret empty_classification).

(** [{str(u.user_id): u for u in all_users}] *)
Definition user_dict_of (all_users : list User) : gmap string User :=
  foldl (λ d u, <[user_user_id u := u]> d) ∅ all_users.

Definition set_user_args (user : User) (group_id uid : string) : SetUser :=
  {| su_uid := user_uid user;
     su_name := default "" (user_name user);
     su_privilege := USER_DEFAULT;
     su_password := default "" (user_password user);
     su_group_id := group_id;
     su_user_id := uid;
     su_card := 0 |}.

(** The body shared by the two loops of lines 141-156 and 159-174. *)
Definition assign_group {S} (user_dict : gmap string User) (group_id : string)
    (line : string → logline) (uid : string) : M S () :=
  match user_dict !! uid with
  | Some user =>
      print (line uid);;
      try_except (conn_set_user (set_user_args user group_id uid))
                 (λ _ msg, print (LogWarning msg))
  | None => mret ()
  end.

(** [configure_device_access_groups], lines 128-182. *)
Definition configure_device_access_groups {S} (allowed_users denied_users : list string)
    : M S () :=
  print LogConfiguring;;
  try_except
    (all_users ← conn_get_users;
     let user_dict := user_dict_of all_users in
     print (LogFoundUsers (length all_users));;
     for_each allowed_users (assign_group user_dict "1" LogSetAllowed);;
     for_each denied_users (assign_group user_dict "0" LogSetDenied);;
     print LogConfigured)
    (λ _ msg, print (LogConfigureFailed msg)).

(** [send_attendance_event], lines 184-206. *)
Definition send_attendance_event {S} (user_id : string) (member_id member_name : sqlval)
    (allowed : bool) (reason : string) (timestamp : datetime) : M S () :=
  try_except
    (env ← ask;
     let payload :=
       {| pl_biometricId := user_id;
          pl_memberId := member_id;
          pl_memberName := member_name;
          pl_allowed := allowed;
          pl_reason := reason;
          pl_timestamp := isoformat env timestamp |} in
     status_code ← post payload;
     if status_code =? 200 then print LogAttendanceLogged
     else print (LogApiReturned status_code))
    (λ c msg,
       match c with
       | RequestException => print (LogApiFailed msg)
       | _ => print (LogApiError msg)
       end).

(** Lines 242-249: why a denied member was denied.  [None] is the empty
    dictionary that [member_map.get(uid, {})] returns for a missing key. *)
Definition denial_reason (member_info : option MemberInfo) : string :=
  match member_info with
  | Some info =>
      if negb (bool_decide (info_status info = SText "active")) then "inactive"
      else if bool_decide (info_payment_status info ∈ [SText "pending"; SText "overdue"])
           then "payment_" +:+ str (info_payment_status info)
           else "expired"
  | None => "denied"
  end.

(** [process_scan], lines 208-256. *)
Definition process_scan {S} (uid : string) (timestamp : option datetime)
    (allowed_users denied_users : list string) (member_map : gmap string MemberInfo)
    : M S () :=
  t ← now;
  let member_info := member_map !! uid in
  let member_id := from_option info_id SNull member_info in
  let member_name := from_option info_name (SText ("User " +:+ uid)) member_info in
  if bool_decide (uid ∈ allowed_users) then
    print (LogAllowed uid member_name);;
    try_except
      (env ← ask;
       conn_unlock (UNLOCK_SECS env);;
       print LogDoorUnlocked;;
       send_attendance_event uid member_id member_name true "allowed" (default t timestamp))
      (λ _ msg,
         print (LogRelayFailed msg);;
         send_attendance_event uid member_id member_name false "relay_error"
                               (default t timestamp))
  else if bool_decide (uid ∈ denied_users) then
    print (LogDenied uid member_name);;
    send_attendance_event uid member_id member_name false (denial_reason member_info)
                          (default t timestamp)
  else
    print (LogUnknown uid);;
    send_attendance_event uid SNull SNull false "unknown_user" (default t timestamp).

(** [connect_device], lines 258-263. *)
Definition connect_device {S} : M S () :=
  env ← ask;
  print LogConnecting;;
  zk_connect_to (DEVICE_IP env) (PORT env) (COMM_KEY env);;
  print LogConnected.

(** The local variables of [main]; [conn] is [true] when the variable [conn]
    holds a connection and [false] when it is [None]. *)
Record Service := {
  seen_events : gset string;
  reconnect_delay : Z;
  device_configured : bool;
  last_db_refresh : datetime;
  members : Classification;
  conn : bool
}.

Definition set_seen_events (v : gset string) (st : Service) : Service :=
  {| seen_events := v; reconnect_delay := reconnect_delay st;
     device_configured := device_configured st; last_db_refresh := last_db_refresh st;
     members := members st; conn := conn st |}.

Definition set_reconnect_delay (v : Z) (st : Service) : Service :=
  {| seen_events := seen_events st; reconnect_delay := v;
     device_configured := device_configured st; last_db_refresh := last_db_refresh st;
     members := members st; conn := conn st |}.

Definition set_device_configured (v : bool) (st : Service) : Service :=
  {| seen_events := seen_events st; reconnect_delay := reconnect_delay st;
     device_configured := v; last_db_refresh := last_db_refresh st;
     members := members st; conn := conn st |}.

Definition set_last_db_refresh (v : datetime) (st : Service) : Service :=
  {| seen_events := seen_events st; reconnect_delay := reconnect_delay st;
     device_configured := device_configured st; last_db_refresh := v;
     members := members st; conn := conn st |}.

Definition set_members (v : Classification) (st : Service) : Service :=
  {| seen_events := seen_events st; reconnect_delay := reconnect_delay st;
     device_configured := device_configured st; last_db_refresh := last_db_refresh st;
     members := v; conn := conn st |}.

Definition set_conn (v : bool) (st : Service) : Service :=
  {| seen_events := seen_events st; reconnect_delay := reconnect_delay st;
     device_configured := device_configured st; last_db_refresh := last_db_refresh st;
     members := members st; conn := v |}.

(** [db_refresh_interval = 300] seconds, in the unit of [datetime]. *)
Definition db_refresh_interval : Z := 300 * 1000000.

(** [time.sleep] takes seconds; the trace counts milliseconds. *)
Definition seconds (n : Z) : Z := 1000 * n.

(** Lines 266-284: the variables of [main] before its loop. *)
Definition main_init : M () Service :=
  t ← now;
  c ← get_members_from_db;
  print (LogBanner (length (allowed_users c)) (length (denied_users c)));;
  mret {| seen_events := ∅; reconnect_delay := 2; device_configured := false;
          last_db_refresh := t; members := c; conn := false |}.

(** Lines 291-324: what happens between a successful connection and the first
    event of the live capture. *)
Definition setup_phase : M Service () :=
  t ← now;
  st ← get;
  (if db_refresh_interval <? t - last_db_refresh st then
     print LogRefreshing;;
     c ← get_members_from_db;
     modify (set_members c);;
     modify (set_device_configured false);;
     t' ← now;
     modify (set_last_db_refresh t')
   else mret ());;
  try_pass (conn_disable_device;; print LogDeviceLocked);;
  st ← get;
  (if negb (device_configured st) then
     configure_device_access_groups (allowed_users (members st)) (denied_users (members st));;
     modify (set_device_configured true)
   else mret ());;
  try_pass (conn_enable_device;; print LogDeviceReady);;
  print LogMonitoring;;
  modify (set_reconnect_delay 2).

(** [f"{uid}-{ts}"] *)
Definition event_key (env : Env) (uid : string) (ts : option datetime) : string :=
  uid +:+ "-" +:+ from_option (datetime_str env) "None" ts.

(** Lines 340-344: remember a key, and forget one when more than 500 are kept. *)
Definition remember (env : Env) (key : string) (seen : gset string) : gset string :=
  let seen' := {[key]} ∪ seen in
  if (500 <? size seen')%nat then seen' ∖ {[set_first env seen']} else seen'.

(** Lines 328-346: the body of the loop over the live capture. *)
Definition on_attendance (attendance : option Attendance) : M Service () :=
  match attendance with
  | None => mret ()
  | Some a =>
      let uid := default "" (att_user_id a) in
      let ts := att_timestamp a in
      if String.eqb uid "" then mret ()
      else
        env ← ask;
        st ← get;
        let key := event_key env uid ts in
        if bool_decide (key ∈ seen_events st) then mret ()
        else
          modify (set_seen_events (remember env key (seen_events st)));;
          process_scan uid ts (allowed_users (members st)) (denied_users (members st))
                       (member_map (members st))
  end.

(** Line 327: [for attendance in conn.live_capture()], at most [fuel] events. *)
Fixpoint live_capture_loop (fuel : nat) : M Service () :=
  match fuel with
  | O => out_of_fuel
  | S fuel' =>
      item ← conn_live_capture;
      match item with
      | Exhausted => mret ()
      | Yield attendance => on_attendance attendance;; live_capture_loop fuel'
      end
  end.

(** What the body of [while True] tells the loop. *)
Inductive ctl := Continue | Break.

(** Lines 352-356: the handler of every [Exception]. *)
Definition on_error (msg : string) : M Service ctl :=
  print (LogError msg);;
  st ← get;
  print (LogRetrying (reconnect_delay st));;
  sleep (seconds (reconnect_delay st));;
  modify (set_reconnect_delay (Z.min (reconnect_delay st * 2) 60));;
  mret Continue.

(** Lines 289-346: the [try] block. *)
Definition session (fuel : nat) : M Service ctl :=
  connect_device;;
  modify (set_conn true);;
  setup_phase;;
  live_capture_loop fuel;;
  mret Continue.

(** Lines 287-363: one turn of [while True]. *)
Definition main_iteration (fuel : nat) : M Service ctl :=
  modify (set_conn false);;
  try_finally
    (try_catch (session fuel)
       (λ e, match e with
             | KeyboardInterrupt => print LogExiting;; mret Break
             | Exception _ msg => on_error msg
             end))
    (st ← get; if conn st then try_pass conn_disconnect else mret ()).

(** [while True], at most [turns] turns. *)
Fixpoint main_loop (fuel turns : nat) : M Service () :=
  match turns with
  | O => out_of_fuel
  | S turns' =>
      c ← main_iteration fuel;
      match c with
      | Break => mret ()
      | Continue => main_loop fuel turns'
      end
  end.

(** [main], lines 265-363. *)
Definition main (fuel turns : nat) (env : Env) (h : History) : list event * res () :=
  let '(o1, _, r1) := main_init env h () in
  match r1 with
  | Ret st => let '(o2, _, r2) := main_loop fuel turns env (h ++ o1) st in (o1 ++ o2, r2)
  | Raise e => (o1, Raise e)
  | OutOfFuel => (o1, OutOfFuel)
  end.

(** ** The bridge: [src/server/biometric-python-bridge.py] *)

(** A scalar of the JSON text given to [sync_access_groups]. *)
Inductive jval :=
| JNull
| JBool (b : bool)
| JNum (n : Z)
| JStr (s : string).

(** An element of the decoded list: a JSON object with scalar fields, or
    something that has no [.get] method. *)
Inductive member_json :=
| MObject (fields : gmap string jval)
| MOther (v : jval).

Definition jtruthy (v : jval) : bool :=
  match v with
  | JNull => false
  | JBool b => b
  | JNum n => negb (n =? 0)
  | JStr s => negb (String.eqb s "")
  end.

(** [str(v)] on a decoded scalar. *)
Definition jstr (v : jval) : string :=
  match v with
  | JNull => "None"
  | JBool true => "True"
  | JBool false => "False"
  | JNum n => pretty n
  | JStr s => s
  end.

(** An entry of ["results"]. *)
Inductive sync_item :=
| ItemOk (userId : string) (allowed : jval)
| ItemFailed (userId : string) (error : string).

(** The dictionaries the commands of the bridge return. *)
Inductive reply :=
| Success
| SuccessResults (results : list sync_item)
| SuccessConnected
| Failure (error : string)
| FailureNotConnected (error : string).

(** [str(member.get("biometricId") or member.get("biometric_id", ""))] *)
Definition member_biometric_id (fields : gmap string jval) : string :=
  let a := default JNull (fields !! "biometricId") in
  jstr (if jtruthy a then a else default (JStr "") (fields !! "biometric_id")).

(** Lines 30-51: the loop over the members, [results] being the list built
    so far. *)
Fixpoint sync_members {S} (user_dict : gmap string User) (members : list member_json)
    (results : list sync_item) : M S (list sync_item) :=
  match members with
  | [] => mret results
  | MOther _ :: _ => raise (Exception OtherError "object has no attribute 'get'")
  | MObject fields :: rest =>
      let biometric_id := member_biometric_id fields in
      if String.eqb biometric_id "" then sync_members user_dict rest results
      else
        match user_dict !! biometric_id with
        | None => sync_members user_dict rest results
        | Some user =>
            let allowed := default (JBool false) (fields !! "allowed") in
            let group_id := if jtruthy allowed then 1 else 0 in
            item ← try_except
                     (conn_set_user (set_user_args user (pretty group_id) biometric_id);;
                      mret (ItemOk biometric_id allowed))
                     (λ _ msg, mret (ItemFailed biometric_id msg));
            sync_members user_dict rest (results ++ [item])
        end
  end.

(** [sync_access_groups], lines 19-56.  [members_json] is the decoded text,
    [None] when [json.loads] rejects it. *)
Definition sync_access_groups {S} (ip : string) (port comm_key : Z)
    (members_json : option (list member_json)) : M S reply :=
  try_except
    (zk_connect_to ip port comm_key;;
     members ← from_option mret (raise (Exception OtherError "JSONDecodeError")) members_json;
     all_users ← conn_get_users;
     results ← sync_members (user_dict_of all_users) members [];
     conn_disconnect;;
     mret (SuccessResults results))
    (λ _ msg, mret (Failure msg)).

(** [unlock_door], lines 130-138. *)
Definition unlock_door {S} (ip : string) (port comm_key seconds : Z) : M S reply :=
  try_except
    (zk_connect_to ip port comm_key;;
     conn_unlock seconds;;
     conn_disconnect;;
     mret Success)
    (λ _ msg, mret (Failure msg)).

(** [test_connection], lines 140-147. *)
Definition test_connection {S} (ip : string) (port comm_key : Z) : M S reply :=
  try_except
    (zk_connect_to ip port comm_key;;
     conn_disconnect;;
     mret SuccessConnected)
    (λ _ msg, mret (FailureNotConnected msg)).

(** The local variables of [monitor_scans]. *)
Record Bridge := {
  b_seen_events : gset string;
  b_reconnect_delay : Z;
  b_conn : bool
}.

Definition b_set_seen_events (v : gset string) (st : Bridge) : Bridge :=
  {| b_seen_events := v; b_reconnect_delay := b_reconnect_delay st; b_conn := b_conn st |}.

Definition b_set_reconnect_delay (v : Z) (st : Bridge) : Bridge :=
  {| b_seen_events := b_seen_events st; b_reconnect_delay := v; b_conn := b_conn st |}.

Definition b_set_conn (v : bool) (st : Bridge) : Bridge :=
  {| b_seen_events := b_seen_events st; b_reconnect_delay := b_reconnect_delay st;
     b_conn := v |}.

Definition max_reconnect_delay : Z := 60.

(** Lines 87-110: the body of the loop over the live capture. *)
Definition b_on_attendance (attendance : option Attendance) : M Bridge () :=
  match attendance with
  | None => mret ()
  | Some a =>
      let uid := default "" (att_user_id a) in
      let ts := att_timestamp a in
      if String.eqb uid "" then mret ()
      else
        env ← ask;
        st ← get;
        let key := event_key env uid ts in
        if bool_decide (key ∈ b_seen_events st) then mret ()
        else
          modify (b_set_seen_events (remember env key (b_seen_events st)));;
          t ← from_option mret now ts;
          print_json (JScan uid (isoformat env t))
  end.

(** Line 86. *)
Fixpoint b_live_capture_loop (fuel : nat) : M Bridge () :=
  match fuel with
  | O => out_of_fuel
  | S fuel' =>
      item ← conn_live_capture;
      match item with
      | Exhausted => mret ()
      | Yield attendance => b_on_attendance attendance;; b_live_capture_loop fuel'
      end
  end.

(** Lines 69-110: the [try] block. *)
Definition b_session (fuel : nat) (ip : string) (port comm_key : Z) : M Bridge ctl :=
  print_json (JStatus ("Connecting to " +:+ ip +:+ ":" +:+ pretty port));;
  zk_connect_to ip port comm_key;;
  modify (b_set_conn true);;
  print_json (JConnected ip port);;
  try_pass (conn_disable_device;; sleep 500;; conn_enable_device);;
  modify (b_set_reconnect_delay 2);;
  b_live_capture_loop fuel;;
  mret Continue.

(** Lines 116-121. *)
Definition b_on_error (msg : string) : M Bridge ctl :=
  print_json (JError msg);;
  st ← get;
  print_json (JStatus ("Reconnecting in " +:+ pretty (b_reconnect_delay st) +:+ " seconds..."));;
  sleep (seconds (b_reconnect_delay st));;
  modify (b_set_reconnect_delay (Z.min (b_reconnect_delay st * 2) max_reconnect_delay));;
  mret Continue.

(** Lines 67-128: one turn of [while True]. *)
Definition monitor_iteration (fuel : nat) (ip : string) (port comm_key : Z) : M Bridge ctl :=
  modify (b_set_conn false);;
  try_finally
    (try_catch (b_session fuel ip port comm_key)
       (λ e, match e with
             | KeyboardInterrupt => print_json (JStatus "Service stopped by user");; mret Break
             | Exception _ msg => b_on_error msg
             end))
    (st ← get; if b_conn st then try_pass conn_disconnect else mret ()).

Fixpoint monitor_loop (fuel turns : nat) (ip : string) (port comm_key : Z) : M Bridge () :=
  match turns with
  | O => out_of_fuel
  | S turns' =>
      c ← monitor_iteration fuel ip port comm_key;
      match c with
      | Break => mret ()
      | Continue => monitor_loop fuel turns' ip port comm_key
      end
  end.

Definition monitor_start : Bridge :=
  {| b_seen_events := ∅; b_reconnect_delay := 2; b_conn := false |}.

(** [monitor_scans], lines 58-128.  The command line passes
    [int(sys.argv[5])] as [unlock_seconds]. *)
Definition monitor_scans (fuel turns : nat) (ip : string) (port comm_key unlock_seconds : Z)
    (env : Env) (h : History) : list event * res () :=
  let '(o, _, r) :=
    (print_json (JStatus "Starting biometric monitoring service");;
     monitor_loop fuel turns ip port comm_key) env h monitor_start in
  (o, r).

(** ** Reading a trace *)

(** The relay unlocks of a trace, with their duration and how they ended. *)
Definition unlocks (o : list event) : list (Z * option exn) :=
  omap (λ e, match e with EvUnlock secs a => Some (secs, a) | _ => None end) o.

(** The attendance reports of a trace. *)
Definition reports (o : list event) : list Payload :=
  omap (λ e, match e with EvPost p _ => Some p | _ => None end) o.

(** The durations slept, in milliseconds. *)
Definition sleeps (o : list event) : list Z :=
  omap (λ e, match e with EvSleep ms _ => Some ms | _ => None end) o.

(** The group assignments attempted. *)
Definition assignments (o : list event) : list SetUser :=
  omap (λ e, match e with EvSetUser args _ => Some args | _ => None end) o.

(** The messages of the assignments that failed, and of the warnings printed. *)
Definition failed_assignments (o : list event) : list string :=
  omap (λ e, match e with
             | EvSetUser _ (Some (Exception _ msg)) => Some msg
             | _ => None
             end) o.

Definition warnings (o : list event) : list string :=
  omap (λ e, match e with EvPrint (LogWarning msg) => Some msg | _ => None end) o.

(** The identifiers a trace names in a group assignment or in its log line. *)
Definition assigned_ids (o : list event) : list string :=
  omap (λ e, match e with
             | EvSetUser args _ => Some (su_user_id args)
             | EvPrint (LogSetAllowed uid) => Some uid
             | EvPrint (LogSetDenied uid) => Some uid
             | _ => None
             end) o.

(** How often the record store was opened, and how often the users of the
    terminal were listed: [get_members_from_db] does the first once per call,
    [configure_device_access_groups] the second. *)
Definition loads (o : list event) : nat :=
  length (omap (λ e, match e with EvDbExists _ => Some () | _ => None end) o).

Definition syncs (o : list event) : nat :=
  length (omap (λ e, match e with EvGetUsers _ => Some () | _ => None end) o).

(** How often the live capture was asked for an event. *)
Definition captures (o : list event) : nat :=
  length (omap (λ e, match e with EvLiveCapture _ => Some () | _ => None end) o).

(** The lines of JSON written. *)
Definition json_lines (o : list event) : list jsonline :=
  omap (λ e, match e with EvOut j => Some j | _ => None end) o.

(** The instant of the last load of the record store that succeeded: the
    query returned its rows, and line 77 read the clock right after. *)
Fixpoint last_successful_load (h : History) : option datetime :=
  match h with
  | [] => None
  | e :: h' =>
      match last_successful_load h' with
      | Some t => Some t
      | None =>
          match e, h' with
          | EvDbQuery (inr _), EvNow t :: _ => Some t
          | _, _ => None
          end
      end
  end.

(** ** The properties, in the words of the specification *)

(** The date a column holds when it is present and parses. *)
Definition parsed_date (env : Env) (v : sqlval) : option datetime :=
  match v with
  | SText s => if String.eqb s "" then None else fromisoformat env (replace_Z s)
  | _ => None
  end.

(** AllowedDecision of the specification, for a row at instant [t]. *)
Definition AllowedDecision (env : Env) (t : datetime) (r : Row) : Prop :=
  row_status r = SText "active"
  ∧ (parsed_date env (row_start_date r) = None
     ∨ ∃ start, parsed_date env (row_start_date r) = Some start ∧ start ≤ t)
  ∧ (parsed_date env (row_expiry_date r) = None
     ∨ ∃ expiry, parsed_date env (row_expiry_date r) = Some expiry ∧ t ≤ expiry)
  ∧ row_payment_status r ∉ [SText "pending"; SText "overdue"].

(** A record is soft-deleted when [deleted_at] is neither NULL nor empty. *)
Definition soft_deleted (r : Row) : Prop :=
  row_deleted_at r ≠ SNull ∧ row_deleted_at r ≠ SText "".

(** The filtering rule: what keeps a record out of the classification. *)
Definition excluded (r : Row) : Prop :=
  row_biometric_id r = SNull ∨ biometric_id_of r = "" ∨ soft_deleted r.

(** A record that takes part in the classification. *)
Definition qualifies (r : Row) : Prop :=
  sql_where r = true ∧ biometric_id_of r ≠ "".

(** The reason of a denial, by priority. *)
Definition reason_by_priority (info : MemberInfo) : string :=
  if decide (info_status info ≠ SText "active") then "inactive"
  else if decide (info_payment_status info = SText "pending") then "payment_pending"
  else if decide (info_payment_status info = SText "overdue") then "payment_overdue"
  else "expired".

(** The user enrolled on the terminal under an identifier, read off the list
    the terminal returns: the user of that list whose [user_id] is the
    identifier, the last one should the list hold several. *)
Definition enrolled (users : list User) (uid : string) : option User :=
  last (List.filter (λ u, String.eqb (user_user_id u) uid) users).

(** The assignments the synchronisation owes the terminal: one per identifier
    that has an enrolled user, in the order of the input. *)
Definition owed_assignments (users : list User) (group_id : string) (uids : list string)
    : list SetUser :=
  omap (λ uid, (λ user, set_user_args user group_id uid) <$> enrolled users uid) uids.

(** The waits of consecutive failures: 2, 4, 8, 16, 32, 60, 60, ... seconds. *)
Definition backoff (k : nat) : Z := Z.min (2 ^ (Z.of_nat k + 1)) 60.

(** The assignment the bridge owes a member object: none when the identifier
    is empty or not enrolled, else group 1 when ["allowed"] is true. *)
Definition owed_member_assignment (users : list User) (fields : gmap string jval)
    : option SetUser :=
  let biometric_id := member_biometric_id fields in
  if decide (biometric_id = "") then None
  else
    (λ user, set_user_args user
               (if jtruthy (default (JBool false) (fields !! "allowed")) then "1" else "0")
               biometric_id)
    <$> enrolled users biometric_id.

(** How a piece of code that catches every [Exception] can end. *)
Definition returns_or_interrupted {A} (r : res A) : Prop :=
  (∃ a, r = Ret a) ∨ r = Raise KeyboardInterrupt.

(** ** Sample data and environments *)

Definition sample_row (id : Z) (name biometric_id status : string) (start_date : sqlval)
    (payment_status : string) (deleted_at : sqlval) : Row :=
  {| row_id := SInt id;
     row_name := SText name;
     row_biometric_id := SText biometric_id;
     row_status := SText status;
     row_start_date := start_date;
     row_expiry_date := SNull;
     row_payment_status := SText payment_status;
     row_deleted_at := deleted_at |}.

Definition row_asha : Row :=
  sample_row 1 "Asha" "1001" "active" (SText "2024-01-01T00:00:00Z") "paid" SNull.
Definition row_ravi : Row := sample_row 2 "Ravi" "1002" "active" SNull "overdue" SNull.
Definition row_meera : Row := sample_row 3 "Meera" " 1003 " "inactive" SNull "paid" SNull.
Definition row_kiran : Row := sample_row 4 "Kiran" "   " "active" SNull "paid" SNull.
Definition row_dev : Row :=
  sample_row 5 "Dev" "1005" "active" SNull "paid" (SText "2024-03-01T09:30:00").

Definition sample_table : list Row := [row_asha; row_ravi; row_meera; row_kiran; row_dev].

Definition sample_users : list User :=
  [ {| user_uid := 1; user_name := Some "Asha"; user_password := None;
       user_user_id := "1001" |};
    {| user_uid := 2; user_name := None; user_password := Some "4711";
       user_user_id := "1002" |} ].

Definition sample_scan : Attendance :=
  {| att_user_id := Some "1001"; att_timestamp := Some 1710000000000000 |}.

(** The number of clock readings in a history. *)
Definition clock_readings (h : History) : nat :=
  length (omap (λ e, match e with EvNow _ => Some () | _ => None end) h).

(** A terminal that accepts every call except the group assignment of user
    "1002", over a store holding [sample_table].  The connection, the live
    capture, the clock and the presence of the database file are given. *)
Definition sample_env (connect : History → option exn) (capture : History → exn + live_item)
    (clock : History → datetime) (db_exists : History → bool) : Env :=
  {| DEVICE_IP := "192.168.1.81";
     PORT := 4370;
     COMM_KEY := 0;
     UNLOCK_SECS := 3;
     fromisoformat := λ s, if String.eqb s "2024-01-01T00:00:00+00:00"
                           then Some 1704067200000000 else None;
     datetime_str := pretty;
     isoformat := pretty;
     set_first := λ s, default "" (head (elements s));
     zk_connect := connect;
     zk_disable_device := λ _, None;
     zk_enable_device := λ _, None;
     zk_get_users := λ _, inr sample_users;
     zk_set_user := λ _ args, if String.eqb (su_user_id args) "1002"
                              then Some (Exception ZKErrorResponse "Can't set user")
                              else None;
     zk_unlock := λ _ _, None;
     zk_disconnect := λ _, None;
     zk_live_capture := capture;
     requests_post := λ _ _, inr 200;
     time_sleep := λ _ _, None;
     datetime_now := clock;
     os_path_exists := db_exists;
     sqlite_query := λ _, inr sample_table |}.

Definition network_down : exn := Exception ZKNetworkError "can't reach device".

(** Every event takes a microsecond, from 2024-03-09 16:00:00. *)
Definition ticking (h : History) : datetime := 1710000000000000 + Z.of_nat (length h).

(** The terminal answers, and the live capture breaks at once. *)
Definition quiet_env : Env :=
  sample_env (λ _, None) (λ _, inl network_down) ticking (λ _, true).

(** The terminal cannot be reached. *)
Definition unreachable_env : Env :=
  sample_env (λ _, Some network_down) (λ _, inl network_down) ticking (λ _, true).

(** The database file is missing. *)
Definition no_store_env : Env :=
  sample_env (λ _, None) (λ _, inl network_down) ticking (λ _, false).

(** The terminal replays its first scan: the live capture yields
    [sample_scan] twice and then breaks. *)
Definition replay_capture (h : History) : exn + live_item :=
  if (length (omap (λ e, match e with EvLiveCapture _ => Some () | _ => None end) h) <? 2)%nat
  then inr (Yield (Some sample_scan))
  else inl network_down.

Definition replay_env : Env :=
  sample_env (λ _, None) replay_capture ticking (λ _, true).

(** The database file is there when the service starts and gone afterwards;
    the clock reads 0 s and 1 s during the start, 301 s and 302 s in the
    first setup phase, 400 s in the second. *)
Definition stale_env : Env :=
  sample_env (λ _, None) (λ _, inl network_down)
    (λ h, nth (clock_readings h) [0; 1000000; 301000000; 302000000] 400000000)
    (λ h, bool_decide (loads h = 0%nat)).

(** The variables of the service while it monitors, with Asha allowed and
    Ravi denied, the last reload being at instant [last_db_refresh]. *)
Definition sample_state (last_db_refresh : datetime) : Service :=
  {| seen_events := ∅;
     reconnect_delay := 2;
     device_configured := true;
     last_db_refresh := last_db_refresh;
     members := {| allowed_users := ["1001"];
                   denied_users := ["1002"];
                   member_map := {[ "1001" := member_info_of row_asha;
                                    "1002" := member_info_of row_ravi ]} |};
     conn := true |}.

(** ** Further readings of a trace *)

(** The identifiers a trace admits: those of the lines [ALLOWED: <uid>] that
    [process_scan] prints before it drives the relay. *)
Definition admitted (o : list event) : list string :=
  omap (λ e, match e with EvPrint (LogAllowed uid _) => Some uid | _ => None end) o.

(** How often a trace hangs up. *)
Definition disconnects (o : list event) : nat :=
  length (omap (λ e, match e with EvDisconnect _ => Some () | _ => None end) o).

(** The group assignments of a trace, as the bridge reports them: the
    identifier, and whether the terminal accepted. *)
Definition assignment_outcomes (o : list event) : list (string * bool) :=
  omap (λ e, match e with
             | EvSetUser args None => Some (su_user_id args, true)
             | EvSetUser args (Some _) => Some (su_user_id args, false)
             | _ => None
             end) o.

(** What an entry of ["results"] says: the identifier, and ["success"]. *)
Definition item_outcome (i : sync_item) : string * bool :=
  match i with
  | ItemOk userId _ => (userId, true)
  | ItemFailed userId _ => (userId, false)
  end.

(** A row the loop of lines 79-119 files under an identifier: its identifier
    is not empty once stripped. *)
Definition filed (r : Row) : bool := negb (String.eqb (biometric_id_of r) "").

(** ** The footprint of a piece of code *)

(** The kind of call behind an event. *)
Inductive kind :=
| KConnect | KDisableDevice | KEnableDevice | KGetUsers | KSetUser | KUnlock
| KDisconnect | KLiveCapture | KPost | KSleep | KNow | KDbExists | KDbQuery
| KPrint | KOut.

#[global] Instance kind_eq_dec : EqDecision kind.
Proof. solve_decision. Defined.

Definition kind_of (e : event) : kind :=
  match e with
  | EvConnect _ _ _ _ => KConnect
  | EvDisableDevice _ => KDisableDevice
  | EvEnableDevice _ => KEnableDevice
  | EvGetUsers _ => KGetUsers
  | EvSetUser _ _ => KSetUser
  | EvUnlock _ _ => KUnlock
  | EvDisconnect _ => KDisconnect
  | EvLiveCapture _ => KLiveCapture
  | EvPost _ _ => KPost
  | EvSleep _ _ => KSleep
  | EvNow _ => KNow
  | EvDbExists _ => KDbExists
  | EvDbQuery _ => KDbQuery
  | EvPrint _ => KPrint
  | EvOut _ => KOut
  end.

(** [m] only makes calls of the kinds [ks], whatever the outside world
    answers and however it ends. *)
Definition only_calls {S A} (ks : list kind) (m : M S A) : Prop :=
  ∀ env h s, Forall (λ e, kind_of e ∈ ks) (m env h s).1.1.

(** [splits ks Q o]: the trace [o] starts with calls of the kinds [ks], and
    what follows them is in [Q]. *)
Definition splits (ks : list kind) (Q : list event → Prop) (o : list event) : Prop :=
  ∃ pre rest, o = pre ++ rest ∧ Forall (λ e, kind_of e ∈ ks) pre ∧ Q rest.

(** ** Invariants of the local variables *)

(** [keeps env I m]: in the environment [env], the code [m] leaves the local
    variables in [I] when it finds them there, however it ends. *)
Definition keeps {S A} (env : Env) (I : S → Prop) (m : M S A) : Prop :=
  ∀ h s, I s → I (m env h s).1.2.

(** ** Where an interrupt leaves a piece of code *)

(** [interrupted_in ks m]: when [m] ends with a [KeyboardInterrupt], its last
    call is of one of the kinds [ks]: that call raised it. *)
Definition interrupted_in {S A} (ks : list kind) (m : M S A) : Prop :=
  ∀ env h s,
    (m env h s).2 = Raise KeyboardInterrupt →
    ∃ e, last (m env h s).1.1 = Some e ∧ kind_of e ∈ ks.

(** ** Further sample environments *)

(** A terminal that connects but refuses every other call, with the endpoint
    down: the relay, the listing of the users and the report all fail. *)
Definition faulty_env : Env :=
  {| DEVICE_IP := "192.168.1.81";
     PORT := 4370;
     COMM_KEY := 0;
     UNLOCK_SECS := 3;
     fromisoformat := λ _, None;
     datetime_str := pretty;
     isoformat := pretty;
     set_first := λ s, default "" (head (elements s));
     zk_connect := λ _, None;
     zk_disable_device := λ _, Some (Exception ZKErrorResponse "can't disable device");
     zk_enable_device := λ _, Some (Exception ZKErrorResponse "can't enable device");
     zk_get_users := λ _, inl (Exception ZKNetworkError "timed out");
     zk_set_user := λ _ _, Some (Exception ZKErrorResponse "Can't set user");
     zk_unlock := λ _ _, Some (Exception ZKErrorResponse "can't open door");
     zk_disconnect := λ _, Some (Exception ZKNetworkError "timed out");
     zk_live_capture := λ _, inl network_down;
     requests_post := λ _ _, inl (Exception RequestException "connection refused");
     time_sleep := λ _ _, None;
     datetime_now := ticking;
     os_path_exists := λ _, true;
     sqlite_query := λ _, inr sample_table |}.


(** The database file is missing and the terminal replays a scan. *)
Definition no_store_replay_env : Env :=
  sample_env (λ _, None) replay_capture ticking (λ _, false).

(** The operator presses Ctrl-C while the terminal is asked to lock; the
    live capture breaks at once. *)
Definition lock_interrupted_env : Env :=
  {| DEVICE_IP := "192.168.1.81";
     PORT := 4370;
     COMM_KEY := 0;
     UNLOCK_SECS := 3;
     fromisoformat := λ _, None;
     datetime_str := pretty;
     isoformat := pretty;
     set_first := λ s, default "" (head (elements s));
     zk_connect := λ _, None;
     zk_disable_device := λ _, Some KeyboardInterrupt;
     zk_enable_device := λ _, None;
     zk_get_users := λ _, inr sample_users;
     zk_set_user := λ _ _, None;
     zk_unlock := λ _ _, None;
     zk_disconnect := λ _, None;
     zk_live_capture := λ _, inl network_down;
     requests_post := λ _ _, inr 200;
     time_sleep := λ _ _, None;
     datetime_now := ticking;
     os_path_exists := λ _, true;
     sqlite_query := λ _, inr sample_table |}.

(** * Proofs *)

(** ** Tactics *)

(** [unfold_monad] exposes the run of a piece of code, [norm] computes it and
    writes the history as one list. *)
Ltac unfold_monad :=
  unfold mbind, M_bind, mret, M_ret, bind, ret, raise, out_of_fuel, ask, get, modify,
    try_pass, try_except, try_catch, try_finally, print, print_json, now, sleep,
    path_exists, query_members, zk_connect_to, conn_disable_device, conn_enable_device,
    conn_get_users, conn_set_user, conn_unlock, conn_disconnect, conn_live_capture,
    post, perform, of_outcome, of_sum in *.
Ltac norm := cbn; rewrite <- ?app_assoc; cbn.

(** [count_trace] reads a trace, [finish] closes the conjuncts of a
    specification, [conclude] gives the run first. *)
Ltac count_trace :=
  repeat match goal with H : _ ∧ _ |- _ => destruct H end;
  unfold loads, syncs, sleeps, unlocks, captures in *; cbn;
  repeat (rewrite ?omap_app, ?length_app; cbn);
  repeat match goal with H : _ = _ |- _ => rewrite H end;
  try done.

Ltac finish :=
  repeat match goal with
         | |- _ ∧ _ => split
         | |- _ → _ => intros ?
         end;
  try done; try lia; eauto; try count_trace.

Ltac conclude :=
  repeat match goal with |- ∃ _, _ => eexists end;
  (split; [reflexivity|]); finish.

(** ** Traces *)

Lemma loads_app o1 o2 : loads (o1 ++ o2) = (loads o1 + loads o2)%nat.
Proof. unfold loads. by rewrite omap_app, length_app. Qed.

Lemma syncs_app o1 o2 : syncs (o1 ++ o2) = (syncs o1 + syncs o2)%nat.
Proof. unfold syncs. by rewrite omap_app, length_app. Qed.

Lemma sleeps_app o1 o2 : sleeps (o1 ++ o2) = sleeps o1 ++ sleeps o2.
Proof. apply omap_app. Qed.

Lemma unlocks_app o1 o2 : unlocks (o1 ++ o2) = unlocks o1 ++ unlocks o2.
Proof. apply omap_app. Qed.

(** ** The record store *)

(** The run of [get_members_from_db] over a store that answers. *)
Lemma get_members_from_db_loaded {S} env h (s : S) table :
  os_path_exists env h = true →
  sqlite_query env (h ++ [EvDbExists true]) = inr table →
  let t := datetime_now env (h ++ [EvDbExists true; EvDbQuery (inr table)]) in
  let c := classify_rows (fromisoformat env) t (List.filter sql_where table) in
  get_members_from_db env h s =
    ([EvDbExists true; EvDbQuery (inr table); EvNow t;
      EvPrint (LogDbSummary (length (allowed_users c)) (length (denied_users c))
                            (size (member_map c)))], s, Ret c).
Proof.
  intros Hex Hq. unfold get_members_from_db. unfold_monad.
  rewrite Hex. norm. rewrite Hq. norm. reflexivity.
Qed.

(** The date tests of the code against the dates of the specification. *)
Lemma date_ok_start env t v :
  date_ok (fromisoformat env) (λ now d, d <=? now) t v = true ↔
  parsed_date env v = None ∨ ∃ d, parsed_date env v = Some d ∧ d ≤ t.
Proof.
  unfold date_ok, parsed_date. destruct v as [|n|s]; cbn.
  - naive_solver.
  - destruct (negb (n =? 0)); naive_solver.
  - destruct (String.eqb s ""); cbn; [naive_solver|].
    destruct (fromisoformat env (replace_Z s)) as [d|]; [|naive_solver].
    rewrite Z.leb_le. split; [eauto|]. intros [?|(d' & [= <-] & ?)]; done.
Qed.

Lemma date_ok_end env t v :
  date_ok (fromisoformat env) (λ now d, now <=? d) t v = true ↔
  parsed_date env v = None ∨ ∃ d, parsed_date env v = Some d ∧ t ≤ d.
Proof.
  unfold date_ok, parsed_date. destruct v as [|n|s]; cbn.
  - naive_solver.
  - destruct (negb (n =? 0)); naive_solver.
  - destruct (String.eqb s ""); cbn; [naive_solver|].
    destruct (fromisoformat env (replace_Z s)) as [d|]; [|naive_solver].
    rewrite Z.leb_le. split; [eauto|]. intros [?|(d' & [= <-] & ?)]; done.
Qed.

Lemma allowed_AllowedDecision env t r :
  allowed (fromisoformat env) t r = true ↔ AllowedDecision env t r.
Proof.
  unfold allowed, AllowedDecision, status_ok, start_ok, end_ok, payment_ok.
  rewrite !andb_true_iff, negb_true_iff, bool_decide_eq_true, bool_decide_eq_false.
  rewrite date_ok_start, date_ok_end. tauto.
Qed.

(** Membership in the lists and in the map that the loop builds, one row at
    a time and then over all rows. *)
Lemma exists_cons_iff {A} (P : A → Prop) (Q : Prop) x (l : list A) :
  ((Q ∨ P x) ∨ ∃ y, y ∈ l ∧ P y) ↔ (Q ∨ ∃ y, y ∈ x :: l ∧ P y).
Proof.
  split.
  - intros [[HQ|HP]|(y & Hy & HP)]; [by left| |].
    + right. exists x. split; [apply list_elem_of_here|done].
    + right. exists y. split; [by apply list_elem_of_further|done].
  - intros [HQ|(y & Hy & HP)]; [by left; left|].
    apply elem_of_cons in Hy as [->|Hy]; [by left; right|]. right. by exists y.
Qed.

Lemma exists_nil_iff {A} (P : A → Prop) (Q : Prop) :
  Q ↔ (Q ∨ ∃ y : A, y ∈ [] ∧ P y).
Proof.
  split; [by left|]. intros [HQ|(y & Hy & _)]; [done|]. by apply elem_of_nil in Hy.
Qed.

Lemma allowed_users_classify_row f t acc r k :
  k ∈ allowed_users (classify_row f t acc r) ↔
  k ∈ allowed_users acc ∨ (biometric_id_of r = k ∧ k ≠ "" ∧ allowed f t r = true).
Proof.
  unfold classify_row. destruct (String.eqb (biometric_id_of r) "") eqn:He.
  - apply String.eqb_eq in He. split; [by left|]. intros [? | (<- & ? & _)]; done.
  - apply String.eqb_neq in He. destruct (allowed f t r); cbn.
    + rewrite elem_of_app, list_elem_of_singleton. split.
      * intros [? | ->]; [by left|by right].
      * intros [? | (<- & _)]; [by left|by right].
    + split; [by left|]. intros [?|(_ & _ & ?)]; done.
Qed.

Lemma denied_users_classify_row f t acc r k :
  k ∈ denied_users (classify_row f t acc r) ↔
  k ∈ denied_users acc ∨ (biometric_id_of r = k ∧ k ≠ "" ∧ allowed f t r = false).
Proof.
  unfold classify_row. destruct (String.eqb (biometric_id_of r) "") eqn:He.
  - apply String.eqb_eq in He. split; [by left|]. intros [? | (<- & ? & _)]; done.
  - apply String.eqb_neq in He. destruct (allowed f t r); cbn.
    + split; [by left|]. intros [?|(_ & _ & ?)]; done.
    + rewrite elem_of_app, list_elem_of_singleton. split.
      * intros [? | ->]; [by left|by right].
      * intros [? | (<- & _)]; [by left|by right].
Qed.

Lemma member_map_classify_row f t acc r k :
  is_Some (member_map (classify_row f t acc r) !! k) ↔
  is_Some (member_map acc !! k) ∨ (biometric_id_of r = k ∧ k ≠ "").
Proof.
  unfold classify_row. destruct (String.eqb (biometric_id_of r) "") eqn:He.
  - apply String.eqb_eq in He. split; [by left|]. intros [? | (<- & ?)]; done.
  - apply String.eqb_neq in He.
    assert (is_Some (<[biometric_id_of r:=member_info_of r]> (member_map acc) !! k) ↔
            is_Some (member_map acc !! k) ∨ biometric_id_of r = k ∧ k ≠ "") as Hins.
    { rewrite lookup_insert_is_Some. split.
      - intros [<-|[_ ?]]; [by right|by left].
      - intros [?|[<- _]]; [|by left].
        destruct (decide (biometric_id_of r = k)); [by left|by right]. }
    by destruct (allowed f t r).
Qed.

Lemma allowed_users_foldl f t rows acc k :
  k ∈ allowed_users (foldl (classify_row f t) acc rows) ↔
  k ∈ allowed_users acc
  ∨ ∃ r, r ∈ rows ∧ biometric_id_of r = k ∧ k ≠ "" ∧ allowed f t r = true.
Proof.
  revert acc. induction rows as [|r rows IH]; intros acc; cbn.
  - apply exists_nil_iff.
  - rewrite IH, allowed_users_classify_row.
    apply (exists_cons_iff (λ r, biometric_id_of r = k ∧ k ≠ "" ∧ allowed f t r = true)).
Qed.

Lemma denied_users_foldl f t rows acc k :
  k ∈ denied_users (foldl (classify_row f t) acc rows) ↔
  k ∈ denied_users acc
  ∨ ∃ r, r ∈ rows ∧ biometric_id_of r = k ∧ k ≠ "" ∧ allowed f t r = false.
Proof.
  revert acc. induction rows as [|r rows IH]; intros acc; cbn.
  - apply exists_nil_iff.
  - rewrite IH, denied_users_classify_row.
    apply (exists_cons_iff (λ r, biometric_id_of r = k ∧ k ≠ "" ∧ allowed f t r = false)).
Qed.

Lemma member_map_foldl f t rows acc k :
  is_Some (member_map (foldl (classify_row f t) acc rows) !! k) ↔
  is_Some (member_map acc !! k)
  ∨ ∃ r, r ∈ rows ∧ biometric_id_of r = k ∧ k ≠ "".
Proof.
  revert acc. induction rows as [|r rows IH]; intros acc; cbn.
  - apply exists_nil_iff.
  - rewrite IH, member_map_classify_row.
    apply (exists_cons_iff (λ r, biometric_id_of r = k ∧ k ≠ "")).
Qed.

Lemma elem_of_filter_sql_where r table :
  r ∈ List.filter sql_where table ↔ r ∈ table ∧ sql_where r = true.
Proof. rewrite !list_elem_of_In. apply filter_In. Qed.

(** The filtering rule of the specification against the [WHERE] clause and
    the test of line 81. *)
Lemma excluded_not_qualifies r : excluded r → ¬ qualifies r.
Proof.
  unfold excluded, qualifies, soft_deleted, sql_where.
  intros [Hn|[He|[Hd1 Hd2]]] [Hw Hb]; [| done |].
  - rewrite Hn in Hw. done.
  - destruct (row_deleted_at r) as [|n|d]; [done| |].
    + cbn in Hw. by rewrite andb_false_r in Hw.
    + cbn in Hw. destruct (String.eqb d "") eqn:E.
      * apply String.eqb_eq in E. by subst.
      * by rewrite andb_false_r in Hw.
Qed.

Lemma classify_rows_without f t l1 r l2 :
  excluded r →
  classify_rows f t (List.filter sql_where (l1 ++ r :: l2)) =
  classify_rows f t (List.filter sql_where (l1 ++ l2)).
Proof.
  intros Hex%excluded_not_qualifies. unfold classify_rows.
  rewrite !List.filter_app. cbn. destruct (sql_where r) eqn:Hw; [|done].
  rewrite !foldl_app. cbn. f_equal. unfold classify_row.
  destruct (String.eqb (biometric_id_of r) "") eqn:He; [done|].
  apply String.eqb_neq in He. destruct Hex. done.
Qed.

(** C1: a record read from the store is filed under Allowed when it is
    active, inside its date window (a date that is absent or does not parse
    sets no bound) and its payment is neither pending nor overdue, and under
    Denied otherwise; when no other record carries its identifier, as in the
    data model, the identifier is in the Allowed set exactly in the first
    case. *)
Theorem C1_allowed_iff_decision {S} env h (s : S) table r :
  os_path_exists env h = true →
  sqlite_query env (h ++ [EvDbExists true]) = inr table →
  r ∈ table →
  qualifies r →
  let t := datetime_now env (h ++ [EvDbExists true; EvDbQuery (inr table)]) in
  ∃ o c,
    get_members_from_db env h s = (o, s, Ret c)
    ∧ (AllowedDecision env t r → biometric_id_of r ∈ allowed_users c)
    ∧ (¬ AllowedDecision env t r → biometric_id_of r ∈ denied_users c)
    ∧ ((∀ r', r' ∈ table → qualifies r' →
              biometric_id_of r' = biometric_id_of r → r' = r) →
       (biometric_id_of r ∈ allowed_users c ↔ AllowedDecision env t r)).
Proof.
  intros Hex Hq Hr [Hw Hb] t.
  rewrite (get_members_from_db_loaded env h s table Hex Hq).
  eexists _, _. split; [reflexivity|].
  unfold classify_rows. fold t.
  rewrite allowed_users_foldl, denied_users_foldl, <- allowed_AllowedDecision.
  assert (r ∈ List.filter sql_where table) as Hin by by apply elem_of_filter_sql_where.
  split_and!.
  - intros Ha. right. by exists r.
  - intros Ha. right. exists r. by destruct (allowed (fromisoformat env) t r).
  - intros Huniq. split.
    + intros [Hnil|(r' & Hr' & Hk & _ & Ha)]; [by apply elem_of_nil in Hnil|].
      apply elem_of_filter_sql_where in Hr' as [Hr' Hw'].
      rewrite <- (Huniq r'); [done|done| |done]. split; [done|]. by rewrite Hk.
    + intros Ha. right. by exists r.
Qed.

(** C5: a record whose identifier is null or empty after trimming, or that is
    soft-deleted, adds nothing to the classification; its identifier, which no
    other record of the store carries, is in neither set and has no entry in
    the member map. *)
Theorem C5_excluded_record_unclassified {S} env h (s : S) table r :
  os_path_exists env h = true →
  sqlite_query env (h ++ [EvDbExists true]) = inr table →
  r ∈ table →
  excluded r →
  ∃ o c,
    get_members_from_db env h s = (o, s, Ret c)
    ∧ (∀ l1 l2, table = l1 ++ r :: l2 →
         c = classify_rows (fromisoformat env)
               (datetime_now env (h ++ [EvDbExists true; EvDbQuery (inr table)]))
               (List.filter sql_where (l1 ++ l2)))
    ∧ ((∀ r', r' ∈ table → qualifies r' → biometric_id_of r' ≠ biometric_id_of r) →
         (biometric_id_of r ∉ allowed_users c)
         ∧ (biometric_id_of r ∉ denied_users c)
         ∧ member_map c !! biometric_id_of r = None).
Proof.
  intros Hex Hq Hr Hexcl.
  rewrite (get_members_from_db_loaded env h s table Hex Hq).
  eexists _, _. split; [reflexivity|]. split.
  - intros l1 l2 ->. by apply classify_rows_without.
  - intros Huniq. unfold classify_rows.
    rewrite allowed_users_foldl, denied_users_foldl, eq_None_not_Some, member_map_foldl.
    cbn. rewrite lookup_empty.
    assert (∀ r', r' ∈ List.filter sql_where table → biometric_id_of r' = biometric_id_of r →
                  biometric_id_of r ≠ "" → False) as Hno.
    { intros r' [Hr' Hw']%elem_of_filter_sql_where Hk Hne.
      apply (Huniq r'); [done| |done]. split; [done|]. by rewrite Hk. }
    split_and!.
    + intros [Hin|(r' & Hr' & Hk & Hne & _)]; [by apply elem_of_nil in Hin|]. eauto.
    + intros [Hin|(r' & Hr' & Hk & Hne & _)]; [by apply elem_of_nil in Hin|]. eauto.
    + intros [[? [=]]|(r' & Hr' & Hk & Hne)]. eauto.
Qed.

(** C8: when the database file is missing, or the query fails, the loader
    returns the empty classification after printing a warning; it does not
    raise. *)
Theorem C8_store_failure_is_soft {S} env h (s : S) :
  (os_path_exists env h = false →
     get_members_from_db env h s =
       ([EvDbExists false; EvPrint LogDbNotFound], s, Ret empty_classification))
  ∧ (∀ c msg,
       os_path_exists env h = true →
       sqlite_query env (h ++ [EvDbExists true]) = inl (Exception c msg) →
       get_members_from_db env h s =
         ([EvDbExists true; EvDbQuery (inl (Exception c msg)); EvPrint (LogDbError msg)],
          s, Ret empty_classification)).
Proof.
  split.
  - intros Hex. unfold get_members_from_db. unfold_monad. rewrite Hex. by norm.
  - intros c msg Hex Hq. unfold get_members_from_db. unfold_monad.
    rewrite Hex. norm. rewrite Hq. by norm.
Qed.

(** One call of [get_members_from_db] opens the store once, lists no users,
    does not sleep, and ends by returning unless it is interrupted. *)
Lemma get_members_from_db_once {S} env h (s : S) :
  ∃ o r,
    get_members_from_db env h s = (o, s, r)
    ∧ loads o = 1%nat ∧ syncs o = 0%nat ∧ (sleeps o = [] ∧ captures o = 0%nat)
    ∧ returns_or_interrupted r.
Proof.
  unfold get_members_from_db, returns_or_interrupted. unfold_monad.
  destruct (os_path_exists env h); norm.
  - match goal with |- context [sqlite_query env ?h'] =>
      destruct (sqlite_query env h') as [[|c msg]|table] end; norm; conclude.
  - conclude.
Qed.

(** The loops of the configuration never open the store and never list the
    users; the configuration lists them once. *)
Lemma for_each_assign_group_quiet {S} env d g line l h (s : S) :
  ∃ o r,
    for_each l (assign_group d g line) env h s = (o, s, r)
    ∧ loads o = 0%nat ∧ syncs o = 0%nat ∧ (sleeps o = [] ∧ captures o = 0%nat)
    ∧ returns_or_interrupted r.
Proof.
  unfold returns_or_interrupted.
  revert h. induction l as [|uid l IH]; intros h.
  - exists [], (Ret ()). split_and!; [done|done|done|done|done|eauto].
  - cbn [for_each]. unfold bind at 1. unfold assign_group at 1.
    destruct (d !! uid) as [user|] eqn:Hd.
    + unfold_monad. norm.
      match goal with |- context [zk_set_user env ?h' ?p] =>
        destruct (zk_set_user env h' p) as [[|c msg]|] eqn:Hans end; norm.
      * conclude.
      * match goal with |- context [for_each l _ env ?h' s] =>
          destruct (IH h') as (o & r & -> & Hl & Hs & Hz & Hr) end.
        destruct r; conclude.
      * match goal with |- context [for_each l _ env ?h' s] =>
          destruct (IH h') as (o & r & -> & Hl & Hs & Hz & Hr) end.
        destruct r; conclude.
    + unfold_monad. norm. rewrite app_nil_r.
      destruct (IH h) as (o & r & -> & Hl & Hs & Hz & Hr).
      destruct r; conclude.
Qed.

Lemma configure_device_access_groups_once {S} allowed_l denied_l env h (s : S) :
  ∃ o r,
    configure_device_access_groups allowed_l denied_l env h s = (o, s, r)
    ∧ loads o = 0%nat ∧ syncs o = 1%nat ∧ (sleeps o = [] ∧ captures o = 0%nat)
    ∧ (r = Ret () ∨ r = Raise KeyboardInterrupt).
Proof.
  unfold configure_device_access_groups. unfold_monad. norm.
  match goal with |- context [zk_get_users env ?h'] =>
    destruct (zk_get_users env h') as [[|c msg]|users] end; norm.
  - conclude.
  - conclude.
  - match goal with |- context [for_each allowed_l _ env ?h' s] =>
      destruct (for_each_assign_group_quiet env (user_dict_of users) "1" LogSetAllowed
                  allowed_l h' s) as (o1 & r1 & -> & Hl1 & Hs1 & Hz1 & Hr1) end.
    destruct Hr1 as [[[] ->]| ->]; norm.
    2:{ conclude. }
    match goal with |- context [for_each denied_l _ env ?h' s] =>
      destruct (for_each_assign_group_quiet env (user_dict_of users) "0" LogSetDenied
                  denied_l h' s) as (o2 & r2 & -> & Hl2 & Hs2 & Hz2 & Hr2) end.
    destruct Hr2 as [[[] ->]| ->]; norm; conclude.
Qed.

(** ** Scans *)

(** The reason the code computes is the one the specification orders. *)
Lemma denial_reason_by_priority info :
  denial_reason (Some info) = reason_by_priority info.
Proof.
  unfold denial_reason, reason_by_priority.
  destruct (decide (info_status info ≠ SText "active")) as [Hs|Hs].
  - by rewrite bool_decide_eq_false_2.
  - apply dec_stable in Hs. rewrite bool_decide_eq_true_2 by done. cbn.
    destruct (decide (info_payment_status info = SText "pending")) as [->|Hp]; [done|].
    destruct (decide (info_payment_status info = SText "overdue")) as [->|Ho]; [done|].
    rewrite bool_decide_eq_false_2; [done|].
    rewrite !elem_of_cons. intros [?|[?|?%elem_of_nil]]; done.
Qed.

(** C2: a scan of a denied identifier that has a member snapshot is reported
    with the reason chosen by priority (status, then payment, then "expired"),
    with [allowed] false, and the relay is not touched. *)
Theorem C2_denied_reason_priority {S} env h (s : S) uid ts allowed_l denied_l mm info :
  uid ∉ allowed_l →
  uid ∈ denied_l →
  mm !! uid = Some info →
  ∃ o r stamp,
    process_scan uid ts allowed_l denied_l mm env h s = (o, s, r)
    ∧ unlocks o = []
    ∧ reports o = [{| pl_biometricId := uid;
                      pl_memberId := info_id info;
                      pl_memberName := info_name info;
                      pl_allowed := false;
                      pl_reason := reason_by_priority info;
                      pl_timestamp := stamp |}]
    ∧ (r = Ret () ∨ r = Raise KeyboardInterrupt).
Proof.
  intros Hna Hd Hm. unfold process_scan, send_attendance_event. unfold_monad.
  rewrite Hm, denial_reason_by_priority. norm.
  rewrite bool_decide_eq_false_2, bool_decide_eq_true_2 by done. norm.
  match goal with |- context [requests_post env ?h' ?p] =>
    destruct (requests_post env h' p) as [[|c msg]|code] end; norm.
  - eexists _, _, _. split_and!; [reflexivity|done|reflexivity|by right].
  - destruct c; norm; eexists _, _, _; (split_and!; [reflexivity|done|reflexivity|by left]).
  - destruct (code =? 200); norm; eexists _, _, _;
      (split_and!; [reflexivity|done|reflexivity|by left]).
Qed.

(** C3: a scan of an allowed identifier tries the relay once and sends one
    report: "allowed" when the unlock returns, "relay_error" when it fails;
    the failure of the unlock never leaves [process_scan]. *)
Theorem C3_allowed_unlock_once {S} env h (s : S) uid ts allowed_l denied_l mm :
  uid ∈ allowed_l →
  ∃ o r answer,
    process_scan uid ts allowed_l denied_l mm env h s = (o, s, r)
    ∧ unlocks o = [(UNLOCK_SECS env, answer)]
    ∧ match answer with
      | None =>
          ∃ p, reports o = [p] ∧ pl_biometricId p = uid
               ∧ pl_allowed p = true ∧ pl_reason p = "allowed"
      | Some (Exception _ _) =>
          ∃ p, reports o = [p] ∧ pl_biometricId p = uid
               ∧ pl_allowed p = false ∧ pl_reason p = "relay_error"
      | Some KeyboardInterrupt => reports o = [] ∧ r = Raise KeyboardInterrupt
      end
    ∧ (∀ c msg, r ≠ Raise (Exception c msg)).
Proof.
  intros Ha. unfold process_scan, send_attendance_event. unfold_monad. norm.
  rewrite bool_decide_eq_true_2 by done. norm.
  match goal with |- context [zk_unlock env ?h' ?n] =>
    destruct (zk_unlock env h' n) as [[|c msg]|] end; norm.
  - eexists _, _, _. split_and!; [reflexivity|reflexivity|done|done].
  - match goal with |- context [requests_post env ?h' ?p] =>
      destruct (requests_post env h' p) as [[|c' msg']|code] end; norm.
    + eexists _, _, _. split_and!; [reflexivity|reflexivity|by eexists|done].
    + destruct c'; norm; eexists _, _, _;
        (split_and!; [reflexivity|reflexivity|by eexists|done]).
    + destruct (code =? 200); norm; eexists _, _, _;
        (split_and!; [reflexivity|reflexivity|by eexists|done]).
  - match goal with |- context [requests_post env ?h' ?p] =>
      destruct (requests_post env h' p) as [[|c' msg']|code] end; norm.
    + eexists _, _, _. split_and!; [reflexivity|reflexivity|by eexists|done].
    + destruct c'; norm; eexists _, _, _;
        (split_and!; [reflexivity|reflexivity|by eexists|done]).
    + destruct (code =? 200); norm; eexists _, _, _;
        (split_and!; [reflexivity|reflexivity|by eexists|done]).
Qed.

(** Reporting and processing a scan neither sleep nor change the variables
    of the loop, and end by returning unless they are interrupted. *)
Lemma send_attendance_event_quiet {S} uid mid name ok reason t env h (s : S) :
  ∃ o r,
    send_attendance_event uid mid name ok reason t env h s = (o, s, r)
    ∧ sleeps o = [] ∧ unlocks o = []
    ∧ (r = Ret () ∨ r = Raise KeyboardInterrupt).
Proof.
  unfold send_attendance_event. unfold_monad. norm.
  match goal with |- context [requests_post env ?h' ?p] =>
    destruct (requests_post env h' p) as [[|c msg]|code] end; norm.
  - conclude.
  - destruct c; norm; conclude.
  - destruct (code =? 200); norm; conclude.
Qed.

Lemma process_scan_quiet {S} uid ts allowed_l denied_l mm env h (s : S) :
  ∃ o r,
    process_scan uid ts allowed_l denied_l mm env h s = (o, s, r)
    ∧ sleeps o = []
    ∧ (r = Ret () ∨ r = Raise KeyboardInterrupt).
Proof.
  unfold process_scan. unfold_monad. norm.
  destruct (bool_decide (uid ∈ allowed_l)); [|destruct (bool_decide (uid ∈ denied_l))]; norm.
  - match goal with |- context [zk_unlock env ?h' ?n] =>
      destruct (zk_unlock env h' n) as [[|c msg]|] end; norm.
    + conclude.
    + match goal with |- context [send_attendance_event ?a ?b ?c ?d ?e ?f env ?h' s] =>
        destruct (send_attendance_event_quiet a b c d e f env h' s)
          as (o & r & -> & Hz & _ & [-> | ->]) end; norm; conclude.
    + match goal with |- context [send_attendance_event ?a ?b ?c ?d ?e ?f env ?h' s] =>
        destruct (send_attendance_event_quiet a b c d e f env h' s)
          as (o & r & -> & Hz & _ & [-> | ->]) end; norm; conclude.
  - match goal with |- context [send_attendance_event ?a ?b ?c ?d ?e ?f env ?h' s] =>
      destruct (send_attendance_event_quiet a b c d e f env h' s)
        as (o & r & -> & Hz & _ & [-> | ->]) end; norm; conclude.
  - match goal with |- context [send_attendance_event ?a ?b ?c ?d ?e ?f env ?h' s] =>
      destruct (send_attendance_event_quiet a b c d e f env h' s)
        as (o & r & -> & Hz & _ & [-> | ->]) end; norm; conclude.
Qed.

Lemma on_attendance_spec a env h st :
  ∃ o st' r,
    on_attendance a env h st = (o, st', r)
    ∧ sleeps o = []
    ∧ reconnect_delay st' = reconnect_delay st
    ∧ conn st' = conn st
    ∧ (r = Ret () ∨ r = Raise KeyboardInterrupt).
Proof.
  unfold on_attendance. destruct a as [a|]; [|conclude].
  destruct (String.eqb _ ""); [conclude|].
  unfold_monad. norm. destruct (bool_decide _); norm; [conclude|].
  match goal with |- context [process_scan ?a ?b ?c ?d ?e env ?h' ?s'] =>
    destruct (process_scan_quiet a b c d e env h' s') as (o & r & -> & Hz & [-> | ->]) end;
    norm; conclude.
Qed.

Lemma live_capture_loop_spec fuel env h st :
  ∃ o st' r,
    live_capture_loop fuel env h st = (o, st', r)
    ∧ sleeps o = []
    ∧ reconnect_delay st' = reconnect_delay st
    ∧ conn st' = conn st.
Proof.
  revert h st. induction fuel as [|fuel IH]; intros h st.
  - eexists _, _, _. finish.
  - cbn [live_capture_loop]. unfold_monad. norm.
    destruct (zk_live_capture env h) as [e|[a|]]; norm; try (conclude).
    destruct (on_attendance_spec a env (h ++ [EvLiveCapture (inr (Yield a))]) st)
      as (o1 & st1 & r1 & -> & Hz1 & Hd1 & Hc1 & [-> | ->]); norm;
      [|conclude].
    match goal with |- context [live_capture_loop fuel env ?h' ?s'] =>
      destruct (IH h' s') as (o2 & st2 & r2 & -> & Hz2 & Hd2 & Hc2) end.
    destruct r2; conclude; congruence.
Qed.

(** A key stays in the set as long as the set has room for it. *)
Lemma remember_keeps env key seen :
  (size ({[key]} ∪ seen) ≤ 500)%nat → key ∈ remember env key seen.
Proof.
  intros Hsz. unfold remember.
  destruct (Nat.ltb_spec 500 (size ({[key]} ∪ seen))); [lia|]. set_solver.
Qed.

(** After an event has gone through the loop, its key is in the set unless
    the set was full. *)
Lemma on_attendance_remembers env h a st :
  default "" (att_user_id a) ≠ "" →
  (size ({[event_key env (default "" (att_user_id a)) (att_timestamp a)]}
         ∪ seen_events st) ≤ 500)%nat →
  event_key env (default "" (att_user_id a)) (att_timestamp a)
    ∈ seen_events (on_attendance (Some a) env h st).1.2.
Proof.
  intros Huid Hroom. unfold on_attendance.
  apply String.eqb_neq in Huid. rewrite Huid. unfold_monad. norm.
  destruct (bool_decide _) eqn:Hseen; norm; [by apply bool_decide_eq_true in Hseen|].
  match goal with |- context [process_scan ?a ?b ?c ?d ?e env ?h' ?s'] =>
    destruct (process_scan_quiet a b c d e env h' s') as (o & r & -> & _) end.
  destruct r; by apply remember_keeps.
Qed.

Lemma b_on_attendance_remembers env h a st :
  default "" (att_user_id a) ≠ "" →
  (size ({[event_key env (default "" (att_user_id a)) (att_timestamp a)]}
         ∪ b_seen_events st) ≤ 500)%nat →
  event_key env (default "" (att_user_id a)) (att_timestamp a)
    ∈ b_seen_events (b_on_attendance (Some a) env h st).1.2.
Proof.
  intros Huid Hroom. unfold b_on_attendance.
  apply String.eqb_neq in Huid. rewrite Huid. unfold_monad. norm.
  destruct (bool_decide _) eqn:Hseen; norm; [by apply bool_decide_eq_true in Hseen|].
  destruct (att_timestamp a); norm; by apply remember_keeps.
Qed.

(** C4: when the key of a scan event is still in the set of seen events, the
    loop of the service does nothing for it (no relay action, no report, no
    change of state), and neither does the loop of the bridge; that is the
    case for the second of two deliveries whenever the first one found room
    in the set. *)
Theorem C4_duplicate_event_ignored env h h' a :
  let key := event_key env (default "" (att_user_id a)) (att_timestamp a) in
  (∀ st : Service,
     key ∈ seen_events st →
     on_attendance (Some a) env h st = ([], st, Ret ()))
  ∧ (∀ st : Bridge,
       key ∈ b_seen_events st →
       b_on_attendance (Some a) env h st = ([], st, Ret ()))
  ∧ (∀ st : Service,
       (size ({[key]} ∪ seen_events st) ≤ 500)%nat →
       let st1 := (on_attendance (Some a) env h st).1.2 in
       on_attendance (Some a) env h' st1 = ([], st1, Ret ()))
  ∧ (∀ st : Bridge,
       (size ({[key]} ∪ b_seen_events st) ≤ 500)%nat →
       let st1 := (b_on_attendance (Some a) env h st).1.2 in
       b_on_attendance (Some a) env h' st1 = ([], st1, Ret ())).
Proof.
  intros key.
  assert (∀ h0 (st : Service), key ∈ seen_events st →
            on_attendance (Some a) env h0 st = ([], st, Ret ())) as Hs.
  { intros h0 st Hseen. unfold on_attendance. destruct (String.eqb _ ""); [done|].
    unfold_monad. norm. fold key. by rewrite bool_decide_eq_true_2. }
  assert (∀ h0 (st : Bridge), key ∈ b_seen_events st →
            b_on_attendance (Some a) env h0 st = ([], st, Ret ())) as Hb.
  { intros h0 st Hseen. unfold b_on_attendance. destruct (String.eqb _ ""); [done|].
    unfold_monad. norm. fold key. by rewrite bool_decide_eq_true_2. }
  split_and!; [apply Hs|apply Hb| |].
  - intros st Hroom st1.
    destruct (String.eqb_spec (default "" (att_user_id a)) "") as [He|He].
    + unfold on_attendance. by rewrite He.
    + apply Hs. by apply on_attendance_remembers.
  - intros st Hroom st1.
    destruct (String.eqb_spec (default "" (att_user_id a)) "") as [He|He].
    + unfold b_on_attendance. by rewrite He.
    + apply Hb. by apply b_on_attendance_remembers.
Qed.

(** ** Synchronisation of the access groups *)

(** One loop of [configure_device_access_groups] when no assignment is
    interrupted: it goes through the whole list. *)
Lemma for_each_assign_group {S} env d g line l h (s : S) :
  (line = LogSetAllowed ∨ line = LogSetDenied) →
  (∀ h' a, zk_set_user env h' a ≠ Some KeyboardInterrupt) →
  ∃ o,
    for_each l (assign_group d g line) env h s = (o, s, Ret ())
    ∧ assignments o = omap (λ uid, (λ u, set_user_args u g uid) <$> d !! uid) l
    ∧ warnings o = failed_assignments o
    ∧ Forall (λ uid, is_Some (d !! uid)) (assigned_ids o).
Proof.
  intros Hline Hki. revert h. induction l as [|uid l IH]; intros h.
  - exists []. done.
  - cbn [for_each]. unfold bind at 1. unfold assign_group at 1.
    destruct (d !! uid) as [user|] eqn:Hd.
    + unfold_monad. norm.
      match goal with |- context [zk_set_user env ?h' ?p] =>
        pose proof (Hki h' p) as Hk;
        destruct (zk_set_user env h' p) as [[|c msg]|] eqn:Hans end; [done| |]; norm.
      * match goal with |- context [for_each l _ env ?h' s] =>
          destruct (IH h') as (o & -> & Ha & Hw & Hi) end.
        eexists. split; [reflexivity|]. cbn [omap fmap option_fmap option_map].
        unfold assignments, warnings, failed_assignments, assigned_ids in *.
        destruct Hline as [-> | ->]; cbn; rewrite Ha, Hw, Hd; cbn; (split_and!; [done|done|]);
          repeat (constructor; [by eexists|]); done.
      * match goal with |- context [for_each l _ env ?h' s] =>
          destruct (IH h') as (o & -> & Ha & Hw & Hi) end.
        eexists. split; [reflexivity|]. cbn [omap fmap option_fmap option_map].
        unfold assignments, warnings, failed_assignments, assigned_ids in *.
        destruct Hline as [-> | ->]; cbn; rewrite Ha, Hd; cbn; (split_and!; [done|done|]);
          repeat (constructor; [by eexists|]); done.
    + unfold_monad. norm. rewrite app_nil_r.
      destruct (IH h) as (o & -> & Ha & Hw & Hi).
      exists o. split; [reflexivity|]. cbn. by rewrite Hd.
Qed.

(** The dictionary built from the listing of the terminal holds, under an
    identifier, the user enrolled under it. *)
Lemma user_dict_of_snoc users u :
  user_dict_of (users ++ [u]) = <[user_user_id u := u]> (user_dict_of users).
Proof. unfold user_dict_of. by rewrite foldl_app. Qed.

Lemma user_dict_of_enrolled users uid : user_dict_of users !! uid = enrolled users uid.
Proof.
  induction users as [|u users IH] using rev_ind; [done|].
  rewrite user_dict_of_snoc. unfold enrolled in *. rewrite List.filter_app. cbn.
  destruct (String.eqb_spec (user_user_id u) uid) as [->|Hne].
  - by rewrite lookup_insert_eq, last_snoc.
  - by rewrite lookup_insert_ne, app_nil_r.
Qed.

Lemma enrolled_elem users uid u :
  enrolled users uid = Some u → u ∈ users ∧ user_user_id u = uid.
Proof.
  intros Hl%last_Some_elem_of. apply list_elem_of_In, filter_In in Hl as [Hu Hid].
  split; [by apply list_elem_of_In|by apply String.eqb_eq].
Qed.

Lemma enrolled_is_Some users uid u :
  u ∈ users → user_user_id u = uid → is_Some (enrolled users uid).
Proof.
  intros Hu Hid. apply last_is_Some. intros Hnil.
  assert (u ∈ List.filter (λ u, String.eqb (user_user_id u) uid) users) as Hin.
  { apply list_elem_of_In, filter_In. split; [by apply list_elem_of_In|].
    by apply String.eqb_eq. }
  rewrite Hnil in Hin. by apply elem_of_nil in Hin.
Qed.

Lemma owed_assignments_lookup users g l :
  owed_assignments users g l
  = omap (λ uid, (λ u, set_user_args u g uid) <$> user_dict_of users !! uid) l.
Proof.
  unfold owed_assignments. induction l as [|uid l IH]; [done|].
  cbn. by rewrite IH, user_dict_of_enrolled.
Qed.

(** An identifier of the input that has an enrolled user is in the
    assignments owed. *)
Lemma owed_assignments_elem users g l uid u :
  uid ∈ l → u ∈ users → user_user_id u = uid →
  ∃ a, a ∈ owed_assignments users g l ∧ su_user_id a = uid ∧ su_group_id a = g.
Proof.
  intros Hl Hu Hid. destruct (enrolled_is_Some users uid u Hu Hid) as [u' Hu'].
  exists (set_user_args u' g uid). split; [|done].
  unfold owed_assignments. apply list_elem_of_omap. exists uid. by rewrite Hu'.
Qed.

(** The loop of the bridge goes through all its members as well. *)
Lemma omap_cons_eq {A B} (f : A → option B) x l :
  omap f (x :: l) = match f x with Some y => y :: omap f l | None => omap f l end.
Proof. reflexivity. Qed.

Lemma sync_members_attempts_all {S} env users objs results h (s : S) :
  (∀ h' a, zk_set_user env h' a ≠ Some KeyboardInterrupt) →
  ∃ o items,
    sync_members (user_dict_of users) (MObject <$> objs) results env h s
      = (o, s, Ret (results ++ items))
    ∧ assignments o = omap (owed_member_assignment users) objs
    ∧ length items = length (assignments o).
Proof.
  intros Hki. revert results h. induction objs as [|fields objs IH]; intros results h.
  - exists [], []. by rewrite app_nil_r.
  - rewrite omap_cons_eq. cbn [fmap list_fmap sync_members].
    unfold owed_member_assignment at 1.
    destruct (String.eqb_spec (member_biometric_id fields) "") as [He|He].
    + rewrite decide_True by done. apply IH.
    + rewrite decide_False by done.
      rewrite <- user_dict_of_enrolled.
      destruct (user_dict_of users !! member_biometric_id fields) as [user|] eqn:Hd;
        [|apply IH].
      unfold_monad. norm.
      match goal with |- context [zk_set_user env ?h' ?p] =>
        pose proof (Hki h' p) as Hk;
        destruct (zk_set_user env h' p) as [[|c msg]|] eqn:Hans end; [done| |]; norm.
      * match goal with |- context [sync_members _ _ ?r' env ?h' s] =>
          destruct (IH r' h') as (o & items & -> & Ha & Hl) end.
        eexists _, (_ :: items). rewrite <- app_assoc. split; [reflexivity|].
        unfold assignments in *. cbn. rewrite Ha. rewrite Ha in Hl. cbn. rewrite Hl.
        by destruct (jtruthy _).
      * match goal with |- context [sync_members _ _ ?r' env ?h' s] =>
          destruct (IH r' h') as (o & items & -> & Ha & Hl) end.
        eexists _, (_ :: items). rewrite <- app_assoc. split; [reflexivity|].
        unfold assignments in *. cbn. rewrite Ha. rewrite Ha in Hl. cbn. rewrite Hl.
        by destruct (jtruthy _).
Qed.

(** C9: the synchronisation attempts one assignment for every identifier that
    has an enrolled user, in the order of its input, and none for the others;
    it warns once for each assignment that fails and carries on to the end:
    every identifier of the input under which the terminal lists a user has
    its assignment among those attempted, whatever the other assignments
    answered.  The same holds for the members given to the bridge. *)
Theorem C9_sync_is_best_effort {S} env h (s : S) users :
  (∀ h' a, zk_set_user env h' a ≠ Some KeyboardInterrupt) →
  (∀ allowed_l denied_l,
     zk_get_users env (h ++ [EvPrint LogConfiguring]) = inr users →
     ∃ o,
       configure_device_access_groups allowed_l denied_l env h s = (o, s, Ret ())
       ∧ assignments o
         = owed_assignments users "1" allowed_l ++ owed_assignments users "0" denied_l
       ∧ warnings o = failed_assignments o
       ∧ Forall (λ uid, ∃ u, u ∈ users ∧ user_user_id u = uid) (assigned_ids o)
       ∧ (∀ uid u, u ∈ users → user_user_id u = uid →
            (uid ∈ allowed_l →
               ∃ a, a ∈ assignments o ∧ su_user_id a = uid ∧ su_group_id a = "1")
            ∧ (uid ∈ denied_l →
                 ∃ a, a ∈ assignments o ∧ su_user_id a = uid ∧ su_group_id a = "0")))
  ∧ (∀ ip port comm_key objs,
       zk_connect env h = None →
       zk_get_users env (h ++ [EvConnect ip port comm_key None]) = inr users →
       ∃ o r,
         sync_access_groups ip port comm_key (Some (MObject <$> objs)) env h s = (o, s, r)
         ∧ assignments o = omap (owed_member_assignment users) objs
         ∧ Forall (λ a, ∃ u, u ∈ users ∧ user_user_id u = su_user_id a) (assignments o)
         ∧ (∀ fields u,
              fields ∈ objs → member_biometric_id fields ≠ "" →
              u ∈ users → user_user_id u = member_biometric_id fields →
              ∃ a, a ∈ assignments o ∧ su_user_id a = member_biometric_id fields)).
Proof.
  intros Hki. split.
  - intros allowed_l denied_l Hu.
    unfold configure_device_access_groups. unfold_monad. norm. rewrite Hu. norm.
    match goal with |- context [for_each allowed_l _ env ?h' s] =>
      destruct (for_each_assign_group env (user_dict_of users) "1" LogSetAllowed
                  allowed_l h' s) as (o1 & -> & Ha1 & Hw1 & Hi1); [by left|done|] end.
    norm.
    match goal with |- context [for_each denied_l _ env ?h' s] =>
      destruct (for_each_assign_group env (user_dict_of users) "0" LogSetDenied
                  denied_l h' s) as (o2 & -> & Ha2 & Hw2 & Hi2); [by right|done|] end.
    norm. eexists. split; [reflexivity|].
    rewrite <- owed_assignments_lookup in Ha1, Ha2.
    assert (∀ o, Forall (λ uid, is_Some (user_dict_of users !! uid)) o →
                 Forall (λ uid, ∃ u, u ∈ users ∧ user_user_id u = uid) o) as Hen.
    { intros o Ho. eapply Forall_impl; [exact Ho|]. intros uid [u Hd].
      rewrite user_dict_of_enrolled in Hd. exists u. by apply enrolled_elem. }
    apply Hen in Hi1, Hi2.
    unfold assignments, warnings, failed_assignments, assigned_ids in *.
    cbn. rewrite !omap_app. cbn. rewrite !app_nil_r, Ha1, Ha2, Hw1, Hw2.
    split_and!; [done|done|by apply Forall_app|].
    intros uid u Hin Hid. split; intros Hl.
    + destruct (owed_assignments_elem users "1" allowed_l uid u Hl Hin Hid)
        as (a & Ha & Hids). exists a. split; [|done]. apply elem_of_app. by left.
    + destruct (owed_assignments_elem users "0" denied_l uid u Hl Hin Hid)
        as (a & Ha & Hids). exists a. split; [|done]. apply elem_of_app. by right.
  - intros ip port comm_key objs Hc Hu.
    assert (Forall (λ a, ∃ u, u ∈ users ∧ user_user_id u = su_user_id a)
                   (omap (owed_member_assignment users) objs)) as Hall.
    { apply Forall_forall. intros a (fields & Hf & Ho)%list_elem_of_omap.
      unfold owed_member_assignment in Ho. destruct (decide _); [done|].
      destruct (enrolled users _) as [u|] eqn:He; [|done]. injection Ho as <-.
      exists u. by apply enrolled_elem. }
    assert (∀ fields u,
              fields ∈ objs → member_biometric_id fields ≠ "" →
              u ∈ users → user_user_id u = member_biometric_id fields →
              ∃ a, a ∈ omap (owed_member_assignment users) objs
                   ∧ su_user_id a = member_biometric_id fields) as Hevery.
    { intros fields u Hf Hne Hin Hid.
      destruct (enrolled_is_Some users _ u Hin Hid) as [u' Hu'].
      eexists. split; [apply list_elem_of_omap; exists fields; split; [done|]|].
      - unfold owed_member_assignment. rewrite decide_False by done. by rewrite Hu'.
      - done. }
    unfold sync_access_groups. unfold_monad. rewrite Hc. norm. rewrite Hu. norm.
    match goal with |- context [sync_members _ _ ?r' env ?h' s] =>
      destruct (sync_members_attempts_all env users objs r' h' s Hki)
        as (o & items & -> & Ha & Hl) end.
    norm.
    match goal with |- context [zk_disconnect env ?h'] =>
      destruct (zk_disconnect env h') as [[|c msg]|] end; norm;
      eexists _, _; (split; [reflexivity|]);
      unfold assignments in *; cbn; rewrite omap_app; cbn; rewrite app_nil_r, Ha; done.
Qed.

(** ** The supervisor *)

(** What a setup phase does, by the age of the last reload. *)
Lemma setup_phase_spec env h st :
  ∃ o st' r,
    setup_phase env h st = (o, st', r)
    ∧ (r = Ret () ∨ r = Raise KeyboardInterrupt)
    ∧ conn st' = conn st
    ∧ seen_events st' = seen_events st
    ∧ (sleeps o = [] ∧ captures o = 0%nat)
    ∧ (r = Ret () → reconnect_delay st' = 2 ∧ device_configured st' = true)
    ∧ (db_refresh_interval < datetime_now env h - last_db_refresh st →
         loads o = 1%nat ∧ (r = Ret () → syncs o = 1%nat))
    ∧ (datetime_now env h - last_db_refresh st ≤ db_refresh_interval →
         loads o = 0%nat
         ∧ syncs o = (if device_configured st then 0 else 1)%nat
         ∧ members st' = members st
         ∧ last_db_refresh st' = last_db_refresh st
         ∧ (device_configured st = true → r = Ret ())).
Proof.
  unfold setup_phase. unfold_monad. norm.
  destruct (Z.ltb_spec db_refresh_interval (datetime_now env h - last_db_refresh st))
    as [Hlt|Hge]; norm.
  - match goal with |- context [get_members_from_db env ?h' ?s'] =>
      destruct (get_members_from_db_once env h' s') as (o1 & r1 & -> & Hl1 & Hs1 & Hz1 & Hr1)
    end.
    destruct Hr1 as [[c ->]| ->]; norm.
    2:{ eexists _, _, _. split; [reflexivity|]. finish. }
    match goal with |- context [zk_disable_device env ?h'] =>
      destruct (zk_disable_device env h') as [e1|] end; norm.
    all: match goal with |- context [configure_device_access_groups ?a ?d ?ev ?h' ?s'] =>
      destruct (configure_device_access_groups_once a d ev h' s')
        as (o2 & r2 & -> & Hl2 & Hs2 & Hz2 & Hr2) end.
    all: destruct Hr2 as [-> | ->]; norm.
    all: try match goal with |- context [zk_enable_device ?ev ?h'] =>
      destruct (zk_enable_device ev h') as [e2|] end; norm.
    all: eexists _, _, _; (split; [reflexivity|]).
    all: finish.
  - match goal with |- context [zk_disable_device env ?h'] =>
      destruct (zk_disable_device env h') as [e1|] end; norm.
    all: destruct (device_configured st) eqn:Hdc; norm.
    all: try match goal with |- context [configure_device_access_groups ?a ?d ?ev ?h' ?s'] =>
      destruct (configure_device_access_groups_once a d ev h' s')
        as (o2 & r2 & -> & Hl2 & Hs2 & Hz2 & Hr2); destruct Hr2 as [-> | ->]; norm end.
    all: try match goal with |- context [zk_enable_device ?ev ?h'] =>
      destruct (zk_enable_device ev h') as [e2|] end; norm.
    all: eexists _, _, _; (split; [reflexivity|]).
    all: finish.
Qed.

(** A reload puts what the store returned in place. *)
Lemma setup_phase_installs env h st o1 c :
  db_refresh_interval < datetime_now env h - last_db_refresh st →
  get_members_from_db env (h ++ [EvNow (datetime_now env h); EvPrint LogRefreshing]) st
    = (o1, st, Ret c) →
  members (setup_phase env h st).1.2 = c.
Proof.
  intros Hlt%Z.ltb_lt Hg. unfold setup_phase. unfold_monad. norm.
  rewrite Hlt. norm. rewrite Hg. norm.
  match goal with |- context [zk_disable_device env ?h'] =>
    destruct (zk_disable_device env h') as [e1|] end; norm.
  all: match goal with |- context [configure_device_access_groups ?a ?d ?ev ?h' ?s'] =>
    destruct (configure_device_access_groups_once a d ev h' s')
      as (o2 & r2 & -> & _ & _ & _ & Hr2) end.
  all: destruct Hr2 as [-> | ->]; norm.
  all: try match goal with |- context [zk_enable_device ?ev ?h'] =>
    destruct (zk_enable_device ev h') as [e2|] end; norm.
  all: reflexivity.
Qed.

(** A reload restarts the timer when it ends, whatever the store returned. *)
Lemma setup_phase_restarts_timer env h st o1 c :
  db_refresh_interval < datetime_now env h - last_db_refresh st →
  get_members_from_db env (h ++ [EvNow (datetime_now env h); EvPrint LogRefreshing]) st
    = (o1, st, Ret c) →
  last_db_refresh (setup_phase env h st).1.2
  = datetime_now env (h ++ [EvNow (datetime_now env h); EvPrint LogRefreshing] ++ o1).
Proof.
  intros Hlt%Z.ltb_lt Hg. unfold setup_phase. unfold_monad. norm.
  rewrite Hlt. norm. rewrite Hg. norm. rewrite app_nil_r.
  match goal with |- context [zk_disable_device env ?h'] =>
    destruct (zk_disable_device env h') as [e1|] end; norm.
  all: match goal with |- context [configure_device_access_groups ?a ?d ?ev ?h' ?s'] =>
    destruct (configure_device_access_groups_once a d ev h' s')
      as (o2 & r2 & -> & _ & _ & _ & Hr2) end.
  all: destruct Hr2 as [-> | ->]; norm.
  all: try match goal with |- context [zk_enable_device ?ev ?h'] =>
    destruct (zk_enable_device ev h') as [e2|] end; norm.
  all: reflexivity.
Qed.

(** The [try] block either fails to connect and leaves the variables as they
    were, or connects, and then fails only with the delay back at 2. *)
Lemma session_spec fuel env h st :
  ∃ o s1 r,
    session fuel env h st = (o, s1, r)
    ∧ sleeps o = []
    ∧ match zk_connect env (h ++ [EvPrint LogConnecting]) with
      | Some e => s1 = st ∧ r = Raise e
      | None =>
          conn s1 = true
          ∧ (∀ c msg, r = Raise (Exception c msg) → reconnect_delay s1 = 2)
          ∧ (r = Ret Continue → reconnect_delay s1 = 2)
      end.
Proof.
  unfold session, connect_device. unfold_monad. norm.
  destruct (zk_connect env (h ++ [EvPrint LogConnecting])) as [e|]; norm; [conclude|].
  match goal with |- context [setup_phase env ?h' ?s'] =>
    destruct (setup_phase_spec env h' s')
      as (o1 & s1 & r1 & -> & Hr1 & Hc1 & _ & Hz1 & Hd1 & _) end.
  destruct Hr1 as [-> | ->]; norm; [|conclude].
  destruct Hd1 as [Hd1 _]; [done|].
  match goal with |- context [live_capture_loop fuel env ?h' ?s'] =>
    destruct (live_capture_loop_spec fuel env h' s') as (o2 & s2 & r2 & -> & Hz2 & Hd2 & Hc2)
  end.
  destruct r2; norm; conclude; congruence.
Qed.

(** The turn of the loop after its [try] block has raised an [Exception]. *)
Lemma main_iteration_failure fuel env h st o1 s1 c msg :
  session fuel env h (set_conn false st) = (o1, s1, Raise (Exception c msg)) →
  ∃ answer fin st' r,
    main_iteration fuel env h st =
      (o1 ++ [EvPrint (LogError msg); EvPrint (LogRetrying (reconnect_delay s1));
              EvSleep (seconds (reconnect_delay s1)) answer] ++ fin, st', r)
    ∧ sleeps fin = []
    ∧ (answer = None →
         r = Ret Continue ∧ reconnect_delay st' = Z.min (reconnect_delay s1 * 2) 60).
Proof.
  intros Hs. unfold main_iteration, on_error. unfold_monad. norm.
  rewrite app_nil_r, Hs. norm.
  match goal with |- context [time_sleep env ?h' ?n] =>
    destruct (time_sleep env h' n) as [e|] end; norm.
  all: destruct (conn s1); norm.
  all: try match goal with |- context [zk_disconnect ?ev ?h'] =>
    destruct (zk_disconnect ev h') as [e'|] end; norm.
  all: eexists _, _, _, _; (split; [reflexivity|]); finish.
Qed.

(** Doubling under the cap steps through [backoff]. *)
Lemma backoff_next k : Z.min (backoff k * 2) 60 = backoff (S k).
Proof.
  unfold backoff. rewrite Nat2Z.inj_succ.
  replace (Z.succ (Z.of_nat k) + 1) with (Z.succ (Z.of_nat k + 1)) by lia.
  rewrite Z.pow_succ_r by lia.
  assert (0 < 2 ^ (Z.of_nat k + 1)) by (apply Z.pow_pos_nonneg; lia). lia.
Qed.

Lemma backoff_0 : backoff 0 = 2.
Proof. reflexivity. Qed.

(** Turns of the loop while the terminal cannot be reached. *)
Lemma main_iteration_connect_fails fuel env h st c msg :
  zk_connect env (h ++ [EvPrint LogConnecting]) = Some (Exception c msg) →
  (∀ h' ms, time_sleep env h' ms = None) →
  main_iteration fuel env h st =
    ([EvPrint LogConnecting;
      EvConnect (DEVICE_IP env) (PORT env) (COMM_KEY env) (Some (Exception c msg));
      EvPrint (LogError msg); EvPrint (LogRetrying (reconnect_delay st));
      EvSleep (seconds (reconnect_delay st)) None],
     set_reconnect_delay (Z.min (reconnect_delay st * 2) 60) (set_conn false st),
     Ret Continue).
Proof.
  intros Hc Hs. unfold main_iteration, session, connect_device, on_error. unfold_monad. norm.
  rewrite Hc. norm. rewrite Hs. by norm.
Qed.

Lemma main_loop_unreachable fuel env :
  (∀ h, ∃ c msg, zk_connect env h = Some (Exception c msg)) →
  (∀ h ms, time_sleep env h ms = None) →
  ∀ turns k h st,
    reconnect_delay st = backoff k →
    sleeps (main_loop fuel turns env h st).1.1 = (λ i, seconds (backoff i)) <$> seq k turns.
Proof.
  intros Hc Hs. induction turns as [|turns IH]; intros k h st Hd; [done|].
  cbn [main_loop]. unfold mbind, M_bind, bind.
  destruct (Hc (h ++ [EvPrint LogConnecting])) as (c & msg & Hc').
  rewrite (main_iteration_connect_fails fuel env h st c msg Hc' Hs).
  match goal with |- context [main_loop fuel turns env ?h' ?s'] =>
    specialize (IH (S k) h' s');
    destruct (main_loop fuel turns env h' s') as [[o2 s2] r2] end.
  cbn in IH |- *. rewrite IH, Hd; [done|]. cbn. rewrite Hd. apply backoff_next.
Qed.

Lemma main_init_spec env h o st :
  main_init env h () = (o, (), Ret st) →
  reconnect_delay st = 2 ∧ device_configured st = false ∧ seen_events st = ∅.
Proof.
  unfold main_init. unfold_monad. norm.
  match goal with |- context [get_members_from_db env ?h' ?s'] =>
    destruct (get_members_from_db_once env h' s') as (o1 & r1 & -> & _ & _ & _ & Hr1) end.
  destruct Hr1 as [[c ->]| ->]; norm; [|done]. by intros [= <- <-].
Qed.

(** The timer starts with the clock reading that opens [main], before the
    first load. *)
Lemma main_init_starts_timer env h o st :
  main_init env h () = (o, (), Ret st) → last_db_refresh st = datetime_now env h.
Proof.
  unfold main_init. unfold_monad. norm.
  match goal with |- context [get_members_from_db env ?h' ?s'] =>
    destruct (get_members_from_db_once env h' s') as (o1 & r1 & -> & _ & _ & _ & Hr1) end.
  destruct Hr1 as [[c ->]| ->]; norm; [|done]. by intros [= <- <-].
Qed.

(** ** The bridge *)

(** The loops of the bridge never unlock, and keep the delay while they
    capture. *)
Lemma b_on_attendance_spec a env h st :
  ∃ o st' r,
    b_on_attendance a env h st = (o, st', r)
    ∧ unlocks o = []
    ∧ b_reconnect_delay st' = b_reconnect_delay st
    ∧ b_conn st' = b_conn st
    ∧ r = Ret ().
Proof.
  unfold b_on_attendance. destruct a as [a|]; [|conclude].
  destruct (String.eqb _ ""); [conclude|].
  unfold_monad. norm. destruct (bool_decide _); norm; [conclude|].
  destruct (att_timestamp a); norm; conclude.
Qed.

Lemma b_live_capture_loop_spec fuel env h st :
  ∃ o st' r,
    b_live_capture_loop fuel env h st = (o, st', r)
    ∧ unlocks o = []
    ∧ b_reconnect_delay st' = b_reconnect_delay st
    ∧ b_conn st' = b_conn st.
Proof.
  revert h st. induction fuel as [|fuel IH]; intros h st.
  - conclude.
  - cbn [b_live_capture_loop]. unfold_monad. norm.
    destruct (zk_live_capture env h) as [e|[a|]]; norm; [conclude| |conclude].
    destruct (b_on_attendance_spec a env (h ++ [EvLiveCapture (inr (Yield a))]) st)
      as (o1 & st1 & r1 & -> & Hz1 & Hd1 & Hc1 & ->); norm.
    match goal with |- context [b_live_capture_loop fuel env ?h' ?s'] =>
      destruct (IH h' s') as (o2 & st2 & r2 & -> & Hz2 & Hd2 & Hc2) end.
    destruct r2; conclude; congruence.
Qed.

Lemma b_session_spec fuel ip port comm_key env h st :
  ∃ o s1 r,
    b_session fuel ip port comm_key env h st = (o, s1, r)
    ∧ unlocks o = []
    ∧ match zk_connect env
              (h ++ [EvOut (JStatus ("Connecting to " +:+ ip +:+ ":" +:+ pretty port))]) with
      | Some e => s1 = st ∧ r = Raise e
      | None =>
          b_conn s1 = true
          ∧ b_reconnect_delay s1 = 2
      end.
Proof.
  unfold b_session. unfold_monad. norm.
  match goal with |- context [zk_connect env ?h'] =>
    destruct (zk_connect env h') as [e|] end; norm; [conclude|].
  match goal with |- context [zk_disable_device env ?h'] =>
    destruct (zk_disable_device env h') as [e1|] end; norm.
  2: match goal with |- context [time_sleep env ?h' ?n] =>
    destruct (time_sleep env h' n) as [e2|] end; norm.
  3: match goal with |- context [zk_enable_device env ?h'] =>
    destruct (zk_enable_device env h') as [e3|] end; norm.
  all: match goal with |- context [b_live_capture_loop ?fu ?ev ?h' ?s'] =>
    destruct (b_live_capture_loop_spec fu ev h' s') as (o2 & s2 & r2 & -> & Hz2 & Hd2 & Hc2)
  end.
  all: destruct r2; norm; conclude.
Qed.

Lemma monitor_iteration_spec fuel ip port comm_key env h st :
  ∃ o st' r,
    monitor_iteration fuel ip port comm_key env h st = (o, st', r)
    ∧ unlocks o = [].
Proof.
  unfold monitor_iteration, b_on_error. unfold_monad. norm. rewrite app_nil_r.
  destruct (b_session_spec fuel ip port comm_key env h (b_set_conn false st))
    as (o1 & s1 & r1 & -> & Hz1 & _).
  destruct r1 as [a|[|c msg]|]; norm.
  4: conclude.
  3: match goal with |- context [time_sleep env ?h' ?n] =>
    destruct (time_sleep env h' n) as [e|] end; norm.
  all: destruct (b_conn s1); norm.
  all: try match goal with |- context [zk_disconnect ?ev ?h'] =>
    destruct (zk_disconnect ev h') as [e'|] end; norm.
  all: conclude.
Qed.

Lemma monitor_loop_spec fuel turns ip port comm_key env h st :
  unlocks (monitor_loop fuel turns ip port comm_key env h st).1.1 = [].
Proof.
  revert h st. induction turns as [|turns IH]; intros h st; [done|].
  cbn [monitor_loop]. unfold mbind, M_bind, bind.
  destruct (monitor_iteration_spec fuel ip port comm_key env h st) as (o & st' & r & -> & Hz).
  destruct r as [[]| |]; cbn -[unlocks]; try (by rewrite ?app_nil_r).
  match goal with |- context [monitor_loop fuel turns ip port comm_key env ?h' ?s'] =>
    specialize (IH h' s');
    destruct (monitor_loop fuel turns ip port comm_key env h' s') as [[o2 s2] r2] end.
  cbn -[unlocks] in IH |- *. by rewrite unlocks_app, Hz, IH.
Qed.

(** The backoff of the bridge, as for the service. *)
Lemma monitor_iteration_failure fuel ip port comm_key env h st o1 s1 c msg :
  b_session fuel ip port comm_key env h (b_set_conn false st)
    = (o1, s1, Raise (Exception c msg)) →
  ∃ answer fin st' r,
    monitor_iteration fuel ip port comm_key env h st =
      (o1 ++ [EvOut (JError msg);
              EvOut (JStatus ("Reconnecting in " +:+ pretty (b_reconnect_delay s1)
                              +:+ " seconds..."));
              EvSleep (seconds (b_reconnect_delay s1)) answer] ++ fin, st', r)
    ∧ sleeps fin = []
    ∧ (answer = None →
         r = Ret Continue ∧ b_reconnect_delay st' = Z.min (b_reconnect_delay s1 * 2) 60).
Proof.
  intros Hs. unfold monitor_iteration, b_on_error. unfold_monad. norm.
  rewrite app_nil_r, Hs. norm.
  match goal with |- context [time_sleep env ?h' ?n] =>
    destruct (time_sleep env h' n) as [e|] end; norm.
  all: destruct (b_conn s1); norm.
  all: try match goal with |- context [zk_disconnect ?ev ?h'] =>
    destruct (zk_disconnect ev h') as [e'|] end; norm.
  all: eexists _, _, _, _; (split; [reflexivity|]); finish.
Qed.

Lemma monitor_iteration_connect_fails fuel ip port comm_key env h st c msg :
  zk_connect env (h ++ [EvOut (JStatus ("Connecting to " +:+ ip +:+ ":" +:+ pretty port))])
    = Some (Exception c msg) →
  (∀ h' ms, time_sleep env h' ms = None) →
  ∃ o,
    monitor_iteration fuel ip port comm_key env h st =
      (o, b_set_reconnect_delay (Z.min (b_reconnect_delay st * 2) 60) (b_set_conn false st),
       Ret Continue)
    ∧ sleeps o = [seconds (b_reconnect_delay st)].
Proof.
  intros Hc Hs. unfold monitor_iteration, b_session, b_on_error. unfold_monad. norm.
  rewrite Hc. norm. rewrite Hs. norm. conclude.
Qed.

Lemma monitor_loop_unreachable fuel ip port comm_key env :
  (∀ h, ∃ c msg, zk_connect env h = Some (Exception c msg)) →
  (∀ h ms, time_sleep env h ms = None) →
  ∀ turns k h st,
    b_reconnect_delay st = backoff k →
    sleeps (monitor_loop fuel turns ip port comm_key env h st).1.1
      = (λ i, seconds (backoff i)) <$> seq k turns.
Proof.
  intros Hc Hs. induction turns as [|turns IH]; intros k h st Hd; [done|].
  cbn [monitor_loop]. unfold mbind, M_bind, bind.
  match goal with |- context [monitor_iteration _ _ _ _ _ ?h' _] =>
    destruct (Hc (h' ++ [EvOut (JStatus ("Connecting to " +:+ ip +:+ ":" +:+ pretty port))]))
      as (c & msg & Hc') end.
  destruct (monitor_iteration_connect_fails fuel ip port comm_key env h st c msg Hc' Hs)
    as (o & -> & Hz).
  match goal with |- context [monitor_loop fuel turns ip port comm_key env ?h' ?s'] =>
    specialize (IH (S k) h' s');
    destruct (monitor_loop fuel turns ip port comm_key env h' s') as [[o2 s2] r2] end.
  cbn -[sleeps] in IH |- *. rewrite sleeps_app, Hz, IH, Hd; [done|]. cbn. rewrite Hd.
  apply backoff_next.
Qed.

(** C6, as the code has it: a setup phase entered more than 300 seconds after
    [last_db_refresh] reloads the classification once, keeps what the store
    returned and, when it completes, has synchronised the access groups once;
    a setup phase entered earlier, once the groups have been configured, does
    neither.  [last_db_refresh] is the clock reading that opens [main], until
    a reload; a reload sets it to the clock reading taken when the load has
    returned, whatever the load returned (the classification of the store,
    or the empty one of a load that failed); a setup phase that does not
    reload leaves it.  No event of the live capture is read before the phase
    is over. *)
Theorem C6_refresh_follows_last_reload env h st :
  ∃ o st' r,
    setup_phase env h st = (o, st', r)
    ∧ (r = Ret () ∨ r = Raise KeyboardInterrupt)
    ∧ captures o = 0%nat
    ∧ (r = Ret () → device_configured st' = true)
    ∧ (db_refresh_interval < datetime_now env h - last_db_refresh st →
         loads o = 1%nat
         ∧ (r = Ret () → syncs o = 1%nat)
         ∧ (∀ o1 c,
              get_members_from_db env
                (h ++ [EvNow (datetime_now env h); EvPrint LogRefreshing]) st
                = (o1, st, Ret c) →
              members st' = c
              ∧ last_db_refresh st'
                = datetime_now env
                    (h ++ [EvNow (datetime_now env h); EvPrint LogRefreshing] ++ o1)))
    ∧ (datetime_now env h - last_db_refresh st ≤ db_refresh_interval →
         last_db_refresh st' = last_db_refresh st
         ∧ (device_configured st = true →
            loads o = 0%nat ∧ syncs o = 0%nat ∧ r = Ret ()
            ∧ members st' = members st ∧ last_db_refresh st' = last_db_refresh st))
    ∧ (∀ h0 o0 st0,
         main_init env h0 () = (o0, (), Ret st0) →
         last_db_refresh st0 = datetime_now env h0
         ∧ device_configured st0 = false).
Proof.
  destruct (setup_phase_spec env h st)
    as (o & st' & r & Hrun & Hr & _ & _ & [_ Hcap] & Hd & Hlate & Hearly).
  exists o, st', r. split_and!; [done|done|done|by intros []%Hd| | |].
  - intros Hlt. destruct (Hlate Hlt) as [Hl Hs]. split_and!; [done|done|].
    intros o1 c Hg. rewrite <- (setup_phase_installs env h st o1 c Hlt Hg).
    rewrite <- (setup_phase_restarts_timer env h st o1 c Hlt Hg).
    by rewrite Hrun.
  - intros Hle. destruct (Hearly Hle) as (Hl & Hs & Hm & Ht & Hret).
    split; [done|]. intros Hdc. rewrite Hdc in Hs. auto.
  - intros h0 o0 st0 Hinit. split; [by eapply main_init_starts_timer|].
    by apply main_init_spec in Hinit as (_ & ? & _).
Qed.

(** C7: a turn of the loop whose [try] block fails sleeps for the current
    delay (2 seconds once a connection has succeeded in that turn, the stored
    delay otherwise) and then doubles the stored delay up to 60; the delay
    starts at 2; failures in a row wait 2, 4, 8, 16, 32, 60, 60, ... seconds.
    The service and the bridge agree. *)
Theorem C7_backoff fuel env :
  (∀ h st o1 s1 c msg,
     session fuel env h (set_conn false st) = (o1, s1, Raise (Exception c msg)) →
     let d := if conn s1 then 2 else reconnect_delay st in
     ∃ answer fin st' r,
       main_iteration fuel env h st =
         (o1 ++ [EvPrint (LogError msg); EvPrint (LogRetrying d);
                 EvSleep (seconds d) answer] ++ fin, st', r)
       ∧ sleeps o1 = [] ∧ sleeps fin = []
       ∧ (answer = None → r = Ret Continue ∧ reconnect_delay st' = Z.min (d * 2) 60))
  ∧ (∀ h o st, main_init env h () = (o, (), Ret st) → reconnect_delay st = 2)
  ∧ (∀ ip port comm_key h st o1 s1 c msg,
       b_session fuel ip port comm_key env h (b_set_conn false st)
         = (o1, s1, Raise (Exception c msg)) →
       let d := if b_conn s1 then 2 else b_reconnect_delay st in
       ∃ answer fin st' r,
         monitor_iteration fuel ip port comm_key env h st =
           (o1 ++ [EvOut (JError msg);
                   EvOut (JStatus ("Reconnecting in " +:+ pretty d +:+ " seconds..."));
                   EvSleep (seconds d) answer] ++ fin, st', r)
         ∧ sleeps fin = []
         ∧ (answer = None → r = Ret Continue ∧ b_reconnect_delay st' = Z.min (d * 2) 60))
  ∧ b_reconnect_delay monitor_start = 2
  ∧ ((∀ h, ∃ c msg, zk_connect env h = Some (Exception c msg)) →
     (∀ h ms, time_sleep env h ms = None) →
     ∀ turns,
       (∀ h st, reconnect_delay st = 2 →
          sleeps (main_loop fuel turns env h st).1.1
            = (λ k, seconds (backoff k)) <$> seq 0 turns)
       ∧ (∀ ip port comm_key h st, b_reconnect_delay st = 2 →
            sleeps (monitor_loop fuel turns ip port comm_key env h st).1.1
              = (λ k, seconds (backoff k)) <$> seq 0 turns)).
Proof.
  split_and!.
  - intros h st o1 s1 c msg Hs.
    destruct (session_spec fuel env h (set_conn false st)) as (o & s & r & Hrun & Hz & Hc).
    rewrite Hs in Hrun. injection Hrun as <- <- <-.
    assert (reconnect_delay s1 = if conn s1 then 2 else reconnect_delay st) as Hd.
    { destruct (zk_connect env _) as [e|].
      - destruct Hc as [-> _]. done.
      - destruct Hc as (-> & Hd & _). eauto. }
    cbn zeta. rewrite <- Hd.
    destruct (main_iteration_failure fuel env h st o1 s1 c msg Hs)
      as (answer & fin & st' & r & -> & Hf & Ha).
    by exists answer, fin, st', r.
  - intros h o st Hi. by destruct (main_init_spec env h o st Hi).
  - intros ip port comm_key h st o1 s1 c msg Hs.
    destruct (b_session_spec fuel ip port comm_key env h (b_set_conn false st))
      as (o & s & r & Hrun & Hz & Hc).
    rewrite Hs in Hrun. injection Hrun as <- <- <-.
    assert (b_reconnect_delay s1 = if b_conn s1 then 2 else b_reconnect_delay st) as Hd.
    { destruct (zk_connect env _) as [e|].
      - destruct Hc as [-> _]. done.
      - destruct Hc as (-> & Hd). eauto. }
    cbn zeta. rewrite <- Hd.
    destruct (monitor_iteration_failure fuel ip port comm_key env h st o1 s1 c msg Hs)
      as (answer & fin & st' & r & -> & Hf & Ha).
    by exists answer, fin, st', r.
  - done.
  - intros Hc Hs turns. split.
    + intros h st Hd. by apply main_loop_unreachable.
    + intros ip port comm_key h st Hd. by apply monitor_loop_unreachable.
Qed.

(** C10: [monitor_scans] never unlocks the relay, and what it does, the
    lines of JSON it writes included, does not depend on [unlock_seconds]. *)
Theorem C10_monitor_scans_ignores_unlock_seconds fuel turns ip port comm_key u1 u2 env h :
  unlocks (monitor_scans fuel turns ip port comm_key u1 env h).1 = []
  ∧ monitor_scans fuel turns ip port comm_key u1 env h
    = monitor_scans fuel turns ip port comm_key u2 env h
  ∧ json_lines (monitor_scans fuel turns ip port comm_key u1 env h).1
    = json_lines (monitor_scans fuel turns ip port comm_key u2 env h).1.
Proof.
  split; [|done].
  unfold monitor_scans. unfold mbind, M_bind, bind, print_json, perform.
  match goal with |- context [monitor_loop fuel turns ip port comm_key env ?h' ?s'] =>
    pose proof (monitor_loop_spec fuel turns ip port comm_key env h' s') as Hu;
    destruct (monitor_loop fuel turns ip port comm_key env h' s') as [[o s] r] end.
  cbn -[unlocks] in Hu |- *. done.
Qed.

(** ** Sample runs *)

Lemma sample_env_set_user_answers connect capture clock db_exists h args :
  zk_set_user (sample_env connect capture clock db_exists) h args ≠ Some KeyboardInterrupt.
Proof. cbn. destruct (String.eqb (su_user_id args) "1002"); discriminate. Defined.

(** Asha is active, started on 2024-01-01 and has paid: her identifier is in
    the Allowed set. *)
Lemma C1_witness :
  biometric_id_of row_asha ∈ allowed_users (classify_rows (fromisoformat quiet_env)
                                              1710000000000002
                                              (List.filter sql_where sample_table)).
Proof.
  destruct (C1_allowed_iff_decision quiet_env [] () sample_table row_asha)
    as (o & c & Hrun & Hyes & Hno & Hiff).
  - reflexivity.
  - reflexivity.
  - apply list_elem_of_here.
  - split; [reflexivity|]. vm_compute. discriminate.
  - vm_compute in Hrun. injection Hrun as _ <-.
    apply Hiff.
    + intros r' Hr' _ Hk. unfold sample_table in Hr'.
      repeat (apply elem_of_cons in Hr' as [-> | Hr'];
              [try reflexivity; vm_compute in Hk; discriminate|]).
      by apply elem_of_nil in Hr'.
    + split_and!; [reflexivity| |by left|].
      * right. exists 1704067200000000. split; [reflexivity|]. vm_compute. discriminate.
      * intros [H|[H|H%elem_of_nil]%elem_of_cons]%elem_of_cons; [discriminate|discriminate|done].
Defined.

(** Ravi is active but overdue: the report says "payment_overdue". *)
Lemma C2_witness :
  ∃ o r stamp,
    process_scan "1002" None ["1001"] ["1002"] {[ "1002" := member_info_of row_ravi ]}
                 quiet_env [] () = (o, (), r)
    ∧ unlocks o = []
    ∧ reports o = [{| pl_biometricId := "1002";
                      pl_memberId := SInt 2;
                      pl_memberName := SText "Ravi";
                      pl_allowed := false;
                      pl_reason := "payment_overdue";
                      pl_timestamp := stamp |}]
    ∧ (r = Ret () ∨ r = Raise KeyboardInterrupt).
Proof.
  apply (C2_denied_reason_priority quiet_env [] () "1002" None ["1001"] ["1002"]
           {[ "1002" := member_info_of row_ravi ]} (member_info_of row_ravi)).
  - intros [H|H%elem_of_nil]%elem_of_cons; [discriminate|done].
  - apply list_elem_of_here.
  - reflexivity.
Defined.

(** A scan of Asha unlocks the relay for three seconds, once. *)
Lemma C3_witness :
  ∃ o r answer,
    process_scan "1001" None ["1001"] ["1002"] ∅ quiet_env [] () = (o, (), r)
    ∧ unlocks o = [(3, answer)]
    ∧ match answer with
      | None =>
          ∃ p, reports o = [p] ∧ pl_biometricId p = "1001"
               ∧ pl_allowed p = true ∧ pl_reason p = "allowed"
      | Some (Exception _ _) =>
          ∃ p, reports o = [p] ∧ pl_biometricId p = "1001"
               ∧ pl_allowed p = false ∧ pl_reason p = "relay_error"
      | Some KeyboardInterrupt => reports o = [] ∧ r = Raise KeyboardInterrupt
      end
    ∧ (∀ c msg, r ≠ Raise (Exception c msg)).
Proof.
  apply (C3_allowed_unlock_once quiet_env [] () "1001" None ["1001"] ["1002"] ∅).
  apply list_elem_of_here.
Defined.

(** The same scan delivered a second time is dropped. *)
Lemma C4_witness :
  let st1 := (on_attendance (Some sample_scan) quiet_env [] (sample_state 0)).1.2 in
  on_attendance (Some sample_scan) quiet_env [EvLiveCapture (inr (Yield (Some sample_scan)))]
                st1 = ([], st1, Ret ()).
Proof.
  apply (proj1 (proj2 (proj2 (C4_duplicate_event_ignored quiet_env []
                                [EvLiveCapture (inr (Yield (Some sample_scan)))]
                                sample_scan))) (sample_state 0)).
  apply Nat.leb_le. vm_compute. reflexivity.
Defined.

(** Dev is soft-deleted: no trace of "1005" in the classification. *)
Lemma C5_witness :
  ∃ o c,
    get_members_from_db quiet_env [] () = (o, (), Ret c)
    ∧ (∀ l1 l2, sample_table = l1 ++ row_dev :: l2 →
         c = classify_rows (fromisoformat quiet_env)
               (datetime_now quiet_env
                  ([] ++ [EvDbExists true; EvDbQuery (inr sample_table)]))
               (List.filter sql_where (l1 ++ l2)))
    ∧ ((∀ r', r' ∈ sample_table → qualifies r' →
              biometric_id_of r' ≠ biometric_id_of row_dev) →
         (biometric_id_of row_dev ∉ allowed_users c)
         ∧ (biometric_id_of row_dev ∉ denied_users c)
         ∧ member_map c !! biometric_id_of row_dev = None).
Proof.
  apply (C5_excluded_record_unclassified quiet_env [] () sample_table row_dev).
  - reflexivity.
  - reflexivity.
  - unfold sample_table. do 4 apply list_elem_of_further. apply list_elem_of_here.
  - right. right. split; discriminate.
Defined.

(** More than 300 seconds after the last reload, the setup phase reloads and
    synchronises once. *)
Lemma C6_witness :
  ∃ o st' r,
    setup_phase quiet_env [] (sample_state 0) = (o, st', r)
    ∧ loads o = 1%nat ∧ syncs o = 1%nat ∧ allowed_users (members st') = ["1001"]
    ∧ last_db_refresh st' = 1710000000000006.
Proof.
  destruct (C6_refresh_follows_last_reload quiet_env [] (sample_state 0))
    as (o & st' & r & Hrun & Hr & Hcap & Hd & Hlate & Hearly & Hinit).
  exists o, st', r. split; [exact Hrun|].
  destruct Hlate as (Hl & Hs & Hm); [vm_compute; reflexivity|].
  split; [exact Hl|]. split; [apply Hs; vm_compute in Hrun; congruence|].
  edestruct Hm as [-> ->]; [vm_compute; reflexivity|]. split; reflexivity.
Defined.

(** Seven failures in a row wait 2, 4, 8, 16, 32, 60 and 60 seconds. *)
Lemma C7_witness :
  sleeps (main_loop 0 7 unreachable_env [] (sample_state 0)).1.1
  = [2000; 4000; 8000; 16000; 32000; 60000; 60000].
Proof.
  apply (proj1 (proj2 (proj2 (proj2 (proj2 (C7_backoff 0 unreachable_env))))
                  (λ h, ex_intro _ ZKNetworkError
                          (ex_intro _ "can't reach device" eq_refl))
                  (λ h ms, eq_refl) 7%nat) [] (sample_state 0)).
  reflexivity.
Defined.

(** Without a database file the classification is empty. *)
Lemma C8_witness :
  get_members_from_db no_store_env [] ()
  = ([EvDbExists false; EvPrint LogDbNotFound], (), Ret empty_classification).
Proof.
  apply (proj1 (C8_store_failure_is_soft no_store_env [] ())). reflexivity.
Defined.

(** "9999" is not enrolled and is skipped; the assignment of "1002" fails and
    does not stop the run. *)
Lemma C9_witness :
  ∃ o,
    configure_device_access_groups ["1001"; "9999"] ["1002"] quiet_env [] () = (o, (), Ret ())
    ∧ assignments o
      = [ {| su_uid := 1; su_name := "Asha"; su_privilege := 0; su_password := "";
             su_group_id := "1"; su_user_id := "1001"; su_card := 0 |};
          {| su_uid := 2; su_name := ""; su_privilege := 0; su_password := "4711";
             su_group_id := "0"; su_user_id := "1002"; su_card := 0 |} ]
    ∧ warnings o = failed_assignments o
    ∧ failed_assignments o = ["Can't set user"]
    ∧ assigned_ids o = ["1001"; "1001"; "1002"; "1002"].
Proof.
  destruct (proj1 (C9_sync_is_best_effort quiet_env [] () sample_users
                     (sample_env_set_user_answers _ _ _ _))
                  ["1001"; "9999"] ["1002"] eq_refl)
    as (o & Hrun & Ha & Hw & _).
  exists o. split; [exact Hrun|]. split; [rewrite Ha; vm_compute; reflexivity|].
  split; [exact Hw|].
  vm_compute in Hrun. injection Hrun as <-. split; vm_compute; reflexivity.
Defined.

(** The scenario of the specification: "1001" is allowed, "1002" is denied
    for an overdue payment, "9999" is unknown. *)
Example scenario_allowed :
  let o := (process_scan "1001" (Some 1710000000000000) ["1001"] ["1002"]
              (member_map (members (sample_state 0))) quiet_env [] ()).1.1 in
  unlocks o = [(3, None)]
  ∧ (λ p, (pl_allowed p, pl_reason p)) <$> reports o = [(true, "allowed")].
Proof. vm_compute. done. Qed.

Example scenario_denied :
  let o := (process_scan "1002" (Some 1710000000000000) ["1001"] ["1002"]
              (member_map (members (sample_state 0))) quiet_env [] ()).1.1 in
  unlocks o = []
  ∧ (λ p, (pl_allowed p, pl_reason p)) <$> reports o = [(false, "payment_overdue")].
Proof. vm_compute. done. Qed.

Example scenario_unknown :
  let o := (process_scan "9999" (Some 1710000000000000) ["1001"] ["1002"]
              (member_map (members (sample_state 0))) quiet_env [] ()).1.1 in
  unlocks o = []
  ∧ (λ p, (pl_memberId p, pl_allowed p, pl_reason p)) <$> reports o
    = [(SNull, false, "unknown_user")].
Proof. vm_compute. done. Qed.

(** The classification of the sample table on 2024-03-09. *)
Example sample_classification :
  ∃ o c,
    get_members_from_db quiet_env [] () = (o, (), Ret c)
    ∧ allowed_users c = ["1001"]
    ∧ denied_users c = ["1002"; "1003"]
    ∧ dom (member_map c) = {[ "1001"; "1002"; "1003" ]}.
Proof. eexists _, _. split; [vm_compute; reflexivity|]. vm_compute. done. Qed.

(** A scan that the terminal replays opens the door once and is reported
    once by the service, and is written once by the bridge. *)
Example replayed_scan_handled_once :
  unlocks (main 5 1 replay_env []).1 = [(3, None)]
  ∧ length (reports (main 5 1 replay_env []).1) = 1%nat
  ∧ json_lines (monitor_scans 5 1 "192.168.1.81" 4370 0 3 replay_env []).1
    = [JStatus "Starting biometric monitoring service";
       JStatus "Connecting to 192.168.1.81:4370";
       JConnected "192.168.1.81" 4370;
       JScan "1001" "1710000000000000";
       JError "can't reach device";
       JStatus "Reconnecting in 2 seconds..."].
Proof. vm_compute. done. Qed.

(** C6 as the specification words it fails: the store loads at the start
    (clock 1 s), the reload of the first setup phase (clock 301 s) finds no
    database file, and the second setup phase, 399 s after the last load that
    succeeded, does not reload. *)
Lemma C6_counterexample :
  ∃ o0 st0 o1 st1,
    main_init stale_env [] () = (o0, (), Ret st0)
    ∧ main_iteration 1 stale_env o0 st0 = (o1, st1, Ret Continue)
    ∧ let h := o0 ++ o1 ++ [EvPrint LogConnecting;
                            EvConnect "192.168.1.81" 4370 0 None;
                            EvPrint LogConnected] in
      last_successful_load h = Some 1000000
      ∧ db_refresh_interval < datetime_now stale_env h - 1000000
      ∧ loads (setup_phase stale_env h (set_conn true st1)).1.1 = 0%nat
      ∧ syncs (setup_phase stale_env h (set_conn true st1)).1.1 = 0%nat
      ∧ (setup_phase stale_env h (set_conn true st1)).2 = Ret ().
Proof.
  eexists _, _, _, _.
  split; [vm_compute; reflexivity|].
  split; [vm_compute; reflexivity|].
  vm_compute. done.
Qed.

(** * Further properties of the code *)

(** ** Footprints *)

Section Footprint.
Context {S : Type} (ks : list kind).

Lemma only_calls_ret {A} (a : A) : only_calls (S:=S) ks (mret a).
Proof. intros env h s. constructor. Qed.

Lemma only_calls_raise {A} e : only_calls (S:=S) (A:=A) ks (raise e).
Proof. intros env h s. constructor. Qed.

Lemma only_calls_out_of_fuel {A} : only_calls (S:=S) (A:=A) ks out_of_fuel.
Proof. intros env h s. constructor. Qed.

Lemma only_calls_ask : only_calls (S:=S) ks ask.
Proof. intros env h s. constructor. Qed.

Lemma only_calls_get : only_calls (S:=S) ks get.
Proof. intros env h s. constructor. Qed.

Lemma only_calls_modify (f : S → S) : only_calls (S:=S) ks (modify f).
Proof. intros env h s. constructor. Qed.

Lemma only_calls_bind {A B} (m : M S A) (f : A → M S B) :
  only_calls ks m → (∀ a, only_calls ks (f a)) → only_calls ks (m ≫= f).
Proof.
  intros Hm Hf env h s. unfold mbind, M_bind, bind.
  specialize (Hm env h s). destruct (m env h s) as [[o1 s1] [a|e|]]; cbn in *; try done.
  specialize (Hf a env (h ++ o1) s1). destruct (f a env (h ++ o1) s1) as [[o2 s2] r2].
  cbn in *. by apply Forall_app.
Qed.

Lemma only_calls_try_catch {A} (m : M S A) (handler : exn → M S A) :
  only_calls ks m → (∀ e, only_calls ks (handler e)) → only_calls ks (try_catch m handler).
Proof.
  intros Hm Hf env h s. unfold try_catch.
  specialize (Hm env h s). destruct (m env h s) as [[o1 s1] [a|e|]]; cbn in *; try done.
  specialize (Hf e env (h ++ o1) s1). destruct (handler e env (h ++ o1) s1) as [[o2 s2] r2].
  cbn in *. by apply Forall_app.
Qed.

Lemma only_calls_try_except {A} (m : M S A) (handler : exn_class → string → M S A) :
  only_calls ks m → (∀ c msg, only_calls ks (handler c msg)) →
  only_calls ks (try_except m handler).
Proof.
  intros Hm Hf. apply only_calls_try_catch; [done|].
  intros [|c msg]; [apply only_calls_raise|apply Hf].
Qed.

Lemma only_calls_try_pass (m : M S ()) : only_calls ks m → only_calls ks (try_pass m).
Proof. intros Hm. apply only_calls_try_catch; [done|]. intros e. apply only_calls_ret. Qed.

Lemma only_calls_try_finally {A} (m : M S A) (fin : M S ()) :
  only_calls ks m → only_calls ks fin → only_calls ks (try_finally m fin).
Proof.
  intros Hm Hf env h s. unfold try_finally.
  specialize (Hm env h s). destruct (m env h s) as [[o1 s1] r1]. cbn in *.
  specialize (Hf env (h ++ o1) s1). destruct (fin env (h ++ o1) s1) as [[o2 s2] r2].
  destruct r1; cbn in *; try done; by apply Forall_app.
Qed.

Lemma only_calls_for_each {A} (l : list A) (body : A → M S ()) :
  (∀ x, only_calls ks (body x)) → only_calls ks (for_each l body).
Proof.
  intros Hb. induction l as [|x l IH]; cbn [for_each]; [apply only_calls_ret|].
  apply (only_calls_bind (body x)); [apply Hb|done].
Qed.

Lemma only_calls_perform {A} (f : Env → History → event * res A) :
  (∀ env h, kind_of (f env h).1 ∈ ks) → only_calls (S:=S) ks (perform f).
Proof.
  intros Hf env h s. unfold perform. specialize (Hf env h).
  destruct (f env h) as [e r]. cbn in *. by constructor.
Qed.
End Footprint.

Create HintDb footprint discriminated.

(** [footprint] goes through a piece of code down to its calls; a function
    whose footprint is in the hint database is not opened again. *)
Ltac footprint_call :=
  apply only_calls_perform; intros ? ?; cbn;
  repeat first [apply list_elem_of_here | apply list_elem_of_further].

Ltac footprint :=
  unfold print, print_json, now, sleep, path_exists, query_members, zk_connect_to,
    conn_disable_device, conn_enable_device, conn_get_users, conn_set_user, conn_unlock,
    conn_disconnect, conn_live_capture, post, assign_group;
  repeat first
    [ solve [auto 2 with footprint nocore]
    | apply only_calls_ret | apply only_calls_raise | apply only_calls_out_of_fuel
    | apply only_calls_ask | apply only_calls_get | apply only_calls_modify
    | apply only_calls_bind | apply only_calls_try_except | apply only_calls_try_pass
    | apply only_calls_try_catch | apply only_calls_try_finally
    | apply only_calls_for_each
    | footprint_call
    | match goal with
      | |- ∀ _, _ => intros ?
      | |- only_calls _ (let _ := _ in _) => cbv zeta
      | |- only_calls _ (assign_group _ _ _ _) => unfold assign_group
      | |- only_calls _ (if ?b then _ else _) => destruct b
      | |- only_calls _ (match ?x with _ => _ end) => destruct x
      | |- only_calls _ (from_option _ _ ?x) => destruct x; cbn [from_option]
      end ].

Lemma only_calls_weaken {S A} ks ks' (m : M S A) :
  only_calls ks m → (∀ k, k ∈ ks → k ∈ ks') → only_calls ks' m.
Proof.
  intros Hm Hsub env h s. eapply Forall_impl; [apply Hm|]. intros e. apply Hsub.
Qed.

(** [within lem] uses the footprint [lem] of a function that is called. *)
Ltac kinds_included :=
  let k := fresh "k" in let Hk := fresh "Hk" in
  intros k Hk;
  repeat (apply elem_of_cons in Hk as [-> | Hk];
          [repeat first [apply list_elem_of_here | apply list_elem_of_further]|]);
  by apply elem_of_nil in Hk.

Ltac within lem := eapply only_calls_weaken; [apply lem|kinds_included].

Lemma get_members_from_db_footprint {S} :
  only_calls (S:=S) [KDbExists; KDbQuery; KNow; KPrint] get_members_from_db.
Proof. unfold get_members_from_db. footprint. Qed.
#[global] Hint Extern 1 (only_calls _ get_members_from_db) =>
  within @get_members_from_db_footprint : footprint.

Lemma send_attendance_event_footprint {S} uid mid name ok reason t :
  only_calls (S:=S) [KPost; KPrint] (send_attendance_event uid mid name ok reason t).
Proof. unfold send_attendance_event. footprint. Qed.
#[global] Hint Extern 1 (only_calls _ (send_attendance_event _ _ _ _ _ _)) =>
  within @send_attendance_event_footprint : footprint.

Lemma configure_device_access_groups_footprint {S} allowed_l denied_l :
  only_calls (S:=S) [KPrint; KGetUsers; KSetUser]
    (configure_device_access_groups allowed_l denied_l).
Proof. unfold configure_device_access_groups, assign_group. footprint. Qed.
#[global] Hint Extern 1 (only_calls _ (configure_device_access_groups _ _)) =>
  within @configure_device_access_groups_footprint : footprint.

Lemma process_scan_footprint {S} uid ts allowed_l denied_l mm :
  only_calls (S:=S) [KNow; KPrint; KUnlock; KPost]
    (process_scan uid ts allowed_l denied_l mm).
Proof.
  unfold process_scan. footprint.
Qed.
#[global] Hint Extern 1 (only_calls _ (process_scan _ _ _ _ _)) =>
  within @process_scan_footprint : footprint.

Lemma on_attendance_footprint a :
  only_calls [KNow; KPrint; KUnlock; KPost] (on_attendance a).
Proof. unfold on_attendance. footprint. Qed.
#[global] Hint Extern 1 (only_calls _ (on_attendance _)) =>
  within on_attendance_footprint : footprint.

Lemma live_capture_loop_footprint fuel :
  only_calls [KLiveCapture; KNow; KPrint; KUnlock; KPost] (live_capture_loop fuel).
Proof.
  induction fuel as [|fuel IH]; cbn [live_capture_loop]; footprint.
Qed.
#[global] Hint Extern 1 (only_calls _ (live_capture_loop _)) =>
  within live_capture_loop_footprint : footprint.

Lemma setup_phase_footprint :
  only_calls [KNow; KPrint; KDbExists; KDbQuery; KDisableDevice; KGetUsers; KSetUser;
              KEnableDevice] setup_phase.
Proof.
  unfold setup_phase. footprint.
Qed.
#[global] Hint Extern 1 (only_calls _ setup_phase) =>
  within setup_phase_footprint : footprint.

Lemma session_footprint fuel :
  only_calls [KConnect; KNow; KPrint; KDbExists; KDbQuery; KDisableDevice; KGetUsers;
              KSetUser; KEnableDevice; KLiveCapture; KUnlock; KPost] (session fuel).
Proof.
  unfold session, connect_device. footprint.
Qed.
#[global] Hint Extern 1 (only_calls _ (session _)) =>
  within session_footprint : footprint.

Lemma b_on_attendance_footprint a : only_calls [KNow; KOut] (b_on_attendance a).
Proof. unfold b_on_attendance. footprint. Qed.
#[global] Hint Extern 1 (only_calls _ (b_on_attendance _)) =>
  within b_on_attendance_footprint : footprint.

Lemma b_live_capture_loop_footprint fuel :
  only_calls [KLiveCapture; KNow; KOut] (b_live_capture_loop fuel).
Proof.
  induction fuel as [|fuel IH]; cbn [b_live_capture_loop]; footprint.
Qed.
#[global] Hint Extern 1 (only_calls _ (b_live_capture_loop _)) =>
  within b_live_capture_loop_footprint : footprint.

Lemma monitor_iteration_footprint fuel ip port comm_key :
  only_calls [KOut; KConnect; KDisableDevice; KSleep; KEnableDevice; KLiveCapture; KNow;
              KDisconnect] (monitor_iteration fuel ip port comm_key).
Proof.
  unfold monitor_iteration, b_session, b_on_error. footprint.
Qed.
#[global] Hint Extern 1 (only_calls _ (monitor_iteration _ _ _ _)) =>
  within monitor_iteration_footprint : footprint.

Lemma monitor_loop_footprint fuel turns ip port comm_key :
  only_calls [KOut; KConnect; KDisableDevice; KSleep; KEnableDevice; KLiveCapture; KNow;
              KDisconnect] (monitor_loop fuel turns ip port comm_key).
Proof.
  induction turns as [|turns IH]; cbn [monitor_loop]; footprint.
Qed.

Lemma b_session_footprint fuel ip port comm_key :
  only_calls [KOut; KConnect; KDisableDevice; KSleep; KEnableDevice; KLiveCapture; KNow]
    (b_session fuel ip port comm_key).
Proof. unfold b_session. footprint. Qed.

(** ** The record store, continued *)

(** Every row filed adds its identifier to one of the two lists. *)
Lemma classify_rows_listed f t rows acc :
  allowed_users (foldl (classify_row f t) acc rows)
    ++ denied_users (foldl (classify_row f t) acc rows)
  ≡ₚ (allowed_users acc ++ denied_users acc)
     ++ (biometric_id_of <$> List.filter filed rows).
Proof.
  revert acc. induction rows as [|r rows IH]; intros acc; cbn [foldl List.filter].
  { cbn. by rewrite app_nil_r. }
  rewrite IH. unfold filed at 2, classify_row.
  destruct (String.eqb (biometric_id_of r) "") eqn:Hid; cbn [negb]; [done|].
  destruct (allowed f t r); cbn [allowed_users denied_users fmap list_fmap].
  - rewrite <- !app_assoc. cbn.
    rewrite (Permutation_middle (denied_users acc)). done.
  - rewrite <- !app_assoc. done.
Qed.

Lemma member_map_foldl_other f t rows acc k :
  (∀ r, r ∈ rows → biometric_id_of r = k → k = "") →
  member_map (foldl (classify_row f t) acc rows) !! k = member_map acc !! k.
Proof.
  revert acc. induction rows as [|r rows IH]; intros acc Hk; cbn [foldl]; [done|].
  rewrite IH.
  - unfold classify_row.
    destruct (String.eqb (biometric_id_of r) "") eqn:Hid; [done|].
    assert (biometric_id_of r ≠ k).
    { intros Heq. apply String.eqb_neq in Hid. apply Hid. rewrite Heq.
      apply (Hk r); [left|done]. }
    destruct (allowed f t r); cbn; by rewrite lookup_insert_ne.
  - intros r' Hr'. apply Hk. by right.
Qed.

Lemma member_map_classify_row_here f t acc r :
  biometric_id_of r ≠ "" →
  member_map (classify_row f t acc r) !! biometric_id_of r = Some (member_info_of r).
Proof.
  intros Hid. unfold classify_row. apply String.eqb_neq in Hid. rewrite Hid.
  destruct (allowed f t r); cbn; by rewrite lookup_insert_eq.
Qed.

(** What [get_members_from_db] can return: the classification of the rows of
    the store, or the empty one. *)
Lemma get_members_from_db_returns {S} env h (s : S) :
  ∃ o r,
    get_members_from_db env h s = (o, s, r)
    ∧ ∀ c, r = Ret c →
        c = empty_classification
        ∨ ∃ t table, c = classify_rows (fromisoformat env) t (List.filter sql_where table).
Proof.
  unfold get_members_from_db. unfold_monad.
  destruct (os_path_exists env h); cbn.
  2:{ eexists _, _. split; [reflexivity|]. intros c [= <-]. by left. }
  destruct (sqlite_query env _) as [[|cl msg]|table]; cbn.
  - eexists _, _. split; [reflexivity|]. intros c [=].
  - eexists _, _. split; [reflexivity|]. intros c [= <-]. by left.
  - eexists _, _. split; [reflexivity|]. intros c [= <-]. right. eauto.
Qed.

Lemma classify_rows_keys f t rows k :
  is_Some (member_map (classify_rows f t rows) !! k) ↔
  k ∈ allowed_users (classify_rows f t rows) ∨ k ∈ denied_users (classify_rows f t rows).
Proof.
  unfold classify_rows.
  rewrite member_map_foldl, allowed_users_foldl, denied_users_foldl. cbn.
  rewrite lookup_empty, !elem_of_nil. split.
  - intros [[? [=]]|(r & Hr & Hid & Hk)].
    destruct (allowed f t r) eqn:Ha; [left|right]; right; eauto 6.
  - intros [[[]|(r & Hr & Hid & Hk & _)]|[[]|(r & Hr & Hid & Hk & _)]]; right; eauto.
Qed.

Lemma classify_rows_no_empty f t rows :
  ("" ∉ allowed_users (classify_rows f t rows))
  ∧ ("" ∉ denied_users (classify_rows f t rows)).
Proof.
  unfold classify_rows. rewrite allowed_users_foldl, denied_users_foldl. cbn.
  rewrite !elem_of_nil. split; intros [[]|(r & _ & _ & Hk & _)]; done.
Qed.

(** X1: whatever [get_members_from_db] returns, the identifiers that have a
    snapshot in [member_map] are those of the two lists, and none of them is
    the empty string. *)
Theorem X1_snapshots_match_lists {S} env h (s : S) :
  ∃ o r,
    get_members_from_db env h s = (o, s, r)
    ∧ returns_or_interrupted r
    ∧ ∀ c, r = Ret c →
        (∀ k, is_Some (member_map c !! k) ↔ k ∈ allowed_users c ∨ k ∈ denied_users c)
        ∧ ("" ∉ allowed_users c) ∧ ("" ∉ denied_users c).
Proof.
  destruct (get_members_from_db_returns env h s) as (o & r & Hrun & Hc).
  destruct (get_members_from_db_once env h s) as (o' & r' & Hrun' & _ & _ & _ & Hr).
  rewrite Hrun in Hrun'. injection Hrun' as <- <-.
  exists o, r. split; [done|]. split; [done|].
  intros c ->. destruct (Hc c eq_refl) as [->|(t & table & ->)].
  - cbn. split; [|split; apply not_elem_of_nil].
    intros k. rewrite lookup_empty, !elem_of_nil. split; [intros [? [=]]|intros [[]|[]]].
  - split; [apply classify_rows_keys|apply classify_rows_no_empty].
Qed.

(** X2: every row that passes the query and keeps an identifier is filed
    once, in one of the two lists: together they are the identifiers of these
    rows, up to their order. *)
Theorem X2_every_filed_row_listed_once {S} env h (s : S) table :
  os_path_exists env h = true →
  sqlite_query env (h ++ [EvDbExists true]) = inr table →
  ∃ o c,
    get_members_from_db env h s = (o, s, Ret c)
    ∧ allowed_users c ++ denied_users c
      ≡ₚ biometric_id_of <$> List.filter filed (List.filter sql_where table)
    ∧ (length (allowed_users c) + length (denied_users c))%nat
      = length (List.filter filed (List.filter sql_where table)).
Proof.
  intros Hex Hq. eexists _, _. split; [by apply get_members_from_db_loaded|].
  pose proof (classify_rows_listed (fromisoformat env)
    (datetime_now env (h ++ [EvDbExists true; EvDbQuery (inr table)]))
    (List.filter sql_where table) empty_classification) as Hp.
  cbn [empty_classification allowed_users denied_users app] in Hp.
  split; [exact Hp|].
  rewrite <- length_app. unfold classify_rows. rewrite Hp. apply length_fmap.
Qed.

(** X3: when the identifiers of the filed rows are unique, no identifier is
    listed twice or in both lists, and the total the summary line prints is
    the sum of the two other counts. *)
Theorem X3_unique_identifiers_listed_once {S} env h (s : S) table :
  os_path_exists env h = true →
  sqlite_query env (h ++ [EvDbExists true]) = inr table →
  NoDup (biometric_id_of <$> List.filter filed (List.filter sql_where table)) →
  ∃ o c,
    get_members_from_db env h s = (o, s, Ret c)
    ∧ NoDup (allowed_users c ++ denied_users c)
    ∧ (∀ k, k ∈ allowed_users c → k ∉ denied_users c)
    ∧ size (member_map c) = (length (allowed_users c) + length (denied_users c))%nat.
Proof.
  intros Hex Hq Hu. eexists _, _. split; [by apply get_members_from_db_loaded|].
  set (c := classify_rows _ _ _).
  assert (NoDup (allowed_users c ++ denied_users c)) as Hnd.
  { pose proof (classify_rows_listed (fromisoformat env)
      (datetime_now env (h ++ [EvDbExists true; EvDbQuery (inr table)]))
      (List.filter sql_where table) empty_classification) as Hp.
    cbn [empty_classification allowed_users denied_users app] in Hp.
    unfold c, classify_rows. by rewrite Hp. }
  split; [done|]. split; [by apply NoDup_app in Hnd as (_ & ? & _)|].
  rewrite <- length_app, <- (size_list_to_set (C:=gset string)) by done.
  rewrite <- size_dom. f_equal. apply set_eq. intros k.
  rewrite elem_of_dom, elem_of_list_to_set, elem_of_app. apply classify_rows_keys.
Qed.

(** X4: the snapshot kept for an identifier is that of the last row filed
    under it. *)
Theorem X4_snapshot_of_last_record {S} env h (s : S) l1 r l2 :
  os_path_exists env h = true →
  sqlite_query env (h ++ [EvDbExists true]) = inr (l1 ++ r :: l2) →
  qualifies r →
  (∀ r', r' ∈ l2 → qualifies r' → biometric_id_of r' ≠ biometric_id_of r) →
  ∃ o c,
    get_members_from_db env h s = (o, s, Ret c)
    ∧ member_map c !! biometric_id_of r = Some (member_info_of r).
Proof.
  intros Hex Hq [Hw Hid] Hlast. eexists _, _.
  split; [by apply get_members_from_db_loaded|].
  unfold classify_rows. rewrite List.filter_app. cbn [List.filter]. rewrite Hw.
  rewrite foldl_app. cbn [foldl]. rewrite member_map_foldl_other.
  - by apply member_map_classify_row_here.
  - intros r' Hr' Heq. apply elem_of_filter_sql_where in Hr' as [Hr' Hw'].
    destruct (decide (biometric_id_of r' = "")) as [He|He]; [congruence|].
    destruct (Hlast r' Hr'); [by split|done].
Qed.

(** ** Scans, continued *)

(** A call to [send_attendance_event] posts one payload and prints one line. *)
Lemma send_attendance_event_run {S} uid mid name ok reason t env h (s : S) :
  let p := {| pl_biometricId := uid; pl_memberId := mid; pl_memberName := name;
              pl_allowed := ok; pl_reason := reason; pl_timestamp := isoformat env t |} in
  ∃ tail r,
    send_attendance_event uid mid name ok reason t env h s
      = (EvPost p (requests_post env h p) :: tail, s, r)
    ∧ reports tail = [] ∧ unlocks tail = []
    ∧ (r = Raise KeyboardInterrupt ∧ requests_post env h p = inl KeyboardInterrupt
       ∨ r = Ret () ∧ requests_post env h p ≠ inl KeyboardInterrupt).
Proof.
  intros p. unfold send_attendance_event. unfold_monad. norm. fold p.
  rewrite app_nil_r.
  destruct (requests_post env h p) as [[|c msg]|code] eqn:Hp; norm.
  - eexists _, _. split; [reflexivity|]. split_and!; [done|done|by left].
  - destruct c; norm; eexists _, _; (split; [reflexivity|]); split_and!; by try right.
  - destruct (code =? 200); norm; eexists _, _; (split; [reflexivity|]);
      split_and!; by try right.
Qed.

(** X5: a scan of an identifier that is in neither list never touches the
    relay; its one report names no member and gives the reason
    [unknown_user], whatever [member_map] holds. *)
Theorem X5_unknown_scan_reported_not_unlocked {S} env h (s : S) uid ts allowed_l denied_l mm :
  uid ∉ allowed_l →
  uid ∉ denied_l →
  ∃ o r,
    process_scan uid ts allowed_l denied_l mm env h s = (o, s, r)
    ∧ unlocks o = []
    ∧ reports o = [{| pl_biometricId := uid;
                      pl_memberId := SNull;
                      pl_memberName := SNull;
                      pl_allowed := false;
                      pl_reason := "unknown_user";
                      pl_timestamp := isoformat env (default (datetime_now env h) ts) |}]
    ∧ (r = Ret () ∨ r = Raise KeyboardInterrupt).
Proof.
  intros Hna Hnd. unfold process_scan. unfold_monad. norm.
  rewrite !bool_decide_eq_false_2 by done. norm.
  match goal with |- context [send_attendance_event ?a ?b ?c ?d ?e ?f env ?h' s] =>
    destruct (send_attendance_event_run a b c d e f env h' s)
      as (tail & r & -> & Hr & Hu & [[-> _] | [-> _]]) end; norm;
    eexists _, _; (split; [reflexivity|]);
    unfold unlocks, reports in *; cbn; rewrite ?Hr, ?Hu; split_and!; auto.
Qed.

(** X6: a scan of a denied identifier that has no snapshot is reported under
    the name [User <uid>], without a member id, with the reason [denied]. *)
Theorem X6_denied_scan_without_snapshot {S} env h (s : S) uid ts allowed_l denied_l mm :
  uid ∉ allowed_l →
  uid ∈ denied_l →
  mm !! uid = None →
  ∃ o r,
    process_scan uid ts allowed_l denied_l mm env h s = (o, s, r)
    ∧ unlocks o = []
    ∧ reports o = [{| pl_biometricId := uid;
                      pl_memberId := SNull;
                      pl_memberName := SText ("User " +:+ uid);
                      pl_allowed := false;
                      pl_reason := "denied";
                      pl_timestamp := isoformat env (default (datetime_now env h) ts) |}]
    ∧ (r = Ret () ∨ r = Raise KeyboardInterrupt).
Proof.
  intros Hna Hd Hm. unfold process_scan. unfold_monad. norm. rewrite Hm. norm.
  rewrite bool_decide_eq_false_2, bool_decide_eq_true_2 by done. norm.
  match goal with |- context [send_attendance_event ?a ?b ?c ?d ?e ?f env ?h' s] =>
    destruct (send_attendance_event_run a b c d e f env h' s)
      as (tail & r & -> & Hr & Hu & [[-> _] | [-> _]]) end; norm;
    eexists _, _; (split; [reflexivity|]);
    unfold unlocks, reports in *; cbn; rewrite ?Hr, ?Hu; split_and!; auto.
Qed.

Ltac scan_report :=
  match goal with |- context [send_attendance_event ?a ?b ?c ?d ?e ?f ?env ?h' ?s] =>
    destruct (send_attendance_event_run a b c d e f env h' s)
      as (? & ? & -> & ? & ? & [[-> ?] | [-> _]]) end; norm;
  eexists _, _; (split; [reflexivity|]);
  unfold unlocks, reports in *; cbn; rewrite ?app_nil_r;
  repeat match goal with H : omap _ _ = [] |- _ => rewrite H end; cbn.

Lemma denial_reason_not_allowed member_info : denial_reason member_info ≠ "allowed".
Proof.
  unfold denial_reason. destruct member_info as [info|]; [|done].
  destruct (negb _); [done|]. destruct (bool_decide _); done.
Qed.

Ltac scan_close :=
  split_and!; eauto 6; try done; try lia;
  try (apply Forall_singleton; cbn; split_and!; try done; split;
       let H := fresh in
       intros H; first [congruence | by apply denial_reason_not_allowed in H]).

(** The run of [process_scan], read as the relay and the endpoint see it. *)
Lemma process_scan_run {S} env h (s : S) uid ts allowed_l denied_l mm :
  ∃ o r,
    process_scan uid ts allowed_l denied_l mm env h s = (o, s, r)
    ∧ (uid ∉ allowed_l → unlocks o = [])
    ∧ (uid ∈ allowed_l → ∃ answer, unlocks o = [(UNLOCK_SECS env, answer)])
    ∧ (r = Ret () → ∃ p, reports o = [p])
    ∧ (length (reports o) ≤ 1)%nat
    ∧ Forall (λ p, pl_biometricId p = uid
                   ∧ pl_timestamp p = isoformat env (default (datetime_now env h) ts)
                   ∧ (pl_allowed p = true ↔ unlocks o = [(UNLOCK_SECS env, None)])
                   ∧ (pl_allowed p = true ↔ pl_reason p = "allowed"))
             (reports o)
    ∧ (r = Ret ()
       ∨ r = Raise KeyboardInterrupt
         ∧ ((∃ h' n, zk_unlock env h' n = Some KeyboardInterrupt)
            ∨ ∃ h' p, requests_post env h' p = inl KeyboardInterrupt)).
Proof.
  unfold process_scan. unfold_monad. norm.
  destruct (bool_decide (uid ∈ allowed_l)) eqn:Ha;
    [apply bool_decide_eq_true_1 in Ha
    |apply bool_decide_eq_false_1 in Ha; destruct (bool_decide (uid ∈ denied_l))]; norm.
  - match goal with |- context [zk_unlock env ?h' ?n] =>
      destruct (zk_unlock env h' n) as [[|c msg]|] eqn:Hun end; norm.
    + eexists _, _. split; [reflexivity|]. cbn.
      split_and!; eauto; try done. right. eauto.
    + scan_report; scan_close.
    + scan_report; scan_close.
  - scan_report; scan_close.
  - scan_report; scan_close.
Qed.

(** ** Scans: what is reported *)

(** X7: a scan is reported at most once, and once when [process_scan]
    returns; the report carries the identifier scanned and the instant of the
    event, or the clock reading taken first when the event has none; it says
    [allowed] exactly when the relay was driven and answered. *)
Theorem X7_report_tells_relay_outcome {S} env h (s : S) uid ts allowed_l denied_l mm :
  ∃ o r,
    process_scan uid ts allowed_l denied_l mm env h s = (o, s, r)
    ∧ (length (reports o) ≤ 1)%nat
    ∧ (r = Ret () → length (reports o) = 1%nat)
    ∧ Forall (λ p, pl_biometricId p = uid
                   ∧ pl_timestamp p = isoformat env (default (datetime_now env h) ts)
                   ∧ (pl_allowed p = true ↔ unlocks o = [(UNLOCK_SECS env, None)])
                   ∧ (pl_allowed p = true ↔ pl_reason p = "allowed"))
             (reports o).
Proof.
  destruct (process_scan_run env h s uid ts allowed_l denied_l mm)
    as (o & r & Hrun & _ & _ & Hone & Hle & Hp & _).
  exists o, r. split_and!; try done.
  intros Hr. destruct (Hone Hr) as [p ->]. done.
Qed.

(** X8: when nobody interrupts it, [process_scan] returns whatever the relay
    and the endpoint answer, with the scan reported once. *)
Theorem X8_scan_survives_relay_and_endpoint {S} env h (s : S) uid ts allowed_l denied_l mm :
  (∀ h' n, zk_unlock env h' n ≠ Some KeyboardInterrupt) →
  (∀ h' p, requests_post env h' p ≠ inl KeyboardInterrupt) →
  ∃ o p,
    process_scan uid ts allowed_l denied_l mm env h s = (o, s, Ret ())
    ∧ reports o = [p]
    ∧ pl_biometricId p = uid.
Proof.
  intros Hu Hp.
  destruct (process_scan_run env h s uid ts allowed_l denied_l mm)
    as (o & r & Hrun & _ & _ & Hone & _ & Hall & Hr).
  destruct Hr as [-> | (_ & [(h' & n & Hk) | (h' & p & Hk)])];
    [|by destruct (Hu h' n)|by destruct (Hp h' p)].
  destruct (Hone eq_refl) as [p Hrep]. exists o, p. split_and!; [done|done|].
  rewrite Hrep in Hall. by apply Forall_singleton in Hall as (? & _).
Qed.

(** ** Invariants *)

Section Invariant.
Context {S : Type} (env : Env) (I : S → Prop).

Lemma keeps_ret {A} (a : A) : keeps env I (mret a).
Proof. by intros h s Hs. Qed.

Lemma keeps_raise {A} e : keeps (A:=A) env I (raise e).
Proof. by intros h s Hs. Qed.

Lemma keeps_out_of_fuel {A} : keeps (A:=A) env I out_of_fuel.
Proof. by intros h s Hs. Qed.

Lemma keeps_ask : keeps env I ask.
Proof. by intros h s Hs. Qed.

Lemma keeps_get : keeps env I get.
Proof. by intros h s Hs. Qed.

Lemma keeps_modify (f : S → S) : (∀ s, I s → I (f s)) → keeps env I (modify f).
Proof. intros Hf h s Hs. by apply Hf. Qed.

Lemma keeps_perform {A} (f : Env → History → event * res A) : keeps env I (perform f).
Proof. intros h s Hs. unfold perform. by destruct (f env h). Qed.

Lemma keeps_bind {A B} (m : M S A) (f : A → M S B) :
  keeps env I m → (∀ a, keeps env I (f a)) → keeps env I (m ≫= f).
Proof.
  intros Hm Hf h s Hs. unfold mbind, M_bind, bind.
  specialize (Hm h s Hs). destruct (m env h s) as [[o1 s1] [a|e|]]; cbn in *; try done.
  specialize (Hf a (h ++ o1) s1 Hm). by destruct (f a env (h ++ o1) s1) as [[o2 s2] r2].
Qed.

Lemma keeps_try_catch {A} (m : M S A) (handler : exn → M S A) :
  keeps env I m → (∀ e, keeps env I (handler e)) → keeps env I (try_catch m handler).
Proof.
  intros Hm Hf h s Hs. unfold try_catch.
  specialize (Hm h s Hs). destruct (m env h s) as [[o1 s1] [a|e|]]; cbn in *; try done.
  specialize (Hf e (h ++ o1) s1 Hm). by destruct (handler e env (h ++ o1) s1) as [[o2 s2] r2].
Qed.

Lemma keeps_try_except {A} (m : M S A) (handler : exn_class → string → M S A) :
  keeps env I m → (∀ c msg, keeps env I (handler c msg)) →
  keeps env I (try_except m handler).
Proof.
  intros Hm Hf. apply keeps_try_catch; [done|].
  intros [|c msg]; [apply keeps_raise|apply Hf].
Qed.

Lemma keeps_try_pass (m : M S ()) : keeps env I m → keeps env I (try_pass m).
Proof. intros Hm. apply keeps_try_catch; [done|]. intros e. apply keeps_ret. Qed.

Lemma keeps_try_finally {A} (m : M S A) (fin : M S ()) :
  keeps env I m → keeps env I fin → keeps env I (try_finally m fin).
Proof.
  intros Hm Hf h s Hs. unfold try_finally.
  specialize (Hm h s Hs). destruct (m env h s) as [[o1 s1] r1]. cbn in *.
  specialize (Hf (h ++ o1) s1 Hm). destruct (fin env (h ++ o1) s1) as [[o2 s2] r2].
  by destruct r1.
Qed.

Lemma keeps_for_each {A} (l : list A) (body : A → M S ()) :
  (∀ x, keeps env I (body x)) → keeps env I (for_each l body).
Proof.
  intros Hb. induction l as [|x l IH]; cbn [for_each]; [apply keeps_ret|].
  apply (keeps_bind (body x)); [apply Hb|done].
Qed.
End Invariant.

Create HintDb invariant discriminated.

(** [invariant] goes through a piece of code down to its assignments; a
    function whose invariants are in the hint database is not opened. *)
Ltac invariant :=
  unfold assign_group, print, print_json, now, sleep, path_exists,
    query_members, zk_connect_to, conn_disable_device, conn_enable_device, conn_get_users,
    conn_set_user, conn_unlock, conn_disconnect, conn_live_capture, post;
  repeat first
    [ solve [auto 2 with invariant nocore]
    | apply keeps_ret | apply keeps_raise | apply keeps_out_of_fuel
    | apply keeps_ask | apply keeps_get | apply keeps_perform
    | apply keeps_bind | apply keeps_try_except | apply keeps_try_pass
    | apply keeps_try_catch | apply keeps_try_finally
    | apply keeps_for_each
    | apply keeps_modify; intros ? ?; cbn in *; first [done | lia]
    | match goal with
      | |- ∀ _, _ => intros ?
      | |- keeps _ _ (let _ := _ in _) => cbv zeta
      | |- keeps _ _ (assign_group _ _ _ _) => unfold assign_group
      | |- keeps _ _ (if ?b then _ else _) => destruct b
      | |- keeps _ _ (match ?x with _ => _ end) => destruct x
      | |- keeps _ _ (from_option _ _ ?x) => destruct x; cbn [from_option]
      end ].

(** The functions that take no variable of a loop keep every invariant. *)
Lemma get_members_from_db_keeps {S} env (I : S → Prop) : keeps env I get_members_from_db.
Proof. unfold get_members_from_db. invariant. Qed.

Lemma configure_device_access_groups_keeps {S} env (I : S → Prop) allowed_l denied_l :
  keeps env I (configure_device_access_groups allowed_l denied_l).
Proof. unfold configure_device_access_groups. invariant. Qed.

Lemma process_scan_keeps {S} env (I : S → Prop) uid ts allowed_l denied_l mm :
  keeps env I (process_scan uid ts allowed_l denied_l mm).
Proof. unfold process_scan, send_attendance_event. invariant. Qed.

Lemma connect_device_keeps {S} env (I : S → Prop) : keeps env I connect_device.
Proof. unfold connect_device. invariant. Qed.

#[global] Hint Resolve get_members_from_db_keeps configure_device_access_groups_keeps
  process_scan_keeps connect_device_keeps : invariant.

(** *** The events remembered *)

Lemma remember_bound env key seen :
  (∀ s : gset string, s ≠ ∅ → set_first env s ∈ s) →
  (size seen ≤ 500)%nat → (size (remember env key seen) ≤ 500)%nat.
Proof.
  intros Hfirst Hseen. unfold remember.
  assert (size ({[key]} ∪ seen) ≤ 501)%nat as Hle.
  { rewrite size_union_alt, size_singleton.
    assert (size (seen ∖ {[key]}) ≤ size seen)%nat; [|lia].
    apply subseteq_size. intros x Hx. by apply elem_of_difference in Hx as [? _]. }
  destruct (500 <? size ({[key]} ∪ seen))%nat eqn:Hbig.
  - rewrite size_difference, size_singleton; [lia|].
    apply singleton_subseteq_l, Hfirst. intros Hempty.
    apply (not_elem_of_empty (C:=gset string) key). rewrite <- Hempty.
    apply elem_of_union_l. by apply elem_of_singleton.
  - by apply Nat.ltb_ge in Hbig.
Qed.

Section SeenEvents.
Variable env : Env.
Hypothesis set_first_elem : ∀ s : gset string, s ≠ ∅ → set_first env s ∈ s.

Lemma on_attendance_seen_bound a :
  keeps env (λ st, (size (seen_events st) ≤ 500)%nat) (on_attendance a).
Proof.
  intros h st Hst. unfold on_attendance. destruct a as [a|]; [|done].
  destruct (String.eqb _ ""); [done|].
  unfold_monad. norm. destruct (bool_decide _); norm; [done|].
  match goal with |- context [process_scan ?a ?b ?c ?d ?e env ?h' ?s'] =>
    destruct (process_scan_quiet a b c d e env h' s') as (o & r & -> & _ & [-> | ->]) end;
    norm; by apply remember_bound.
Qed.

Lemma live_capture_loop_seen_bound fuel :
  keeps env (λ st, (size (seen_events st) ≤ 500)%nat) (live_capture_loop fuel).
Proof.
  pose proof on_attendance_seen_bound.
  induction fuel as [|fuel IH]; cbn [live_capture_loop]; invariant.
Qed.

Lemma main_loop_seen_bound fuel turns :
  keeps env (λ st, (size (seen_events st) ≤ 500)%nat) (main_loop fuel turns).
Proof.
  pose proof (live_capture_loop_seen_bound fuel).
  induction turns as [|turns IH]; cbn [main_loop]; [invariant|].
  unfold main_iteration, session, setup_phase, on_error. invariant.
Qed.

Lemma b_on_attendance_seen_bound a :
  keeps env (λ st, (size (b_seen_events st) ≤ 500)%nat) (b_on_attendance a).
Proof.
  intros h st Hst. unfold b_on_attendance. destruct a as [a|]; [|done].
  destruct (String.eqb _ ""); [done|].
  unfold_monad. norm. destruct (bool_decide _); norm; [done|].
  destruct (att_timestamp a); norm; by apply remember_bound.
Qed.

Lemma monitor_loop_seen_bound fuel turns ip port comm_key :
  keeps env (λ st, (size (b_seen_events st) ≤ 500)%nat)
    (monitor_loop fuel turns ip port comm_key).
Proof.
  pose proof b_on_attendance_seen_bound.
  assert (∀ fuel, keeps env (λ st, (size (b_seen_events st) ≤ 500)%nat)
                    (b_live_capture_loop fuel)) as Hloop.
  { intros fu. induction fu as [|fu IH]; cbn [b_live_capture_loop]; invariant. }
  induction turns as [|turns IH]; cbn [monitor_loop]; [invariant|].
  unfold monitor_iteration, b_session, b_on_error. invariant.
Qed.
End SeenEvents.

(** *** The delay before a reconnection *)

Lemma on_error_delay_bounds env msg :
  keeps env (λ st, 2 ≤ reconnect_delay st ≤ 60) (on_error msg).
Proof.
  intros h st Hst. unfold on_error. unfold_monad. norm.
  destruct (time_sleep env _ _) as [e|]; norm; [done|lia].
Qed.

Lemma b_on_error_delay_bounds env msg :
  keeps env (λ st, 2 ≤ b_reconnect_delay st ≤ 60) (b_on_error msg).
Proof.
  intros h st Hst. unfold b_on_error, max_reconnect_delay. unfold_monad. norm.
  destruct (time_sleep env _ _) as [e|]; norm; [done|lia].
Qed.

Lemma main_loop_delay_bounds env fuel turns :
  keeps env (λ st, 2 ≤ reconnect_delay st ≤ 60) (main_loop fuel turns).
Proof.
  pose proof (on_error_delay_bounds env).
  assert (∀ fuel, keeps env (λ st, 2 ≤ reconnect_delay st ≤ 60) (live_capture_loop fuel))
    as Hloop.
  { intros fu. induction fu as [|fu IH]; cbn [live_capture_loop]; [invariant|].
    unfold on_attendance. invariant. }
  induction turns as [|turns IH]; cbn [main_loop]; [invariant|].
  unfold main_iteration, session, setup_phase. invariant.
Qed.

Lemma monitor_loop_delay_bounds env fuel turns ip port comm_key :
  keeps env (λ st, 2 ≤ b_reconnect_delay st ≤ 60) (monitor_loop fuel turns ip port comm_key).
Proof.
  pose proof (b_on_error_delay_bounds env).
  assert (∀ fuel, keeps env (λ st, 2 ≤ b_reconnect_delay st ≤ 60) (b_live_capture_loop fuel))
    as Hloop.
  { intros fu. induction fu as [|fu IH]; cbn [b_live_capture_loop]; [invariant|].
    unfold b_on_attendance. invariant. }
  induction turns as [|turns IH]; cbn [monitor_loop]; [invariant|].
  unfold monitor_iteration, b_session. invariant.
Qed.

(** ** What the monitoring does *)

Lemma admitted_app o1 o2 : admitted (o1 ++ o2) = admitted o1 ++ admitted o2.
Proof. apply omap_app. Qed.

Lemma send_attendance_event_admits {S} uid mid name ok reason t env h (s : S) :
  ∃ o r,
    send_attendance_event uid mid name ok reason t env h s = (o, s, r)
    ∧ unlocks o = [] ∧ admitted o = []
    ∧ (r = Ret () ∨ r = Raise KeyboardInterrupt).
Proof.
  unfold send_attendance_event. unfold_monad. norm.
  match goal with |- context [requests_post env ?h' ?p] =>
    destruct (requests_post env h' p) as [[|c msg]|code] end; norm.
  - conclude.
  - destruct c; norm; conclude.
  - destruct (code =? 200); norm; conclude.
Qed.

Ltac scan_admits :=
  match goal with |- context [send_attendance_event ?a ?b ?c ?d ?e ?f ?env ?h' ?s] =>
    destruct (send_attendance_event_admits a b c d e f env h' s)
      as (? & ? & -> & ? & ? & [-> | ->]) end; norm;
  eexists _, _; (split; [reflexivity|]);
  unfold unlocks, admitted in *; cbn; rewrite ?omap_app;
  repeat match goal with H : omap _ _ = [] |- _ => rewrite H end; cbn;
  split_and!; auto.

Lemma process_scan_admits {S} env h (s : S) uid ts allowed_l denied_l mm :
  ∃ o r,
    process_scan uid ts allowed_l denied_l mm env h s = (o, s, r)
    ∧ length (unlocks o) = length (admitted o)
    ∧ Forall (λ u, u ∈ allowed_l) (admitted o)
    ∧ Forall (λ u, u.1 = UNLOCK_SECS env) (unlocks o)
    ∧ (r = Ret () ∨ r = Raise KeyboardInterrupt).
Proof.
  unfold process_scan. unfold_monad. norm.
  destruct (bool_decide (uid ∈ allowed_l)) eqn:Ha;
    [apply bool_decide_eq_true_1 in Ha
    |apply bool_decide_eq_false_1 in Ha; destruct (bool_decide (uid ∈ denied_l))]; norm.
  - match goal with |- context [zk_unlock env ?h' ?n] =>
      destruct (zk_unlock env h' n) as [[|c msg]|] eqn:Hun end; norm.
    + eexists _, _. split; [reflexivity|]. cbn. split_and!; auto.
    + scan_admits.
    + scan_admits.
  - scan_admits.
  - scan_admits.
Qed.

Lemma on_attendance_admits a env h st :
  ∃ o seen r,
    on_attendance a env h st = (o, set_seen_events seen st, r)
    ∧ length (unlocks o) = length (admitted o)
    ∧ Forall (λ u, u ∈ allowed_users (members st)) (admitted o)
    ∧ Forall (λ u, u.1 = UNLOCK_SECS env) (unlocks o)
    ∧ (r = Ret () ∨ r = Raise KeyboardInterrupt).
Proof.
  assert (st = set_seen_events (seen_events st) st) as Hst by by destruct st.
  unfold on_attendance. destruct a as [a|].
  2:{ exists [], (seen_events st), (Ret ()). rewrite <- Hst. split_and!; auto. }
  destruct (String.eqb _ "").
  { exists [], (seen_events st), (Ret ()). rewrite <- Hst. split_and!; auto. }
  unfold_monad. norm. destruct (bool_decide _); norm.
  { exists [], (seen_events st), (Ret ()). rewrite <- Hst. split_and!; auto. }
  match goal with |- context [process_scan ?a ?b ?c ?d ?e env ?h' ?s'] =>
    destruct (process_scan_admits env h' s' a b c d e) as (o & r & -> & Hl & Ha & Hu & Hr) end.
  destruct Hr as [-> | ->]; norm; eexists _, _, _; (split; [reflexivity|]);
    rewrite ?app_nil_r; split_and!; auto.
Qed.

Lemma live_capture_loop_admits fuel env h st :
  ∃ o seen r,
    live_capture_loop fuel env h st = (o, set_seen_events seen st, r)
    ∧ length (unlocks o) = length (admitted o)
    ∧ Forall (λ u, u ∈ allowed_users (members st)) (admitted o)
    ∧ Forall (λ u, u.1 = UNLOCK_SECS env) (unlocks o).
Proof.
  assert (∀ st : Service, st = set_seen_events (seen_events st) st) as Hst
    by by intros [].
  revert h st. induction fuel as [|fuel IH]; intros h st; cbn [live_capture_loop].
  { exists [], (seen_events st), OutOfFuel. unfold out_of_fuel. rewrite <- Hst.
    split_and!; auto. }
  unfold_monad. norm.
  destruct (zk_live_capture env h) as [e|[a|]]; norm.
  - exists [EvLiveCapture (inl e)], (seen_events st), (Raise e). rewrite <- Hst.
    split_and!; auto.
  - destruct (on_attendance_admits a env (h ++ [EvLiveCapture (inr (Yield a))]) st)
      as (o1 & seen1 & r1 & -> & Hl1 & Ha1 & Hu1 & Hr1).
    destruct Hr1 as [-> | ->]; norm.
    + destruct (IH (h ++ EvLiveCapture (inr (Yield a)) :: o1) (set_seen_events seen1 st))
        as (o2 & seen2 & r2 & -> & Hl2 & Ha2 & Hu2).
      exists (EvLiveCapture (inr (Yield a)) :: o1 ++ o2), seen2, r2.
      split; [by destruct r2|].
      change (EvLiveCapture (inr (Yield a)) :: o1 ++ o2)
        with ([EvLiveCapture (inr (Yield a))] ++ o1 ++ o2).
      rewrite !unlocks_app, !admitted_app, !length_app. cbn.
      split_and!; [lia|by apply Forall_app|by apply Forall_app].
    + eexists _, _, _. split; [reflexivity|].
      change (EvLiveCapture (inr (Yield a)) :: o1) with ([EvLiveCapture (inr (Yield a))] ++ o1).
      rewrite !unlocks_app, !admitted_app. cbn. split_and!; auto.
  - exists [EvLiveCapture (inr Exhausted)], (seen_events st), (Ret ()). rewrite <- Hst.
    split_and!; auto.
Qed.

(** X9: while it monitors, the service drives the relay once for every scan
    it admits, always for the configured duration, and it admits only
    identifiers of the allowed list it holds; it assigns no variable but the
    set of events it has seen, and it neither reads the record store, nor
    writes to the terminal, nor sleeps. *)
Theorem X9_monitoring_unlocks_only_for_allowed fuel env h st :
  ∃ o seen r,
    live_capture_loop fuel env h st = (o, set_seen_events seen st, r)
    ∧ length (unlocks o) = length (admitted o)
    ∧ Forall (λ uid, uid ∈ allowed_users (members st)) (admitted o)
    ∧ Forall (λ u, u.1 = UNLOCK_SECS env) (unlocks o)
    ∧ Forall (λ e, kind_of e ∈ [KLiveCapture; KNow; KPrint; KUnlock; KPost]) o.
Proof.
  destruct (live_capture_loop_admits fuel env h st) as (o & seen & r & Hrun & Hl & Ha & Hu).
  exists o, seen, r. split_and!; try done.
  pose proof (live_capture_loop_footprint fuel env h st) as Hf. by rewrite Hrun in Hf.
Qed.

(** ** The supervisor, continued *)

Lemma disconnects_app o1 o2 : disconnects (o1 ++ o2) = (disconnects o1 + disconnects o2)%nat.
Proof. unfold disconnects. by rewrite omap_app, length_app. Qed.

(** A trace whose calls are of kinds other than [KDisconnect] never hangs up. *)
Lemma footprint_disconnects (ks : list kind) o :
  KDisconnect ∉ ks → Forall (λ e, kind_of e ∈ ks) o → disconnects o = 0%nat.
Proof.
  intros Hk Ho. induction Ho as [|e o He Ho IH]; [done|].
  unfold disconnects in *. destruct e; cbn in *; done.
Qed.

(** One turn of [while True], from the end of its [try] block. *)
Lemma main_iteration_run fuel env h st o1 s1 r1 :
  session fuel env h (set_conn false st) = (o1, s1, r1) →
  main_iteration fuel env h st =
    let hangup h' := if conn s1 then [EvDisconnect (zk_disconnect env h')] else [] in
    match r1 with
    | Ret c => (o1 ++ hangup (h ++ o1), s1, Ret c)
    | Raise KeyboardInterrupt =>
        (o1 ++ [EvPrint LogExiting] ++ hangup (h ++ o1 ++ [EvPrint LogExiting]), s1, Ret Break)
    | Raise (Exception _ msg) =>
        let d := reconnect_delay s1 in
        let answer := time_sleep env (h ++ o1 ++ [EvPrint (LogError msg); EvPrint (LogRetrying d)])
                                 (seconds d) in
        let o2 := [EvPrint (LogError msg); EvPrint (LogRetrying d);
                   EvSleep (seconds d) answer] in
        (o1 ++ o2 ++ hangup (h ++ o1 ++ o2),
         match answer with
         | None => set_reconnect_delay (Z.min (d * 2) 60) s1
         | Some _ => s1
         end,
         match answer with
         | None => Ret Continue
         | Some e => Raise e
         end)
    | OutOfFuel => (o1, s1, OutOfFuel)
    end.
Proof.
  intros Hs. unfold main_iteration, on_error. unfold_monad. norm.
  rewrite app_nil_r, Hs. destruct r1 as [c|[|c msg]|]; norm; [| |destruct (time_sleep env _ _)|];
    norm; try done.
  all: destruct (conn s1); norm; rewrite ?app_nil_r; try done.
  all: destruct (zk_disconnect env _); cbn; by rewrite <- ?app_assoc.
Qed.

Lemma monitor_iteration_run fuel ip port comm_key env h st o1 s1 r1 :
  b_session fuel ip port comm_key env h (b_set_conn false st) = (o1, s1, r1) →
  monitor_iteration fuel ip port comm_key env h st =
    let hangup h' := if b_conn s1 then [EvDisconnect (zk_disconnect env h')] else [] in
    match r1 with
    | Ret c => (o1 ++ hangup (h ++ o1), s1, Ret c)
    | Raise KeyboardInterrupt =>
        let o2 := [EvOut (JStatus "Service stopped by user")] in
        (o1 ++ o2 ++ hangup (h ++ o1 ++ o2), s1, Ret Break)
    | Raise (Exception _ msg) =>
        let d := b_reconnect_delay s1 in
        let lines := [EvOut (JError msg);
                      EvOut (JStatus ("Reconnecting in " +:+ pretty d +:+ " seconds..."))] in
        let answer := time_sleep env (h ++ o1 ++ lines) (seconds d) in
        let o2 := lines ++ [EvSleep (seconds d) answer] in
        (o1 ++ o2 ++ hangup (h ++ o1 ++ o2),
         match answer with
         | None => b_set_reconnect_delay (Z.min (d * 2) max_reconnect_delay) s1
         | Some _ => s1
         end,
         match answer with
         | None => Ret Continue
         | Some e => Raise e
         end)
    | OutOfFuel => (o1, s1, OutOfFuel)
    end.
Proof.
  intros Hs. unfold monitor_iteration, b_on_error. unfold_monad. norm.
  rewrite app_nil_r, Hs. destruct r1 as [c|[|c msg]|]; norm; [| |destruct (time_sleep env _ _)|];
    norm; try done.
  all: destruct (b_conn s1); norm; rewrite ?app_nil_r; try done.
  all: destruct (zk_disconnect env _); cbn; by rewrite <- ?app_assoc.
Qed.

(** X10: a turn of either loop hangs up once when it had connected, as its
    last call, and never when the connection had failed. *)
Theorem X10_connection_closed_once_per_turn fuel env h :
  (∀ st, ∃ o st' r,
     main_iteration fuel env h st = (o, st', r)
     ∧ (r ≠ OutOfFuel →
        match zk_connect env (h ++ [EvPrint LogConnecting]) with
        | None => disconnects o = 1%nat ∧ ∃ answer, last o = Some (EvDisconnect answer)
        | Some _ => disconnects o = 0%nat
        end))
  ∧ (∀ ip port comm_key st, ∃ o st' r,
       monitor_iteration fuel ip port comm_key env h st = (o, st', r)
       ∧ (r ≠ OutOfFuel →
          match zk_connect env
                  (h ++ [EvOut (JStatus ("Connecting to " +:+ ip +:+ ":" +:+ pretty port))]) with
          | None => disconnects o = 1%nat ∧ ∃ answer, last o = Some (EvDisconnect answer)
          | Some _ => disconnects o = 0%nat
          end)).
Proof.
  split.
  - intros st.
    destruct (session_spec fuel env h (set_conn false st)) as (o1 & s1 & r1 & Hrun & _ & Hc).
    pose proof (session_footprint fuel env h (set_conn false st)) as Hf.
    rewrite Hrun in Hf. cbn in Hf.
    apply footprint_disconnects in Hf; [|by apply (bool_decide_unpack _)].
    rewrite (main_iteration_run _ _ _ _ _ _ _ Hrun). cbv zeta.
    destruct (zk_connect env _) as [e|].
    + destruct Hc as [-> ->]. cbn [conn set_conn].
      destruct e as [|c msg]; eexists _, _, _; (split; [reflexivity|]); intros _;
        by rewrite !disconnects_app, Hf.
    + destruct Hc as (-> & _).
      destruct r1 as [c|[|c msg]|]; eexists _, _, _; (split; [reflexivity|]); intros Hr;
        try done; rewrite ?app_assoc, last_snoc, <- ?app_assoc, !disconnects_app, Hf;
        (split; [done|by eexists]).
  - intros ip port comm_key st.
    destruct (b_session_spec fuel ip port comm_key env h (b_set_conn false st))
      as (o1 & s1 & r1 & Hrun & _ & Hc).
    pose proof (b_session_footprint fuel ip port comm_key env h (b_set_conn false st)) as Hf.
    rewrite Hrun in Hf. cbn in Hf.
    apply footprint_disconnects in Hf; [|by apply (bool_decide_unpack _)].
    rewrite (monitor_iteration_run _ _ _ _ _ _ _ _ _ _ Hrun). cbv zeta.
    destruct (zk_connect env _) as [e|].
    + destruct Hc as [-> ->]. cbn [b_conn b_set_conn].
      destruct e as [|c msg]; eexists _, _, _; (split; [reflexivity|]); intros _;
        by rewrite !disconnects_app, Hf.
    + destruct Hc as (-> & _).
      destruct r1 as [c|[|c msg]|]; eexists _, _, _; (split; [reflexivity|]); intros Hr;
        try done; rewrite ?app_assoc, last_snoc, <- ?app_assoc, !disconnects_app, Hf;
        (split; [done|by eexists]).
Qed.

(** ** Interrupts *)

Section Interrupts.
Context {S : Type} (ks : list kind).

Lemma interrupted_in_ret {A} (a : A) : interrupted_in (S:=S) ks (mret a).
Proof. by intros env h s. Qed.

Lemma interrupted_in_raise {A} c msg :
  interrupted_in (S:=S) (A:=A) ks (raise (Exception c msg)).
Proof. by intros env h s. Qed.

Lemma interrupted_in_out_of_fuel {A} : interrupted_in (S:=S) (A:=A) ks out_of_fuel.
Proof. by intros env h s. Qed.

Lemma interrupted_in_ask : interrupted_in (S:=S) ks ask.
Proof. by intros env h s. Qed.

Lemma interrupted_in_get : interrupted_in (S:=S) ks get.
Proof. by intros env h s. Qed.

Lemma interrupted_in_modify (f : S → S) : interrupted_in ks (modify f).
Proof. by intros env h s. Qed.

Lemma interrupted_in_perform {A} (f : Env → History → event * res A) :
  (∀ env h, (f env h).2 = Raise KeyboardInterrupt → kind_of (f env h).1 ∈ ks) →
  interrupted_in (S:=S) ks (perform f).
Proof.
  intros Hf env h s. unfold perform. specialize (Hf env h).
  destruct (f env h) as [e r]. cbn in *. intros Hr. exists e. auto.
Qed.

Lemma interrupted_in_bind {A B} (m : M S A) (f : A → M S B) :
  interrupted_in ks m → (∀ a, interrupted_in ks (f a)) → interrupted_in ks (m ≫= f).
Proof.
  intros Hm Hf env h s. unfold mbind, M_bind, bind.
  specialize (Hm env h s).
  destruct (m env h s) as [[o1 s1] [a|e|]]; cbn in *;
    [|intros [= ->]; by apply Hm|done].
  specialize (Hf a env (h ++ o1) s1). destruct (f a env (h ++ o1) s1) as [[o2 s2] r2].
  cbn in *. intros Hr. destruct (Hf Hr) as (e & He & Hk). exists e.
  by rewrite last_app, He.
Qed.

(** An interrupt goes through [except Exception]. *)
Lemma interrupted_in_try_except {A} (m : M S A) (handler : exn_class → string → M S A) :
  interrupted_in ks m → (∀ c msg, interrupted_in ks (handler c msg)) →
  interrupted_in ks (try_except m handler).
Proof.
  intros Hm Hf env h s. unfold try_except, try_catch.
  specialize (Hm env h s). destruct (m env h s) as [[o1 s1] [a|[|c msg]|]]; cbn in *;
    try done.
  - intros _. destruct (Hm eq_refl) as (e & He & Hk). exists e. by rewrite app_nil_r.
  - specialize (Hf c msg env (h ++ o1) s1).
    destruct (handler c msg env (h ++ o1) s1) as [[o2 s2] r2].
    cbn in *. intros Hr. destruct (Hf Hr) as (e & He & Hk). exists e.
    by rewrite last_app, He.
Qed.

(** A bare [except: pass] stops it. *)
Lemma interrupted_in_try_pass (m : M S ()) : interrupted_in ks (try_pass m).
Proof.
  intros env h s. unfold try_pass, try_catch.
  by destruct (m env h s) as [[o1 s1] [a|e|]].
Qed.

Lemma interrupted_in_for_each {A} (l : list A) (body : A → M S ()) :
  (∀ x, interrupted_in ks (body x)) → interrupted_in ks (for_each l body).
Proof.
  intros Hb. induction l as [|x l IH]; cbn [for_each]; [apply interrupted_in_ret|].
  apply (interrupted_in_bind (body x)); [apply Hb|done].
Qed.
End Interrupts.

Lemma interrupted_in_weaken {S A} ks ks' (m : M S A) :
  interrupted_in ks m → (∀ k, k ∈ ks → k ∈ ks') → interrupted_in ks' m.
Proof.
  intros Hm Hsub env h s Hr. destruct (Hm env h s Hr) as (e & He & Hk). eauto.
Qed.

Create HintDb interrupts discriminated.

(** [interrupts] goes through a piece of code down to its calls: a call that
    cannot raise is passed, a call that can must be of one of the kinds. *)
Ltac interrupts_call :=
  apply interrupted_in_perform; intros ? ?; cbn;
  first [ by intros ?
        | intros _; cbn;
          repeat first [apply list_elem_of_here | apply list_elem_of_further] ].

Ltac interrupts :=
  unfold print, print_json, now, sleep, path_exists, query_members, zk_connect_to,
    conn_disable_device, conn_enable_device, conn_get_users, conn_set_user, conn_unlock,
    conn_disconnect, conn_live_capture, post, assign_group;
  repeat first
    [ solve [auto 2 with interrupts nocore]
    | apply interrupted_in_ret | apply interrupted_in_raise | apply interrupted_in_out_of_fuel
    | apply interrupted_in_ask | apply interrupted_in_get | apply interrupted_in_modify
    | apply interrupted_in_try_pass
    | apply interrupted_in_bind | apply interrupted_in_try_except
    | apply interrupted_in_for_each
    | interrupts_call
    | match goal with
      | |- ∀ _, _ => intros ?
      | |- interrupted_in _ (let _ := _ in _) => cbv zeta
      | |- interrupted_in _ (assign_group _ _ _ _) => unfold assign_group
      | |- interrupted_in _ (if ?b then _ else _) => destruct b
      | |- interrupted_in _ (match ?x with _ => _ end) => destruct x
      | |- interrupted_in _ (from_option _ _ ?x) => destruct x; cbn [from_option]
      end ].

Ltac through lem := eapply interrupted_in_weaken; [apply lem|kinds_included].

Lemma get_members_from_db_interrupts {S} :
  interrupted_in (S:=S) [KDbQuery] get_members_from_db.
Proof. unfold get_members_from_db. interrupts. Qed.
#[global] Hint Extern 1 (interrupted_in _ get_members_from_db) =>
  through @get_members_from_db_interrupts : interrupts.

Lemma configure_device_access_groups_interrupts {S} allowed_l denied_l :
  interrupted_in (S:=S) [KGetUsers; KSetUser]
    (configure_device_access_groups allowed_l denied_l).
Proof. unfold configure_device_access_groups. interrupts. Qed.
#[global] Hint Extern 1 (interrupted_in _ (configure_device_access_groups _ _)) =>
  through @configure_device_access_groups_interrupts : interrupts.

Lemma process_scan_interrupts {S} uid ts allowed_l denied_l mm :
  interrupted_in (S:=S) [KUnlock; KPost] (process_scan uid ts allowed_l denied_l mm).
Proof. unfold process_scan, send_attendance_event. interrupts. Qed.
#[global] Hint Extern 1 (interrupted_in _ (process_scan _ _ _ _ _)) =>
  through @process_scan_interrupts : interrupts.

Lemma live_capture_loop_interrupts fuel :
  interrupted_in [KLiveCapture; KUnlock; KPost] (live_capture_loop fuel).
Proof.
  induction fuel as [|fuel IH]; cbn [live_capture_loop]; [interrupts|].
  unfold on_attendance. interrupts.
Qed.
#[global] Hint Extern 1 (interrupted_in _ (live_capture_loop _)) =>
  through live_capture_loop_interrupts : interrupts.

Lemma setup_phase_interrupts : interrupted_in [KDbQuery; KGetUsers; KSetUser] setup_phase.
Proof. unfold setup_phase. interrupts. Qed.
#[global] Hint Extern 1 (interrupted_in _ setup_phase) =>
  through setup_phase_interrupts : interrupts.


Lemma b_live_capture_loop_interrupts fuel :
  interrupted_in [KLiveCapture] (b_live_capture_loop fuel).
Proof.
  induction fuel as [|fuel IH]; cbn [b_live_capture_loop]; [interrupts|].
  unfold b_on_attendance. interrupts.
Qed.
#[global] Hint Extern 1 (interrupted_in _ (b_live_capture_loop _)) =>
  through b_live_capture_loop_interrupts : interrupts.



Lemma main_iteration_escape fuel env h st e :
  (main_iteration fuel env h st).2 = Raise e → ∃ h' ms, time_sleep env h' ms = Some e.
Proof.
  destruct (session fuel env h (set_conn false st)) as [[o1 s1] r1] eqn:Hrun.
  rewrite (main_iteration_run _ _ _ _ _ _ _ Hrun). cbv zeta.
  destruct r1 as [c|[|c msg]|]; cbn; try done.
  destruct (time_sleep env _ _) eqn:Hs; [|done]. intros [= ->]. eauto.
Qed.

Lemma monitor_iteration_escape fuel ip port comm_key env h st e :
  (monitor_iteration fuel ip port comm_key env h st).2 = Raise e →
  ∃ h' ms, time_sleep env h' ms = Some e.
Proof.
  destruct (b_session fuel ip port comm_key env h (b_set_conn false st))
    as [[o1 s1] r1] eqn:Hrun.
  rewrite (monitor_iteration_run _ _ _ _ _ _ _ _ _ _ Hrun). cbv zeta.
  destruct r1 as [c|[|c msg]|]; cbn; try done.
  destruct (time_sleep env _ _) eqn:Hs; [|done]. intros [= ->]. eauto.
Qed.

(** X12: nothing but the sleep before a reconnection can end either loop
    with an exception: one that escapes is one [time.sleep] raised. *)
Theorem X12_only_the_sleep_can_end_the_loop fuel turns env h e :
  (∀ st, (main_loop fuel turns env h st).2 = Raise e →
         ∃ h' ms, time_sleep env h' ms = Some e)
  ∧ (∀ ip port comm_key st,
       (monitor_loop fuel turns ip port comm_key env h st).2 = Raise e →
       ∃ h' ms, time_sleep env h' ms = Some e).
Proof.
  split.
  - revert h. induction turns as [|turns IH]; intros h st; [done|].
    cbn [main_loop]. unfold mbind, M_bind, bind.
    pose proof (main_iteration_escape fuel env h st e) as Hi.
    destruct (main_iteration fuel env h st) as [[o1 s1] [[|]|e1|]]; cbn in *; try done.
    + specialize (IH (h ++ o1) s1).
      by destruct (main_loop fuel turns env (h ++ o1) s1) as [[o2 s2] r2].
    + intros [= ->]. by apply Hi.
  - revert h. induction turns as [|turns IH]; intros h ip port comm_key st; [done|].
    cbn [monitor_loop]. unfold mbind, M_bind, bind.
    pose proof (monitor_iteration_escape fuel ip port comm_key env h st e) as Hi.
    destruct (monitor_iteration fuel ip port comm_key env h st) as [[o1 s1] [[|]|e1|]];
      cbn in *; try done.
    + specialize (IH (h ++ o1) ip port comm_key s1).
      by destruct (monitor_loop fuel turns ip port comm_key env (h ++ o1) s1)
        as [[o2 s2] r2].
    + intros [= ->]. by apply Hi.
Qed.

Lemma live_capture_loop_failure fuel env h st c msg :
  (live_capture_loop fuel env h st).2 = Raise (Exception c msg) →
  last (live_capture_loop fuel env h st).1.1 = Some (EvLiveCapture (inl (Exception c msg))).
Proof.
  revert h st. induction fuel as [|fuel IH]; intros h st; [done|].
  cbn [live_capture_loop]. unfold_monad. norm.
  destruct (zk_live_capture env h) as [e|[a|]]; norm; [by intros [= ->]| |done].
  destruct (on_attendance_spec a env (h ++ [EvLiveCapture (inr (Yield a))]) st)
    as (o1 & st1 & r1 & -> & _ & _ & _ & [-> | ->]); norm; [|done].
  specialize (IH (h ++ EvLiveCapture (inr (Yield a)) :: o1) st1).
  destruct (live_capture_loop fuel env _ st1) as [[o2 s2] r2]. cbn in *.
  intros Hr. specialize (IH Hr).
  change (EvLiveCapture (inr (Yield a)) :: o1 ++ o2)
    with ((EvLiveCapture (inr (Yield a)) :: o1) ++ o2).
  destruct o2 as [|e2 o2]; [done|]. by rewrite last_app_cons.
Qed.

(** X13: a session ends with an [Exception] only where the connection or the
    live capture raised it: neither the record store, nor the group
    assignment, nor the relay, nor the endpoint can end it. *)
Theorem X13_session_fails_only_on_connection fuel env h st :
  ∃ o s1 r,
    session fuel env h st = (o, s1, r)
    ∧ ∀ c msg, r = Raise (Exception c msg) →
        last o = Some (EvConnect (DEVICE_IP env) (PORT env) (COMM_KEY env)
                                 (Some (Exception c msg)))
        ∨ last o = Some (EvLiveCapture (inl (Exception c msg))).
Proof.
  unfold session, connect_device. unfold_monad. norm.
  destruct (zk_connect env (h ++ [EvPrint LogConnecting])) as [e|]; norm.
  { eexists _, _, _. split; [reflexivity|]. intros c msg [= ->]. by left. }
  match goal with |- context [setup_phase env ?h' ?s'] =>
    destruct (setup_phase_spec env h' s') as (o1 & s1 & r1 & -> & Hr1 & _) end.
  destruct Hr1 as [-> | ->]; norm.
  2:{ eexists _, _, _. split; [reflexivity|]. by intros c msg [=]. }
  match goal with |- context [live_capture_loop fuel env ?h' ?s'] =>
    pose proof (live_capture_loop_failure fuel env h' s') as Hl;
    destruct (live_capture_loop fuel env h' s') as [[o2 s2] r2] end.
  cbn in Hl. destruct r2 as [[]|e2|]; norm; eexists _, _, _; (split; [reflexivity|]);
    intros c msg [= ->]. right.
  specialize (Hl c msg eq_refl).
  change (EvPrint LogConnecting :: EvConnect (DEVICE_IP env) (PORT env) (COMM_KEY env) None
            :: EvPrint LogConnected :: o1 ++ o2)
    with ([EvPrint LogConnecting; EvConnect (DEVICE_IP env) (PORT env) (COMM_KEY env) None;
           EvPrint LogConnected] ++ o1 ++ o2).
  destruct o2 as [|e2 o2]; [done|]. by rewrite !app_assoc, last_app_cons.
Qed.

(** ** The setup of a session *)

Lemma splits_here ks (Q : list event → Prop) o : Q o → splits ks Q o.
Proof. intros Ho. by exists [], o. Qed.

Lemma splits_cons ks (Q : list event → Prop) e o :
  kind_of e ∈ ks → splits ks Q o → splits ks Q (e :: o).
Proof.
  intros He (pre & rest & -> & Hpre & Hrest). exists (e :: pre), rest.
  split_and!; [done|by constructor|done].
Qed.

Lemma splits_app ks (Q : list event → Prop) o1 o2 :
  Forall (λ e, kind_of e ∈ ks) o1 → splits ks Q o2 → splits ks Q (o1 ++ o2).
Proof.
  intros Ho1 (pre & rest & -> & Hpre & Hrest). exists (o1 ++ pre), rest.
  split_and!; [by rewrite app_assoc|by apply Forall_app|done].
Qed.

Lemma footprint_included (ks ks' : list kind) o :
  (∀ k, k ∈ ks → k ∈ ks') →
  Forall (λ e, kind_of e ∈ ks) o → Forall (λ e, kind_of e ∈ ks') o.
Proof. intros Hsub Ho. eapply Forall_impl; [exact Ho|]. intros e. apply Hsub. Qed.

Ltac is_kind := cbn; repeat first [apply list_elem_of_here | apply list_elem_of_further].

(** [in_window] cuts a trace at the next call that is not of the kinds of the
    part it is in. *)
Ltac in_window :=
  repeat first
    [ apply Forall_nil_2
    | apply Forall_cons_2; [is_kind|]
    | apply splits_here; eexists _, _; split; [reflexivity|]
    | apply splits_cons; [is_kind|]
    | apply splits_app;
        [eapply footprint_included; [|eassumption]; kinds_included|]
    | apply Forall_app; split;
        [eapply footprint_included; [|eassumption]; kinds_included|] ].

Lemma setup_phase_window env h st :
  ∃ o st' r,
    setup_phase env h st = (o, st', r)
    ∧ (r = Ret () →
       splits [KNow; KPrint; KDbExists; KDbQuery]
         (λ o1, ∃ a o2, o1 = EvDisableDevice a :: o2
            ∧ splits [KPrint; KGetUsers; KSetUser]
                (λ o3, ∃ b o4, o3 = EvEnableDevice b :: o4
                   ∧ Forall (λ e, kind_of e ∈ [KPrint]) o4) o2) o).
Proof.
  unfold setup_phase. unfold_monad. norm.
  destruct (db_refresh_interval <? datetime_now env h - last_db_refresh st); norm.
  - match goal with |- context [get_members_from_db env ?h' ?s'] =>
      pose proof (get_members_from_db_footprint env h' s') as Hf1;
      destruct (get_members_from_db_once env h' s') as (o1 & r1 & Hrun1 & _ & _ & _ & Hr1)
    end.
    rewrite Hrun1 in Hf1 |- *. cbn in Hf1.
    destruct Hr1 as [[c ->]| ->]; norm.
    2:{ eexists _, _, _. split; [reflexivity|]. done. }
    match goal with |- context [zk_disable_device env ?h'] =>
      destruct (zk_disable_device env h') as [e1|] end; norm.
    all: match goal with |- context [configure_device_access_groups ?a ?d ?ev ?h' ?s'] =>
      pose proof (configure_device_access_groups_footprint a d ev h' s') as Hf2;
      destruct (configure_device_access_groups_once a d ev h' s')
        as (o2 & r2 & Hrun2 & _ & _ & _ & Hr2) end.
    all: rewrite Hrun2 in Hf2 |- *; cbn in Hf2.
    all: destruct Hr2 as [-> | ->]; norm.
    all: try match goal with |- context [zk_enable_device ?ev ?h'] =>
      destruct (zk_enable_device ev h') as [e2|] end; norm.
    all: eexists _, _, _; (split; [reflexivity|]); intros Hr; try done.
    all: in_window.
  - match goal with |- context [zk_disable_device env ?h'] =>
      destruct (zk_disable_device env h') as [e1|] end; norm.
    all: destruct (device_configured st) eqn:Hdc; norm.
    all: try match goal with |- context [configure_device_access_groups ?a ?d ?ev ?h' ?s'] =>
      pose proof (configure_device_access_groups_footprint a d ev h' s') as Hf2;
      destruct (configure_device_access_groups_once a d ev h' s')
        as (o2 & r2 & Hrun2 & _ & _ & _ & Hr2);
      rewrite Hrun2 in Hf2 |- *; cbn in Hf2; destruct Hr2 as [-> | ->]; norm end.
    all: try match goal with |- context [zk_enable_device ?ev ?h'] =>
      destruct (zk_enable_device ev h') as [e2|] end; norm.
    all: eexists _, _, _; (split; [reflexivity|]); intros Hr; try done.
    all: in_window.
Qed.

(** X14: a setup phase that returns has asked the terminal to lock once and
    to unlock once, and every call that lists or assigns users lies between
    the two; the record store is read before, and a lock that the terminal
    refuses does not stop the assignment. *)
Theorem X14_group_writes_between_lock_and_unlock env h st :
  ∃ o st' r,
    setup_phase env h st = (o, st', r)
    ∧ (r = Ret () ∨ r = Raise KeyboardInterrupt)
    ∧ (r = Ret () →
       ∃ pre a mid b post,
         o = pre ++ EvDisableDevice a :: mid ++ EvEnableDevice b :: post
         ∧ Forall (λ e, kind_of e ∈ [KNow; KPrint; KDbExists; KDbQuery]) pre
         ∧ Forall (λ e, kind_of e ∈ [KPrint; KGetUsers; KSetUser]) mid
         ∧ Forall (λ e, kind_of e ∈ [KPrint]) post).
Proof.
  destruct (setup_phase_window env h st) as (o & st' & r & Hrun & Hw).
  destruct (setup_phase_spec env h st) as (o' & st'' & r' & Hrun' & Hr & _).
  rewrite Hrun in Hrun'. injection Hrun' as <- <- <-.
  exists o, st', r. split_and!; [done|done|]. intros Hret.
  destruct (Hw Hret) as (pre & o1 & -> & Hpre & a & o2 & -> & mid & o3 & -> & Hmid
                         & b & post & -> & Hpost).
  by exists pre, a, mid, b, post.
Qed.

(** ** A synchronisation that cannot list the users *)






(** ** The bounds of the loops *)

(** X16: neither loop remembers more than 500 events, as long as
    [list(seen_events)[0]] is an element of the set. *)
Theorem X16_seen_events_never_exceed_500 env :
  (∀ s : gset string, s ≠ ∅ → set_first env s ∈ s) →
  (∀ h o st, main_init env h () = (o, (), Ret st) → (size (seen_events st) ≤ 500)%nat)
  ∧ (∀ fuel turns h st,
       (size (seen_events st) ≤ 500)%nat →
       (size (seen_events (main_loop fuel turns env h st).1.2) ≤ 500)%nat)
  ∧ (size (b_seen_events monitor_start) ≤ 500)%nat
  ∧ (∀ fuel turns ip port comm_key h st,
       (size (b_seen_events st) ≤ 500)%nat →
       (size (b_seen_events (monitor_loop fuel turns ip port comm_key env h st).1.2) ≤ 500)%nat).
Proof.
  intros Hfirst. split_and!.
  - intros h o st (_ & _ & ->)%main_init_spec. rewrite size_empty. lia.
  - intros fuel turns h st. by apply main_loop_seen_bound.
  - cbn. rewrite size_empty. lia.
  - intros fuel turns ip port comm_key h st. by apply monitor_loop_seen_bound.
Qed.

(** X17: the delay before a reconnection starts at 2 seconds and stays
    between 2 and 60 seconds, in the service and in the bridge. *)
Theorem X17_reconnect_delay_within_bounds env :
  (∀ h o st, main_init env h () = (o, (), Ret st) → reconnect_delay st = 2)
  ∧ (∀ fuel turns h st,
       2 ≤ reconnect_delay st ≤ 60 →
       2 ≤ reconnect_delay (main_loop fuel turns env h st).1.2 ≤ 60)
  ∧ b_reconnect_delay monitor_start = 2
  ∧ (∀ fuel turns ip port comm_key h st,
       2 ≤ b_reconnect_delay st ≤ 60 →
       2 ≤ b_reconnect_delay (monitor_loop fuel turns ip port comm_key env h st).1.2 ≤ 60).
Proof.
  split_and!.
  - by intros h o st (-> & _)%main_init_spec.
  - intros fuel turns h st. apply (main_loop_delay_bounds env fuel turns h st).
  - done.
  - intros fuel turns ip port comm_key h st.
    apply (monitor_loop_delay_bounds env fuel turns ip port comm_key h st).
Qed.

(** ** A service without its record store *)

Lemma footprint_unlocks (ks : list kind) o :
  KUnlock ∉ ks → Forall (λ e, kind_of e ∈ ks) o → unlocks o = [].
Proof.
  intros Hk Ho. induction Ho as [|e o He Ho IH]; [done|].
  unfold unlocks in *. destruct e; cbn in *; done.
Qed.

Lemma get_members_from_db_missing {S} env h (s : S) :
  os_path_exists env h = false →
  get_members_from_db env h s
    = ([EvDbExists false; EvPrint LogDbNotFound], s, Ret empty_classification).
Proof. intros Hex. unfold get_members_from_db. unfold_monad. norm. by rewrite Hex. Qed.

Section NoStore.
Variable env : Env.
Hypothesis store_missing : ∀ h, os_path_exists env h = false.

Lemma setup_phase_closed h st :
  allowed_users (members st) = [] →
  ∃ o st' r,
    setup_phase env h st = (o, st', r)
    ∧ unlocks o = [] ∧ allowed_users (members st') = []
    ∧ (r = Ret () ∨ r = Raise KeyboardInterrupt).
Proof.
  intros Hst.
  pose proof (setup_phase_footprint env h st) as Hf.
  apply footprint_unlocks in Hf; [|by apply (bool_decide_unpack _)].
  destruct (Z.lt_ge_cases db_refresh_interval (datetime_now env h - last_db_refresh st))
    as [Hlt|Hge].
  - pose proof (setup_phase_installs env h st _ _ Hlt
                  (get_members_from_db_missing env _ st (store_missing _))) as Hm.
    destruct (setup_phase_spec env h st) as (o & st' & r & Hrun & Hr & _).
    rewrite Hrun in Hf, Hm. cbn in Hf, Hm. exists o, st', r. by rewrite Hm.
  - destruct (setup_phase_spec env h st)
      as (o & st' & r & Hrun & Hr & _ & _ & _ & _ & _ & Hsame).
    destruct (Hsame Hge) as (_ & _ & Hm & _).
    rewrite Hrun in Hf. cbn in Hf. exists o, st', r. by rewrite Hm.
Qed.

Lemma session_closed fuel h st :
  allowed_users (members st) = [] →
  ∃ o s1 r,
    session fuel env h st = (o, s1, r)
    ∧ unlocks o = [] ∧ allowed_users (members s1) = [].
Proof.
  intros Hst. unfold session, connect_device. unfold_monad. norm.
  destruct (zk_connect env (h ++ [EvPrint LogConnecting])) as [e|]; norm; [conclude|].
  match goal with |- context [setup_phase env ?h' ?s'] =>
    destruct (setup_phase_closed h' s') as (o1 & s1 & r1 & -> & Hu1 & Hm1 & Hr1) end; [done|].
  destruct Hr1 as [-> | ->]; norm; [|conclude].
  match goal with |- context [live_capture_loop fuel env ?h' ?s'] =>
    destruct (live_capture_loop_admits fuel env h' s')
      as (o2 & seen & r2 & -> & Hl2 & Ha2 & _) end.
  rewrite Hm1 in Ha2.
  assert (unlocks o2 = []) as Hu2.
  { apply length_zero_iff_nil. rewrite Hl2.
    destruct (admitted o2) as [|u l]; [done|].
    apply Forall_cons in Ha2 as [[]%elem_of_nil _]. }
  exists (EvPrint LogConnecting
            :: EvConnect (DEVICE_IP env) (PORT env) (COMM_KEY env) None
            :: EvPrint LogConnected :: o1 ++ o2), (set_seen_events seen s1),
         (match r2 with Ret _ => Ret Continue | Raise e => Raise e | OutOfFuel => OutOfFuel end).
  split; [destruct r2; cbn; by rewrite ?app_nil_r|]. split; [|done].
  change (unlocks ([EvPrint LogConnecting;
                    EvConnect (DEVICE_IP env) (PORT env) (COMM_KEY env) None;
                    EvPrint LogConnected] ++ o1 ++ o2) = []).
  by rewrite !unlocks_app, Hu1, Hu2.
Qed.

Lemma main_loop_closed fuel turns h st :
  allowed_users (members st) = [] →
  unlocks (main_loop fuel turns env h st).1.1 = [].
Proof.
  revert h st. induction turns as [|turns IH]; intros h st Hst; [done|].
  cbn [main_loop]. unfold mbind, M_bind, bind.
  destruct (session_closed fuel h (set_conn false st)) as (o1 & s1 & r1 & Hrun & Hu1 & Hm1);
    [done|].
  rewrite (main_iteration_run _ _ _ _ _ _ _ Hrun). cbv zeta.
  destruct r1 as [[|]|[|c msg]|]; [| | |destruct (time_sleep env _ _)|];
    try match goal with
        | |- context [main_loop fuel turns env ?h' ?s'] =>
            specialize (IH h' s' Hm1);
            destruct (main_loop fuel turns env h' s') as [[o2 s2] r2]
        end;
    unfold mret, M_ret, ret; cbn [fst snd] in *;
    rewrite ?unlocks_app, ?Hu1, ?IH; by destruct (conn s1).
Qed.
End NoStore.

(** X18: without its database file the service never drives the relay,
    whoever scans: it starts and reloads with nobody allowed. *)
Theorem X18_no_store_no_unlock fuel turns env h :
  (∀ h', os_path_exists env h' = false) →
  unlocks (main fuel turns env h).1 = [].
Proof.
  intros Hmissing. unfold main, main_init. unfold_monad. norm.
  rewrite (get_members_from_db_missing env _ () (Hmissing _)). norm.
  match goal with |- context [main_loop fuel turns env ?h' ?s'] =>
    pose proof (main_loop_closed env Hmissing fuel turns h' s' eq_refl) as Hu;
    destruct (main_loop fuel turns env h' s') as [[o2 s2] r2] end.
  exact Hu.
Qed.

(** ** The bridge, continued *)

Lemma assignment_outcomes_app o1 o2 :
  assignment_outcomes (o1 ++ o2) = assignment_outcomes o1 ++ assignment_outcomes o2.
Proof. apply omap_app. Qed.

(** The loop of [sync_access_groups] calls nothing but [set_user], and lists
    one result per call. *)
Lemma sync_members_run {S} d members results env h (s : S) :
  ∃ o r,
    sync_members d members results env h s = (o, s, r)
    ∧ disconnects o = 0%nat
    ∧ (∀ items, r = Ret items →
         item_outcome <$> items = (item_outcome <$> results) ++ assignment_outcomes o).
Proof.
  revert results h. induction members as [|[fields|v] rest IH]; intros results h;
    cbn [sync_members].
  - eexists _, _. split; [reflexivity|]. split; [done|].
    intros items [= <-]. by rewrite app_nil_r.
  - cbv zeta. destruct (String.eqb _ ""); [apply IH|].
    destruct (d !! _) as [user|]; [|apply IH].
    unfold_monad. norm.
    destruct (zk_set_user env h _) as [[|c msg]|] eqn:Hset; norm.
    + eexists _, _. split; [reflexivity|]. split; [done|]. by intros items [=].
    + match goal with |- context [sync_members d rest ?res env ?h' s] =>
        destruct (IH res h') as (o & r & -> & Hd & Hi) end.
      eexists _, _. split; [by destruct r|]. split; [done|].
      intros items Hr. destruct r as [items'| |]; try done. injection Hr as <-.
      rewrite (Hi items' eq_refl), fmap_app. cbn. by rewrite <- app_assoc.
    + match goal with |- context [sync_members d rest ?res env ?h' s] =>
        destruct (IH res h') as (o & r & -> & Hd & Hi) end.
      eexists _, _. split; [by destruct r|]. split; [done|].
      intros items Hr. destruct r as [items'| |]; try done. injection Hr as <-.
      rewrite (Hi items' eq_refl), fmap_app. cbn. by rewrite <- app_assoc.
  - eexists _, _. split; [reflexivity|]. split; [done|]. by intros items [=].
Qed.

(** X19: [sync_access_groups] never raises an [Exception]: it answers.
    It answers with results only after it has hung up, with one result per
    assignment it tried, in their order, successful when the terminal
    accepted; when the connection fails it answers with the message of the
    failure and calls nothing else; and when it fails after the connection,
    it has not hung up, unless the failure is that of hanging up. *)
Theorem X19_sync_access_groups_answers {S} ip port comm_key members_json env h (s : S) :
  ∃ o r,
    sync_access_groups ip port comm_key members_json env h s = (o, s, r)
    ∧ (∀ c msg, r ≠ Raise (Exception c msg))
    ∧ (∀ results, r = Ret (SuccessResults results) →
         last o = Some (EvDisconnect None)
         ∧ disconnects o = 1%nat
         ∧ item_outcome <$> results = assignment_outcomes o)
    ∧ (∀ c msg, zk_connect env h = Some (Exception c msg) →
         o = [EvConnect ip port comm_key (Some (Exception c msg))] ∧ r = Ret (Failure msg))
    ∧ (∀ msg, r = Ret (Failure msg) →
         disconnects o = 0%nat ∨ ∃ c, last o = Some (EvDisconnect (Some (Exception c msg)))).
Proof.
  unfold sync_access_groups. unfold_monad. norm.
  destruct (zk_connect env h) as [[|c msg]|] eqn:Hc; norm.
  1,2: eexists _, _; (split; [reflexivity|]); split_and!; try done;
       try (by intros ?? [= <- <-]); by left.
  destruct members_json as [members|]; norm.
  2:{ eexists _, _; (split; [reflexivity|]); split_and!; try done. by left. }
  destruct (zk_get_users env _) as [[|c msg]|users] eqn:Hg; norm.
  1,2: eexists _, _; (split; [reflexivity|]); split_and!; try done; by left.
  match goal with |- context [sync_members ?d members ?res env ?h' s] =>
    destruct (sync_members_run d members res env h' s) as (o & r & -> & Hd & Hi) end.
  destruct r as [items|[|c msg]|]; norm.
  - destruct (zk_disconnect env _) as [[|c msg]|] eqn:Hdis; norm;
      eexists _, _; (split; [reflexivity|]); split_and!; try done.
    + intros msg' [= <-]. right. exists c.
      change (EvConnect ip port comm_key None :: EvGetUsers (inr users)
                :: o ++ [EvDisconnect (Some (Exception c msg))])
        with ([EvConnect ip port comm_key None; EvGetUsers (inr users)]
                ++ o ++ [EvDisconnect (Some (Exception c msg))]).
      by rewrite !app_assoc, last_snoc.
    + intros results [= <-].
      change (EvConnect ip port comm_key None :: EvGetUsers (inr users)
                :: o ++ [EvDisconnect None])
        with ([EvConnect ip port comm_key None; EvGetUsers (inr users)]
                ++ o ++ [EvDisconnect None]).
      rewrite !assignment_outcomes_app, !disconnects_app, Hd, (Hi items eq_refl).
      rewrite !app_assoc, last_snoc. cbn. by rewrite app_nil_r.
  - eexists _, _; (split; [reflexivity|]); split_and!; try done.
  - eexists _, _; (split; [reflexivity|]); split_and!; try done.
    intros msg' [= <-]. left. rewrite app_nil_r.
    change (disconnects ([EvConnect ip port comm_key None; EvGetUsers (inr users)] ++ o)
            = 0%nat).
    by rewrite disconnects_app, Hd.
  - eexists _, _; (split; [reflexivity|]); split_and!; try done.
Qed.

(** X20: the two one-shot commands answer and never raise an [Exception];
    they succeed exactly when every call to the terminal did; [unlock_door]
    drives the relay at most once, for the duration asked, and not at all
    when the connection fails; a relay that refuses leaves the connection
    without a hang-up. *)
Theorem X20_one_shot_commands_answer {S} ip port comm_key seconds env h (s : S) :
  (∃ o r,
     unlock_door ip port comm_key seconds env h s = (o, s, r)
     ∧ (∀ c msg, r ≠ Raise (Exception c msg))
     ∧ (r = Ret Success ↔
        o = [EvConnect ip port comm_key None; EvUnlock seconds None; EvDisconnect None])
     ∧ (zk_connect env h ≠ None → unlocks o = [])
     ∧ ((∃ answer, unlocks o = [(seconds, answer)] ∧ answer ≠ None) →
        disconnects o = 0%nat))
  ∧ (∃ o r,
       test_connection ip port comm_key env h s = (o, s, r)
       ∧ (∀ c msg, r ≠ Raise (Exception c msg))
       ∧ (r = Ret SuccessConnected ↔
          o = [EvConnect ip port comm_key None; EvDisconnect None])
       ∧ unlocks o = []).
Proof.
  split.
  - unfold unlock_door. unfold_monad. norm.
    destruct (zk_connect env h) as [[|c msg]|]; norm.
    1,2: eexists _, _; (split; [reflexivity|]); split_and!; try done;
         intros (a & [=] & _).
    destruct (zk_unlock env _ _) as [[|c msg]|]; norm.
    1,2: eexists _, _; (split; [reflexivity|]); split_and!; done.
    destruct (zk_disconnect env _) as [[|c msg]|]; norm;
      eexists _, _; (split; [reflexivity|]); split_and!; try done;
      intros (a & [= <-] & Ha); done.
  - unfold test_connection. unfold_monad. norm.
    destruct (zk_connect env h) as [[|c msg]|]; norm.
    1,2: eexists _, _; (split; [reflexivity|]); split_and!; done.
    destruct (zk_disconnect env _) as [[|c msg]|]; norm;
      eexists _, _; (split; [reflexivity|]); split_and!; done.
Qed.

Lemma json_lines_app o1 o2 : json_lines (o1 ++ o2) = json_lines o1 ++ json_lines o2.
Proof. apply omap_app. Qed.

Lemma captures_app o1 o2 : captures (o1 ++ o2) = (captures o1 + captures o2)%nat.
Proof. unfold captures. by rewrite omap_app, length_app. Qed.

Lemma b_on_attendance_lines a env h st :
  ∃ o st',
    b_on_attendance a env h st = (o, st', Ret ())
    ∧ captures o = 0%nat
    ∧ (length (json_lines o) ≤ 1)%nat
    ∧ Forall (λ j, ∃ uid stamp, j = JScan uid stamp ∧ uid ≠ "") (json_lines o).
Proof.
  unfold b_on_attendance. destruct a as [a|].
  2:{ eexists _, _. split; [reflexivity|]. cbn. split_and!; [done|lia|done]. }
  destruct (String.eqb _ "") eqn:Huid.
  { eexists _, _. split; [reflexivity|]. cbn. split_and!; [done|lia|done]. }
  apply String.eqb_neq in Huid.
  unfold_monad. norm. destruct (bool_decide _); norm.
  { eexists _, _. split; [reflexivity|]. cbn. split_and!; [done|lia|done]. }
  destruct (att_timestamp a); norm; eexists _, _; (split; [reflexivity|]); cbn;
    (split_and!; [done|lia|]); apply Forall_singleton; eauto.
Qed.

(** X21: the bridge writes at most one line per event of the live capture,
    always a scan line, and never one with an empty user id. *)
Theorem X21_bridge_writes_scan_lines fuel env h st :
  let o := (b_live_capture_loop fuel env h st).1.1 in
  Forall (λ j, ∃ uid stamp, j = JScan uid stamp ∧ uid ≠ "") (json_lines o)
  ∧ (length (json_lines o) ≤ captures o)%nat.
Proof.
  cbv zeta. revert h st. induction fuel as [|fuel IH]; intros h st.
  { cbn. split; [done|lia]. }
  cbn [b_live_capture_loop]. unfold_monad. norm.
  destruct (zk_live_capture env h) as [e|[a|]]; norm; [split; [done|lia]| |split; [done|lia]].
  destruct (b_on_attendance_lines a env (h ++ [EvLiveCapture (inr (Yield a))]) st)
    as (o1 & st1 & -> & Hc1 & Hl1 & Hj1); norm.
  specialize (IH (h ++ EvLiveCapture (inr (Yield a)) :: o1) st1).
  destruct (b_live_capture_loop fuel env _ st1) as [[o2 s2] r2]. cbn [fst] in *.
  destruct IH as [Hj2 Hl2].
  assert (∀ r : res (), (let '(o3, s3, r3) := (o2, s2, r) in
                         (EvLiveCapture (inr (Yield a)) :: o1 ++ o3, s3, r3)).1.1
                        = [EvLiveCapture (inr (Yield a))] ++ o1 ++ o2) as Heq by done.
  destruct r2; cbn [fst]; rewrite ?Heq;
    change (EvLiveCapture (inr (Yield a)) :: o1 ++ o2)
      with ([EvLiveCapture (inr (Yield a))] ++ o1 ++ o2);
    rewrite !json_lines_app, !captures_app, !length_app; cbn;
    (split; [by apply Forall_app|unfold captures in *; cbn; lia]).
Qed.

(** X22: [monitor_scans] starts with its status line, and from there on only
    writes lines, connects, locks and unlocks the terminal, waits, reads the
    live capture and the clock, and hangs up: it never lists or assigns
    users, never drives the relay and never posts a report. *)
Theorem X22_monitor_scans_only_watches fuel turns ip port comm_key unlock_seconds env h :
  ∃ o r,
    monitor_scans fuel turns ip port comm_key unlock_seconds env h
      = (EvOut (JStatus "Starting biometric monitoring service") :: o, r)
    ∧ Forall (λ e, kind_of e ∈ [KOut; KConnect; KDisableDevice; KSleep; KEnableDevice;
                                KLiveCapture; KNow; KDisconnect]) o.
Proof.
  unfold monitor_scans. unfold_monad. norm.
  match goal with |- context [monitor_loop fuel turns ip port comm_key env ?h' ?s'] =>
    pose proof (monitor_loop_footprint fuel turns ip port comm_key env h' s') as Hf;
    destruct (monitor_loop fuel turns ip port comm_key env h' s') as [[o s2] r] end.
  by exists o, r.
Qed.

(** ** Sample runs of the further properties *)

Lemma sample_env_set_first connect capture clock db_exists (s : gset string) :
  s ≠ ∅ → set_first (sample_env connect capture clock db_exists) s ∈ s.
Proof.
  intros Hs. cbn. destruct (elements s) as [|x l] eqn:Hel.
  - destruct Hs. by apply leibniz_equiv, elements_empty_inv; rewrite Hel.
  - cbn. apply elem_of_elements. rewrite Hel. by left.
Defined.

Lemma X2_witness :
  ∃ o c,
    get_members_from_db quiet_env [] () = (o, (), Ret c)
    ∧ allowed_users c ++ denied_users c
      ≡ₚ biometric_id_of <$> List.filter filed (List.filter sql_where sample_table)
    ∧ (length (allowed_users c) + length (denied_users c))%nat
      = length (List.filter filed (List.filter sql_where sample_table)).
Proof.
  apply (X2_every_filed_row_listed_once quiet_env [] () sample_table); reflexivity.
Defined.

Lemma X3_witness :
  ∃ o c,
    get_members_from_db quiet_env [] () = (o, (), Ret c)
    ∧ NoDup (allowed_users c ++ denied_users c)
    ∧ (∀ k, k ∈ allowed_users c → k ∉ denied_users c)
    ∧ size (member_map c) = (length (allowed_users c) + length (denied_users c))%nat.
Proof.
  apply (X3_unique_identifiers_listed_once quiet_env [] () sample_table);
    [reflexivity|reflexivity|].
  apply (bool_decide_unpack _). vm_compute. exact I.
Defined.

Lemma X4_witness :
  ∃ o c,
    get_members_from_db quiet_env [] () = (o, (), Ret c)
    ∧ member_map c !! biometric_id_of row_ravi = Some (member_info_of row_ravi).
Proof.
  apply (X4_snapshot_of_last_record quiet_env [] () [row_asha] row_ravi
           [row_meera; row_kiran; row_dev]); [reflexivity|reflexivity|..].
  - split; [reflexivity|]. vm_compute. discriminate.
  - intros r' Hr' _.
    repeat (apply elem_of_cons in Hr' as [-> | Hr']; [vm_compute; discriminate|]).
    by apply elem_of_nil in Hr'.
Defined.

Lemma X5_witness :
  ∃ o r,
    process_scan "9999" None ["1001"] ["1002"] ∅ quiet_env [] () = (o, (), r)
    ∧ unlocks o = []
    ∧ reports o = [{| pl_biometricId := "9999";
                      pl_memberId := SNull;
                      pl_memberName := SNull;
                      pl_allowed := false;
                      pl_reason := "unknown_user";
                      pl_timestamp := isoformat quiet_env
                                        (default (datetime_now quiet_env []) None) |}]
    ∧ (r = Ret () ∨ r = Raise KeyboardInterrupt).
Proof.
  apply (X5_unknown_scan_reported_not_unlocked quiet_env [] () "9999" None ["1001"] ["1002"] ∅);
    apply (bool_decide_unpack _); vm_compute; exact I.
Defined.

Lemma X6_witness :
  ∃ o r,
    process_scan "1002" None ["1001"] ["1002"] ∅ quiet_env [] () = (o, (), r)
    ∧ unlocks o = []
    ∧ reports o = [{| pl_biometricId := "1002";
                      pl_memberId := SNull;
                      pl_memberName := SText ("User " +:+ "1002");
                      pl_allowed := false;
                      pl_reason := "denied";
                      pl_timestamp := isoformat quiet_env
                                        (default (datetime_now quiet_env []) None) |}]
    ∧ (r = Ret () ∨ r = Raise KeyboardInterrupt).
Proof.
  apply (X6_denied_scan_without_snapshot quiet_env [] () "1002" None ["1001"] ["1002"] ∅);
    [apply (bool_decide_unpack _); vm_compute; exact I
    |apply (bool_decide_unpack _); vm_compute; exact I
    |reflexivity].
Defined.

Lemma X8_witness :
  ∃ o p,
    process_scan "1001" None ["1001"] ["1002"] ∅ faulty_env [] () = (o, (), Ret ())
    ∧ reports o = [p]
    ∧ pl_biometricId p = "1001".
Proof.
  apply (X8_scan_survives_relay_and_endpoint faulty_env [] () "1001" None ["1001"] ["1002"] ∅);
    intros; cbn; discriminate.
Defined.



Lemma X16_witness :
  (size (seen_events (main_loop 5 1 replay_env [] (sample_state 0%Z)).1.2) ≤ 500)%nat.
Proof.
  apply (proj1 (proj2 (X16_seen_events_never_exceed_500 replay_env
                         (sample_env_set_first _ _ _ _)))).
  apply Nat.leb_le. vm_compute. reflexivity.
Defined.

Lemma X18_witness :
  unlocks (main 5 2 no_store_replay_env []).1 = [].
Proof. apply (X18_no_store_no_unlock 5 2 no_store_replay_env []). reflexivity. Defined.

(** An interrupt while the terminal is asked to lock goes unnoticed: the
    setup goes on, and the loop reconnects after the live capture breaks. *)
Example interrupt_during_lock_is_swallowed :
  let run := main_loop 1 2 lock_interrupted_env [] (sample_state 0) in
  sleeps run.1.1 = [2000; 2000]
  ∧ (EvPrint LogExiting ∉ run.1.1)
  ∧ run.2 = OutOfFuel.
Proof.
  vm_compute. split_and!; [done| |done].
  intros Hin. repeat (apply elem_of_cons in Hin as [[=] | Hin]). by apply elem_of_nil in Hin.
Qed.

(** The run behind the last witness: the terminal replays a scan of Asha,
    who is reported as unknown. *)
Example scan_without_store :
  (λ p, (pl_biometricId p, pl_allowed p, pl_reason p))
    <$> reports (main 5 1 no_store_replay_env []).1
  = [("1001", false, "unknown_user")].
Proof. vm_compute. done. Qed.
